(** * Lucjan boiler controller: device client and snapshot builder

    A shallow embedding of [custom_components/lucjan_boiler/api.py] and
    [custom_components/lucjan_boiler/coordinator.py], and the properties
    of the config-file helpers, of the write commands, of the poll cycle
    and of the derived snapshot values.

    Python [str] values are lists of Unicode code points; [dict]s are
    finite maps; [float]s are IEEE binary64 values ([spec_float] with
    [prec = 53], [emax = 1024]); a coroutine is a function of the state of
    the outside world that returns a value or raises. *)

From Stdlib Require Import ZArith NArith String Ascii DecimalString.
From Stdlib Require Import Floats.SpecFloat.
From stdpp Require Import gmap list.

Local Open Scope N_scope.

(** ** Python strings *)

Abbreviation str := (list N).

(** An ASCII literal as a Python string. *)
Definition py (x : string) : str := N_of_ascii <$> list_ascii_of_string x.

(** Line boundaries of [str.splitlines]: LF, VT, FF, CR, FS, GS, RS, NEL,
    LINE SEPARATOR and PARAGRAPH SEPARATOR. *)
Definition is_linebreak (c : N) : bool :=
  existsb (N.eqb c) [10; 11; 12; 13; 28; 29; 30; 133; 8232; 8233].

(** Whitespace in the sense of [str.strip()] with no argument. *)
Definition isspace (c : N) : bool :=
  ((9 <=? c) && (c <=? 13)) || ((28 <=? c) && (c <=? 32))
  || (c =? 133) || (c =? 160) || (c =? 5760)
  || ((8192 <=? c) && (c <=? 8202))
  || (c =? 8232) || (c =? 8233) || (c =? 8239) || (c =? 8287) || (c =? 12288).

Fixpoint lstrip (s : str) : str :=
  match s with
  | c :: s' => if isspace c then lstrip s' else s
  | [] => []
  end.

Definition rstrip (s : str) : str := reverse (lstrip (reverse s)).

Definition strip (s : str) : str := rstrip (lstrip s).

Fixpoint startswith (prefix s : str) : bool :=
  match prefix, s with
  | [], _ => true
  | p :: prefix', c :: s' => (p =? c) && startswith prefix' s'
  | _ :: _, [] => false
  end.

(** [s.find(sub)], with [None] for Python's [-1]. *)
Fixpoint find (sub s : str) : option nat :=
  if startswith sub s then Some 0%nat
  else match s with
       | [] => None
       | _ :: s' => S <$> find sub s'
       end.

(** [sub in s]. *)
Definition contains (sub s : str) : bool :=
  match find sub s with Some _ => true | None => false end.

(** [s.partition(sep)]. *)
Definition partition (sep s : str) : str * str * str :=
  match find sep s with
  | Some i => (take i s, sep, drop (i + length sep) s)
  | None => (s, [], [])
  end.

(** [sep.join(parts)]. *)
Fixpoint join (sep : str) (parts : list str) : str :=
  match parts with
  | [] => []
  | [x] => x
  | x :: rest => x ++ sep ++ join sep rest
  end.

(** [s.splitlines()]: [cur] holds, reversed, the characters read since the
    last boundary; CR LF is one boundary; no empty line after a final
    boundary. *)
Fixpoint splitlines_from (cur : str) (s : str) : list str :=
  match s with
  | [] => match cur with [] => [] | _ => [reverse cur] end
  | c :: s' =>
      if is_linebreak c then
        match s' with
        | c' :: s'' =>
            if (c =? 13) && (c' =? 10)
            then reverse cur :: splitlines_from [] s''
            else reverse cur :: splitlines_from [] s'
        | [] => reverse cur :: splitlines_from [] s'
        end
      else splitlines_from (c :: cur) s'
  end.

Definition splitlines (s : str) : list str := splitlines_from [] s.

(** The string ["\n"]. *)
Definition LF : str := [10].

(** ** The config-file helpers of [LucjanApi] *)

(** The loop of [_replace_config_param]: [todo] is what [enumerate(lines)]
    has still to yield, [i] the index of its head; the result is the list
    [lines] after the loop and the flag [found]. *)
Fixpoint _replace_config_param_loop (param new_value : str)
    (lines : list str) (i : nat) (todo : list str) : list str * bool :=
  match todo with
  | [] => (lines, false)
  | line :: todo' =>
      let stripped := strip line in
      if startswith (py "#") stripped then
        _replace_config_param_loop param new_value lines (S i) todo'
      else if contains (py "=") stripped then
        let '(key, _, _) := partition (py "=") stripped in
        if bool_decide (strip key = param) then
          (if contains (py " = ") line
           then <[i := param ++ py " = " ++ new_value]> lines
           else <[i := param ++ py "=" ++ new_value]> lines,
           true)
        else _replace_config_param_loop param new_value lines (S i) todo'
      else _replace_config_param_loop param new_value lines (S i) todo'
  end.

Definition _replace_config_param (config_text param new_value : str)
    : option str :=
  let lines := splitlines config_text in
  let '(lines, found) :=
    _replace_config_param_loop param new_value lines 0 lines in
  if negb found then None
  else Some (join LF lines ++ LF).

(** One iteration of the loop of [_parse_config]: the assignment
    [config[key] = value] it performs, if any.  ([value.index("#")] is
    only evaluated when ["#" in value], so it cannot raise.) *)
Definition _parse_config_line (line : str) : option (str * str) :=
  let line := strip line in
  if bool_decide (line = []) || startswith (py "#") line then None
  else if contains (py "=") line then
    let '(key, _, value) := partition (py "=") line in
    let key := strip key in
    let value := strip value in
    let value :=
      if contains (py "#") value
      then match find (py "#") value with
           | Some i => strip (take i value)
           | None => value
           end
      else value in
    if negb (bool_decide (key = [])) && negb (startswith (py "#") key)
    then Some (key, value)
    else None
  else None.

Definition _parse_config_step (config : gmap str str) (line : str)
    : gmap str str :=
  match _parse_config_line line with
  | Some (key, value) => <[key := value]> config
  | None => config
  end.

Definition _parse_config (text : str) : gmap str str :=
  foldl _parse_config_step ∅ (splitlines text).

(** The test the loop of [_replace_config_param] applies to a line: not a
    comment, contains ["="], and the stripped text before the first ["="]
    is [param]. *)
Definition is_param_line (param line : str) : bool :=
  let stripped := strip line in
  negb (startswith (py "#") stripped)
  && contains (py "=") stripped
  && bool_decide (strip (partition (py "=") stripped).1.1 = param).

(** The line [_replace_config_param] writes in place of [line]. *)
Definition rewritten_line (param new_value line : str) : str :=
  if contains (py " = ") line
  then param ++ py " = " ++ new_value
  else param ++ py "=" ++ new_value.

(** ** Python integers and floats *)

Local Open Scope Z_scope.

Abbreviation float := spec_float.

(** [str(z)] for an [int]. *)
Definition str_of_Z (z : Z) : str :=
  py (DecimalString.NilEmpty.string_of_int (Z.to_int z)).

(** [float(z)] for an [int]: the nearest double, ties to even; [None] when
    the result is out of range (Python raises [OverflowError]). *)
Definition float_of_Z (z : Z) : option float :=
  match binary_normalize 53 1024 z 0 false with
  | S754_infinity _ => None
  | f => Some f
  end.

(** An [int] literal used as a [float] operand ([/ 60], [* 100], [< 0]). *)
Definition flit (z : Z) : float := binary_normalize 53 1024 z 0 false.

Definition fdiv : float → float → float := SFdiv 53 1024.
Definition fmul : float → float → float := SFmul 53 1024.
Definition flt : float → float → bool := SFltb.

(** [n / d] rounded to the nearest integer, ties to even ([0 < d]). *)
Definition round_half_even (n d : Z) : Z :=
  let q := n / d in
  let r := n mod d in
  match 2 * r ?= d with
  | Lt => q
  | Gt => q + 1
  | Eq => if Z.even q then q else q + 1
  end.

(** [round(x, ndigits)] for a [float] and [0 <= ndigits]: the exact value
    of [x] is rounded to [ndigits] decimals, ties to even, and the nearest
    double of that decimal is returned; infinities, NaN and zeros round to
    themselves. *)
Definition py_round (x : float) (ndigits : Z) : float :=
  match x with
  | S754_finite s m e =>
      let p := 10 ^ ndigits in
      let n := if 0 <=? e
               then Zpos m * 2 ^ e * p
               else round_half_even (Zpos m * p) (2 ^ (- e)) in
      match n with
      | Zpos n' =>
          SFdiv 53 1024 (S754_finite s n' 0) (S754_finite false (Z.to_pos p) 0)
      | _ => S754_zero s
      end
  | _ => x
  end.

(** ** Exceptions and results

    [exn] holds instances of [Exception]: every member is matched by a
    clause [except Exception].  What derives from [BaseException] only
    ([asyncio.CancelledError], [KeyboardInterrupt]) has no member: no
    coroutine below is cancelled, every await returns or raises an
    [Exception]. *)

Inductive exn :=
| LucjanApiError (msg : str)
| LucjanConnectionError (msg : str)
| LucjanAuthError (msg : str)
| TimeoutError
| ClientError (msg : str)
| ValueError
| UnicodeEncodeError
| TypeError
| OverflowError
| AttributeError
| KeyError
| OtherException (msg : str)
| UpdateFailed (prefix : str) (err : exn).

(** [isinstance(err, LucjanApiError)]: the base class and its two
    subclasses. *)
Definition is_LucjanApiError (err : exn) : bool :=
  match err with
  | LucjanApiError _ | LucjanConnectionError _ | LucjanAuthError _ => true
  | _ => false
  end.

Definition is_LucjanConnectionError (err : exn) : bool :=
  match err with
  | LucjanConnectionError _ => true
  | _ => false
  end.

(** [str(err)] where the client formats it. *)
Definition exn_str (err : exn) : str :=
  match err with
  | LucjanApiError msg | LucjanConnectionError msg | LucjanAuthError msg
  | ClientError msg | OtherException msg => msg
  | _ => []
  end.

Inductive result (A : Type) :=
| Return (a : A)
| Raise (err : exn).
Arguments Return {A} a.
Arguments Raise {A} err.

Definition rbind {A B} (r : result A) (k : A → result B) : result B :=
  match r with
  | Return a => k a
  | Raise err => Raise err
  end.

Declare Scope result_scope.
Delimit Scope result_scope with result.
Notation "'let?' x ':=' r 'in' k" := (rbind r (λ x, k))
  (at level 10, x name, r at level 100, k at level 200) : result_scope.

(** ** Decoded JSON values *)

#[local] Unset Elimination Schemes.
Inductive json :=
| JNull
| JBool (b : bool)
| JInt (z : Z)
| JFloat (f : float)
| JStr (s : str)
| JArr (l : list json)
| JObj (m : gmap str json).
#[local] Set Elimination Schemes.

(** The builtins whose text formats are Python's own: [float(s)] and
    [int(s)] of a string ([None] for [ValueError]) and [str(v)]. *)
Class PyBuiltins := {
  float_of_str : str → option float;
  int_of_str : str → option Z;
  py_str : json → str;
}.

(** [d.get(key)]: [None] (here [JNull]) when the key is missing. *)
Definition dict_get (d : gmap str json) (key : str) : json :=
  default JNull (d !! key).

(** [config.get(key)] on the parsed config, as a value. *)
Definition config_get (config : gmap str str) (key : str) : json :=
  from_option JStr JNull (config !! key).

(** [config.get(key, "unknown")]. *)
Definition config_get_default (config : gmap str str) (key : str) : str :=
  default (py "unknown") (config !! key).

(** [int(f)] for a float: truncation towards zero. *)
Definition int_of_float (f : float) : result Z :=
  match f with
  | S754_zero _ => Return 0
  | S754_infinity _ => Raise OverflowError
  | S754_nan => Raise ValueError
  | S754_finite s m e =>
      let a := if 0 <=? e then Zpos m * 2 ^ e else Zpos m / 2 ^ (- e) in
      Return (if s then - a else a)
  end.

Section Builtins.
Context `{PyBuiltins}.

(** [float(value)]. *)
Definition py_float (value : json) : result float :=
  match value with
  | JNull => Raise TypeError
  | JBool b => Return (flit (if b then 1 else 0))
  | JInt z => match float_of_Z z with
              | Some f => Return f
              | None => Raise OverflowError
              end
  | JFloat f => Return f
  | JStr s => match float_of_str s with
              | Some f => Return f
              | None => Raise ValueError
              end
  | JArr _ | JObj _ => Raise TypeError
  end.

(** [int(value)]. *)
Definition py_int (value : json) : result Z :=
  match value with
  | JNull => Raise TypeError
  | JBool b => Return (if b then 1 else 0)
  | JInt z => Return z
  | JFloat f => int_of_float f
  | JStr s => match int_of_str s with
              | Some z => Return z
              | None => Raise ValueError
              end
  | JArr _ | JObj _ => Raise TypeError
  end.

(** The clause [except (ValueError, TypeError)]; a
    [UnicodeEncodeError] is a [ValueError]. *)
Definition is_ValueError_or_TypeError (err : exn) : bool :=
  match err with
  | ValueError | UnicodeEncodeError | TypeError => true
  | _ => false
  end.

Definition _safe_float (value : json) : result (option float) :=
  match value with
  | JNull => Return None
  | _ =>
      match py_float value with
      | Return f => Return (Some f)
      | Raise err =>
          if is_ValueError_or_TypeError err then Return None else Raise err
      end
  end.

Definition _safe_positive (value : json) : result (option float) :=
  (let? result := _safe_float value in
   match result with
   | Some f => if flt f (flit 0) then Return None else Return result
   | None => Return result
   end)%result.

Definition _safe_int (value : json) : result (option Z) :=
  match value with
  | JNull => Return None
  | _ =>
      match py_int value with
      | Return z => Return (Some z)
      | Raise err =>
          if is_ValueError_or_TypeError err then Return None else Raise err
      end
  end.

Definition _int_to_bool (value : json) : result bool :=
  match value with
  | JNull => Return false
  | _ =>
      match py_int value with
      | Return z => Return (negb (z =? 0))
      | Raise err =>
          if is_ValueError_or_TypeError err then Return false else Raise err
      end
  end.
End Builtins.

(** ** const.py *)

Definition DEFAULT_PORT : Z := 80.
Definition ENDPOINT_THERMOS : str := py "/thermos.json".
Definition ENDPOINT_CONFIG : str := py "/config.txt".

Definition TEMP_SENSORS : list str :=
  py <$> [ "tPIEC"; "tPOWROT"; "tPODAJNIK"; "tZEW"; "tWEW"; "tCWU";
           "tPODLOGA"; "tSPALINY"; "tT1"; "tT2"; "tT3"; "tT4"; "tT5"; "tT6";
           "tT7"; "tT8" ]%string.

(** ** coordinator.py: the snapshot [LucjanData] *)

Record LucjanData := {
  raw_thermos : gmap str json;
  raw_config : gmap str str;
  temperatures : gmap str (option float);
  pump_co : bool;
  pump_cwu1 : bool;
  pump_cwu2 : bool;
  circulation : bool;
  feeder : bool;
  thermostat : bool;
  alarm : bool;
  fan_power : option float;
  fan_modulation : option float;
  feeder_time_s : option float;
  feeder_time_remaining_s : option float;
  feeder_time_total_s : option float;
  feeder_g_per_min : option float;
  hopper_cm : option float;
  hopper_percent_raw : option float;
  firmware_version : str;
  uptime_seconds : option Z;
  target_temp_co : option float;
  target_temp_cwu : option float;
  boiler_mode : str;
  co_mode : str;
  cwu_mode : str;
  algorithm : str;
  piec_t_max : option float;
  piec_t_min : option float;
  co_algorytm : str;
  cwu_algorytm : str;
  cwu_priorytet : str;
  cwu_histereza : option float;
  cwu_t_max : option float;
  piec_histereza_raw : option float;
  zawor4d_tryb : str;
  zawor4d_zadana : option float;
  zawor4d_czujnik : str;
  zawor4d_histereza_raw : option float;
  zawor4d_preset : option float;
  cyrkulacja_algorytm : str;
  cyrkulacja_tmin : option float;
  autolato_temp : option float;
  autolato_twew : option float;
  autolato_histereza_raw : option float;
}.

(** [len(v)], [v[i]] for an index [i], and the method call [v.get(key)],
    on a decoded JSON value. *)
Definition py_len (v : json) : result nat :=
  match v with
  | JArr l => Return (length l)
  | JStr s => Return (length s)
  | JObj m => Return (size m)
  | _ => Raise TypeError
  end.

Definition py_getitem (v : json) (i : nat) : result json :=
  match v with
  | JArr l => match l !! i with
              | Some x => Return x
              | None => Raise (OtherException (py "IndexError"))
              end
  | JStr s => match s !! i with
              | Some c => Return (JStr [c])
              | None => Raise (OtherException (py "IndexError"))
              end
  | JObj _ => Raise KeyError
  | _ => Raise TypeError
  end.

Definition py_get (v : json) (key : str) : result json :=
  match v with
  | JObj m => Return (dict_get m key)
  | _ => Raise AttributeError
  end.

Section Snapshot.
Context `{PyBuiltins}.
Local Open Scope result_scope.

(** The loop [for i, sensor_key in enumerate(TEMP_SENSORS)]. *)
Fixpoint temperatures_loop (thermos_list : json) (i : nat)
    (keys : list str) (temperatures : gmap str (option float))
    : result (gmap str (option float)) :=
  match keys with
  | [] => Return temperatures
  | sensor_key :: keys' =>
      let? n := py_len thermos_list in
      if (i <? n)%nat then
        let? item := py_getitem thermos_list i in
        let? val := py_get item (py "t") in
        let? t := _safe_float val in
        temperatures_loop thermos_list (S i) keys'
          (<[sensor_key := t]> temperatures)
      else
        temperatures_loop thermos_list (S i) keys'
          (<[sensor_key := None]> temperatures)
  end.

(** [LucjanData.__init__]. *)
Definition LucjanData_init (thermos : gmap str json)
    (config : gmap str str) : result LucjanData :=
  let thermos_list := default (JArr []) (thermos !! py "thermos") in
  let? temperatures := temperatures_loop thermos_list 0 TEMP_SENSORS ∅ in
  let? pump_co := _int_to_bool (dict_get thermos (py "co")) in
  let? pump_cwu1 := _int_to_bool (dict_get thermos (py "cwu1")) in
  let? pump_cwu2 := _int_to_bool (dict_get thermos (py "cwu2")) in
  let? circulation := _int_to_bool (dict_get thermos (py "cyrk")) in
  let? feeder := _int_to_bool (dict_get thermos (py "pod")) in
  let? thermostat := _int_to_bool (dict_get thermos (py "ter")) in
  let? alarm := _int_to_bool (dict_get thermos (py "al")) in
  let? fan_power := _safe_float (dict_get thermos (py "wen0")) in
  let? fan_modulation := _safe_float (dict_get thermos (py "wen1")) in
  let? feeder_time_s := _safe_float (dict_get thermos (py "podcz")) in
  let? feeder_time_remaining_s :=
    _safe_positive (dict_get thermos (py "podczzas")) in
  let? feeder_time_total_s :=
    _safe_positive (dict_get thermos (py "podczdo")) in
  let? feeder_g_per_min :=
    _safe_positive (dict_get thermos (py "podgmin")) in
  let? hopper_cm := _safe_positive (dict_get thermos (py "podcm")) in
  let? hopper_percent_raw :=
    _safe_positive (dict_get thermos (py "podcmp")) in
  let firmware_version :=
    py_str (default (JStr (py "unknown")) (thermos !! py "ver")) in
  let? uptime_seconds := _safe_int (dict_get thermos (py "time")) in
  let? target_temp_co := _safe_float (config_get config (py "PIEC_ZADANA")) in
  let? target_temp_cwu := _safe_float (config_get config (py "CWU_ZADANA")) in
  let boiler_mode := config_get_default config (py "PIEC_TRYB") in
  let co_mode := config_get_default config (py "CO_TRYB") in
  let cwu_mode := config_get_default config (py "CWU_TRYB") in
  let algorithm := config_get_default config (py "PIEC_ALGORYTM") in
  let? piec_t_max := _safe_float (config_get config (py "PIEC_T_MAX")) in
  let? piec_t_min := _safe_float (config_get config (py "PIEC_T_MIN")) in
  let co_algorytm := config_get_default config (py "CO_ALGORYTM") in
  let cwu_algorytm := config_get_default config (py "CWU_ALGORYTM") in
  let cwu_priorytet := config_get_default config (py "CWU_PRIORYTET") in
  let? cwu_histereza :=
    _safe_float (config_get config (py "CWU_HISTEREZA")) in
  let? cwu_t_max := _safe_float (config_get config (py "CWU_T_MAX")) in
  let? piec_histereza_raw :=
    _safe_float (config_get config (py "PIEC_HISTEREZA")) in
  let zawor4d_tryb := config_get_default config (py "ZAWOR4D-TRYB") in
  let? zawor4d_zadana :=
    _safe_float (config_get config (py "ZAWOR4D-ZADANA")) in
  let zawor4d_czujnik := config_get_default config (py "ZAWOR4D-CZUJNIK") in
  let? zawor4d_histereza_raw :=
    _safe_float (config_get config (py "ZAWOR4D-HISTEREZA")) in
  let? zawor4d_preset :=
    _safe_float (config_get config (py "ZAWOR4D-PRESET")) in
  let cyrkulacja_algorytm :=
    config_get_default config (py "CYRKULACJA_ALGORYTM") in
  let? cyrkulacja_tmin :=
    _safe_float (config_get config (py "CYRKULACJA_TMIN")) in
  let? autolato_temp :=
    _safe_float (config_get config (py "AUTOLATO_TEMP")) in
  let? autolato_twew :=
    _safe_float (config_get config (py "AUTOLATO_TWEW")) in
  let? autolato_histereza_raw :=
    _safe_float (config_get config (py "AUTOLATO_HISTEREZA")) in
  Return {|
    raw_thermos := thermos;
    raw_config := config;
    temperatures := temperatures;
    pump_co := pump_co;
    pump_cwu1 := pump_cwu1;
    pump_cwu2 := pump_cwu2;
    circulation := circulation;
    feeder := feeder;
    thermostat := thermostat;
    alarm := alarm;
    fan_power := fan_power;
    fan_modulation := fan_modulation;
    feeder_time_s := feeder_time_s;
    feeder_time_remaining_s := feeder_time_remaining_s;
    feeder_time_total_s := feeder_time_total_s;
    feeder_g_per_min := feeder_g_per_min;
    hopper_cm := hopper_cm;
    hopper_percent_raw := hopper_percent_raw;
    firmware_version := firmware_version;
    uptime_seconds := uptime_seconds;
    target_temp_co := target_temp_co;
    target_temp_cwu := target_temp_cwu;
    boiler_mode := boiler_mode;
    co_mode := co_mode;
    cwu_mode := cwu_mode;
    algorithm := algorithm;
    piec_t_max := piec_t_max;
    piec_t_min := piec_t_min;
    co_algorytm := co_algorytm;
    cwu_algorytm := cwu_algorytm;
    cwu_priorytet := cwu_priorytet;
    cwu_histereza := cwu_histereza;
    cwu_t_max := cwu_t_max;
    piec_histereza_raw := piec_histereza_raw;
    zawor4d_tryb := zawor4d_tryb;
    zawor4d_zadana := zawor4d_zadana;
    zawor4d_czujnik := zawor4d_czujnik;
    zawor4d_histereza_raw := zawor4d_histereza_raw;
    zawor4d_preset := zawor4d_preset;
    cyrkulacja_algorytm := cyrkulacja_algorytm;
    cyrkulacja_tmin := cyrkulacja_tmin;
    autolato_temp := autolato_temp;
    autolato_twew := autolato_twew;
    autolato_histereza_raw := autolato_histereza_raw;
  |}.
End Snapshot.

(** The property [hopper_level_percent]. *)
Definition hopper_level_percent (self : LucjanData) : option float :=
  match hopper_percent_raw self with
  | Some p => Some p
  | None =>
      match feeder_time_remaining_s self, feeder_time_total_s self with
      | Some remaining, Some total =>
          if flt (flit 0) total
          then Some (py_round (fmul (fdiv remaining total) (flit 100)) 1)
          else None
      | _, _ => None
      end
  end.

(** The property [fuel_consumption_kg]. *)
Definition fuel_consumption_kg (self : LucjanData) : option float :=
  match feeder_time_s self, feeder_g_per_min self with
  | Some time_s, Some g_per_min =>
      if flt (flit 0) g_per_min
      then Some (py_round
                   (fdiv (fmul (fdiv time_s (flit 60)) g_per_min) (flit 1000))
                   2)
      else None
  | _, _ => None
  end.

(** The property [uptime_formatted]. *)
Definition uptime_formatted (self : LucjanData) : option str :=
  match uptime_seconds self with
  | None => None
  | Some s =>
      let h := s / 3600 in
      let m := (s mod 3600) / 60 in
      Some (str_of_Z h ++ py "h " ++ str_of_Z m ++ py "m")
  end.

(** ** The HTTP layer

    What [aiohttp] gives the client: a response carries its status and
    what awaiting [text()] and [json()] yields; a request returns a
    response or raises ([TimeoutError], [ClientError], or any other
    exception), and changes the state of the outside world.  The PUT
    body is carried as the text whose UTF-8 encoding is sent. *)

Record ClientResponse := {
  status : Z;
  text : result str;
  json_body : result (gmap str json);
}.

Class Http := {
  World : Type;
  ClientSession : Type;
  session_get :
    ClientSession → str → option (str * str) → World →
    result ClientResponse * World;
  session_put :
    ClientSession → str → option (str * str) → str → World →
    result ClientResponse * World;
}.

(** What the client did to the outside world, in order. *)
Inductive Event :=
| EvGet (url : str)
| EvPut (url : str) (data : str)
| EvSleep (milliseconds : N).

Section Coroutines.
Context `{Http}.

Record State := {
  world : World;
  trace : list Event;
}.

(** A coroutine, awaited from a state. *)
Definition Coro (A : Type) : Type := State → result A * State.

Definition ret {A} (a : A) : Coro A := λ st, (Return a, st).

Definition raise {A} (err : exn) : Coro A := λ st, (Raise err, st).

Definition bind {A B} (m : Coro A) (k : A → Coro B) : Coro B :=
  λ st, match m st with
        | (Return a, st') => k a st'
        | (Raise err, st') => (Raise err, st')
        end.

(** [try: body / except ...]: [handler err] is the body of the first
    clause that matches [err], [None] when no clause does. *)
Definition try_except {A} (body : Coro A)
    (handler : exn → option (Coro A)) : Coro A :=
  λ st, match body st with
        | (Return a, st') => (Return a, st')
        | (Raise err, st') =>
            match handler err with
            | Some h => h st'
            | None => (Raise err, st')
            end
        end.

(** A computation that raises or returns without awaiting. *)
Definition lift {A} (r : result A) : Coro A := λ st, (r, st).

(** [await asyncio.sleep(...)]. *)
Definition sleep (milliseconds : N) : Coro unit :=
  λ st, (Return tt,
         {| world := world st;
            trace := trace st ++ [EvSleep milliseconds] |}).

(** [await session.get(url, auth=..., timeout=TIMEOUT)]. *)
Definition await_get (session : ClientSession) (url : str)
    (auth : option (str * str)) : Coro ClientResponse :=
  λ st, let '(r, w) := session_get session url auth (world st) in
        (r, {| world := w; trace := trace st ++ [EvGet url] |}).

(** [await session.put(url, auth=..., timeout=TIMEOUT, data=...)]. *)
Definition await_put (session : ClientSession) (url : str)
    (auth : option (str * str)) (data : str) : Coro ClientResponse :=
  λ st, let '(r, w) := session_put session url auth data (world st) in
        (r, {| world := w; trace := trace st ++ [EvPut url data] |}).
End Coroutines.

Declare Scope coro_scope.
Delimit Scope coro_scope with coro.
Notation "'let*' x ':=' m 'in' k" := (bind m (λ x, k))
  (at level 10, x name, m at level 100, k at level 200) : coro_scope.

(** [text.encode("utf-8")]: a surrogate code point (U+D800 to U+DFFF)
    cannot be encoded and raises [UnicodeEncodeError]; otherwise the
    bytes are returned, carried here as the text they encode. *)
Definition is_surrogate (c : N) : bool := ((55296 <=? c) && (c <=? 57343))%N.

Definition encode_utf8 (text : str) : result str :=
  if existsb is_surrogate text then Raise UnicodeEncodeError
  else Return text.

(** ** api.py: the client [LucjanApi] *)

Section Api.
Context `{Http} `{PyBuiltins}.
Local Open Scope coro_scope.

Record LucjanApi := {
  _host : str;
  _session : option ClientSession;
  _base_url : str;
  _auth : option (str * str);
}.

(** [LucjanApi.__init__]. *)
Definition LucjanApi_init (host username password : str)
    (session : option ClientSession) (port : Z) : LucjanApi :=
  {| _host := host;
     _session := session;
     _base_url :=
       if negb (port =? 80)
       then py "http://" ++ host ++ py ":" ++ str_of_Z port
       else py "http://" ++ host;
     _auth :=
       if negb (bool_decide (username = []))
       then Some (username, password)
       else None |}.

(** The [try] block shared by [_get] and [_put], after the request. *)
Definition check_status (url : str) (response : ClientResponse)
    : Coro ClientResponse :=
  if status response =? 401 then
    raise (LucjanAuthError (py "Invalid credentials"))
  else if negb (status response =? 200) then
    raise (LucjanApiError
             (py "HTTP " ++ str_of_Z (status response) ++ py " from " ++ url))
  else ret response.

(** The [except] clauses shared by [_get] and [_put]. *)
Definition connection_errors (self : LucjanApi) (err : exn)
    : option (Coro ClientResponse) :=
  match err with
  | TimeoutError =>
      Some (raise (LucjanConnectionError
                     (py "Timeout connecting to " ++ _host self)))
  | ClientError _ =>
      Some (raise (LucjanConnectionError
                     (py "Error connecting to " ++ _host self ++ py ": "
                      ++ exn_str err)))
  | _ => None
  end.

Definition _get (self : LucjanApi) (endpoint : str) : Coro ClientResponse :=
  let url := _base_url self ++ endpoint in
  match _session self with
  | None => raise (LucjanConnectionError (py "No HTTP session available"))
  | Some session =>
      try_except
        (let* response := await_get session url (_auth self) in
         check_status url response)
        (connection_errors self)
  end.

Definition _put (self : LucjanApi) (endpoint : str) (data : str)
    : Coro ClientResponse :=
  let url := _base_url self ++ endpoint in
  match _session self with
  | None => raise (LucjanConnectionError (py "No HTTP session available"))
  | Some session =>
      try_except
        (let* response := await_put session url (_auth self) data in
         check_status url response)
        (connection_errors self)
  end.

(** *** Read endpoints *)

Definition async_get_thermos (self : LucjanApi) : Coro (gmap str json) :=
  let* response := _get self ENDPOINT_THERMOS in
  let* data := lift (json_body response) in
  ret data.

Definition async_get_config (self : LucjanApi) : Coro (gmap str str) :=
  let* response := _get self ENDPOINT_CONFIG in
  let* text := lift (text response) in
  ret (_parse_config text).

Definition async_get_config_raw (self : LucjanApi) : Coro str :=
  let* response := _get self ENDPOINT_CONFIG in
  lift (text response).

Definition async_test_connection (self : LucjanApi)
    : Coro (gmap str json) :=
  async_get_thermos self.

(** *** Runtime control via [/setVARIABLE=VALUE] *)

(** [except LucjanApiError as err: ... return False]. *)
Definition except_LucjanApiError_return_False (err : exn)
    : option (Coro bool) :=
  if is_LucjanApiError err then Some (ret false) else None.

Definition async_set_variable (self : LucjanApi) (name : str)
    (value : json) : Coro bool :=
  try_except
    (let* _ := _get self (py "/set" ++ name ++ py "=" ++ py_str value) in
     ret true)
    except_LucjanApiError_return_False.

Definition async_set_piec_zadana (self : LucjanApi) (temp : Z) : Coro bool :=
  async_set_variable self (py "PIEC_ZADANA") (JInt temp).

Definition async_set_cwu_zadana (self : LucjanApi) (temp : Z) : Coro bool :=
  async_set_variable self (py "CWU_ZADANA") (JInt temp).

Definition async_set_pump_co (self : LucjanApi) (state : bool) : Coro bool :=
  async_set_variable self (py "OUT_POMPACO") (JInt (if state then 1 else 0)).

Definition async_set_pump_cwu (self : LucjanApi) (state : bool)
    : Coro bool :=
  async_set_variable self (py "OUT_POMPACWU") (JInt (if state then 1 else 0)).

Definition async_set_pump_cwu2 (self : LucjanApi) (state : bool)
    : Coro bool :=
  async_set_variable self (py "OUT_POMPACWU2")
    (JInt (if state then 1 else 0)).

Definition async_set_pump_circulation (self : LucjanApi) (state : bool)
    : Coro bool :=
  async_set_variable self (py "OUT_POMPACYRK")
    (JInt (if state then 1 else 0)).

Definition async_set_feeder (self : LucjanApi) (state : bool) : Coro bool :=
  async_set_variable self (py "OUT_PODAJNIK") (JInt (if state then 1 else 0)).

Definition async_set_fan_power (self : LucjanApi) (value : Z) : Coro bool :=
  async_set_variable self (py "OUT_WENTYLATOR") (JInt value).

(** *** Config file control via [/upload/config.txt] + [/configreload] *)

Definition async_set_config_param (self : LucjanApi) (param value : str)
    : Coro bool :=
  try_except
    (let* raw_config := async_get_config_raw self in
     match _replace_config_param raw_config param value with
     | None => ret false
     | Some new_config =>
         let* data := lift (encode_utf8 new_config) in
         let* _ := _put self (py "/upload/config.txt") data in
         let* _ := sleep 500 in
         let* _ := _get self (py "/configreload") in
         ret true
     end)
    except_LucjanApiError_return_False.

Definition async_set_boiler_mode (self : LucjanApi) (auto : bool)
    : Coro bool :=
  let mode := if auto then py "AUTO" else py "RECZNY" in
  async_set_config_param self (py "PIEC_TRYB") mode.

(** The first of the two methods named [async_set_co_circuit] in the
    class body; the second definition below replaces it, so no caller
    reaches this one. *)
Definition async_set_co_circuit_shadowed (self : LucjanApi)
    (enabled : bool) : Coro bool :=
  let value := if enabled then py "ZIMA" else py "ZIM" in
  async_set_config_param self (py "CO_TRYB") value.

(** The method [async_set_co_circuit] that callers reach. *)
Definition async_set_co_circuit (self : LucjanApi) (enabled : bool)
    : Coro bool :=
  let co_value := if enabled then py "ZIMA" else py "ZIM" in
  try_except
    (let* _ := async_set_config_param self (py "PIEC_TRYB") (py "RECZNY") in
     let* _ := sleep 1000 in
     let* _ := async_set_config_param self (py "CO_TRYB") co_value in
     let* _ := sleep 1000 in
     let* _ := async_set_config_param self (py "PIEC_TRYB") (py "AUTO") in
     ret true)
    (λ err,
       if is_LucjanApiError err then
         Some (let* _ :=
                 try_except
                   (let* _ := async_set_config_param self (py "PIEC_TRYB")
                                (py "AUTO") in
                    ret tt)
                   (λ err', if is_LucjanApiError err'
                            then Some (ret tt) else None) in
               ret false)
       else None).

(** *** System commands *)

Definition async_alarm_reset (self : LucjanApi) : Coro bool :=
  try_except (let* _ := _get self (py "/alarmreset") in ret true)
    except_LucjanApiError_return_False.

Definition async_config_reload (self : LucjanApi) : Coro bool :=
  try_except (let* _ := _get self (py "/configreload") in ret true)
    except_LucjanApiError_return_False.

Definition async_hopper_full (self : LucjanApi) : Coro bool :=
  try_except (let* _ := _get self (py "/zasobnikfull") in ret true)
    except_LucjanApiError_return_False.

Definition async_reset_controller (self : LucjanApi) : Coro bool :=
  try_except (let* _ := _get self (py "/reset") in ret true)
    except_LucjanApiError_return_False.

(** ** coordinator.py: the poll cycle *)

(** [LucjanCoordinator._async_update_data]; the last clause,
    [except Exception], matches every member of [exn]. *)
Definition _async_update_data (api : LucjanApi) : Coro LucjanData :=
  try_except
    (let* thermos := async_get_thermos api in
     let* config := try_except (async_get_config api)
                (λ err, if is_LucjanApiError err then Some (ret ∅)
                        else None) in
     lift (LucjanData_init thermos config))
    (λ err,
       if is_LucjanConnectionError err then
         Some (raise (UpdateFailed (py "Connection error: ") err))
       else if is_LucjanApiError err then
         Some (raise (UpdateFailed (py "API error: ") err))
       else
         Some (raise (UpdateFailed (py "Unexpected error: ") err))).

(** The coordinator object: the client, the current snapshot [data] and
    the flag [last_update_success] of the base class
    [DataUpdateCoordinator]. *)
Record LucjanCoordinator := {
  api : LucjanApi;
  data : option LucjanData;
  last_update_success : bool;
}.

(** A refresh as the base class [DataUpdateCoordinator] of Home
    Assistant runs it: [data] is assigned only when
    [_async_update_data] returns; when it raises, [data] keeps its
    value and [last_update_success] becomes false. *)
Definition async_refresh (self : LucjanCoordinator) (st : State)
    : LucjanCoordinator * State :=
  match _async_update_data (api self) st with
  | (Return snapshot, st') =>
      ({| api := api self; data := Some snapshot;
          last_update_success := true |}, st')
  | (Raise _, st') =>
      ({| api := api self; data := data self;
          last_update_success := false |}, st')
  end.
End Api.

(** ** A device stub

    A concrete outside world for the examples: a controller at
    [http://boiler] that serves its config file and its status, stores
    an uploaded config file, and accepts every command.  It can be
    switched off ([online]) and made to answer the two read endpoints
    with any HTTP status. *)

Module FakeDevice.
Record Device := {
  online : bool;
  thermos_status : Z;
  thermos_json : gmap str json;
  config_status : Z;
  config_txt : str;
}.

Definition empty_response (code : Z) : ClientResponse :=
  {| status := code; text := Return []; json_body := Raise ValueError |}.

Definition get (session : unit) (url : str) (auth : option (str * str))
    (d : Device) : result ClientResponse * Device :=
  if negb (online d) then (Raise TimeoutError, d)
  else if bool_decide (url = py "http://boiler/thermos.json") then
    (Return {| status := thermos_status d;
               text := Return [];
               json_body := Return (thermos_json d) |}, d)
  else if bool_decide (url = py "http://boiler/config.txt") then
    (Return {| status := config_status d;
               text := Return (config_txt d);
               json_body := Raise ValueError |}, d)
  else (Return (empty_response 200), d).

Definition put (session : unit) (url : str) (auth : option (str * str))
    (body : str) (d : Device) : result ClientResponse * Device :=
  if negb (online d) then (Raise TimeoutError, d)
  else if bool_decide (url = py "http://boiler/upload/config.txt") then
    (Return (empty_response 200),
     {| online := online d;
        thermos_status := thermos_status d;
        thermos_json := thermos_json d;
        config_status := config_status d;
        config_txt := body |})
  else (Return (empty_response 404), d).

Definition http : Http :=
  {| World := Device; ClientSession := unit;
     session_get := get; session_put := put |}.

(** Decimal digits of a string, most significant first. *)
Fixpoint digits (acc : Z) (s : str) : option Z :=
  match s with
  | [] => Some acc
  | c :: s' =>
      if ((48 <=? c) && (c <=? 57))%N
      then digits (10 * acc + Z.of_N (c - 48)) s'
      else None
  end.

Definition decimal (s : str) : option Z :=
  match s with
  | [] => None
  | _ => digits 0 s
  end.

(** The builtins on what the examples feed them: strings of decimal
    digits, and [str()] of [None], booleans, integers and strings. *)
Definition builtins : PyBuiltins :=
  {| float_of_str := λ s, z ← decimal s; float_of_Z z;
     int_of_str := decimal;
     py_str := λ v, match v with
                    | JNull => py "None"
                    | JBool b => if b then py "True" else py "False"
                    | JInt z => str_of_Z z
                    | JStr s => s
                    | _ => []
                    end |}.

Definition client : @LucjanApi http :=
  @LucjanApi_init http (py "boiler") (py "admin") (py "admin")
    (Some tt) DEFAULT_PORT.

(** The status of section 6 of the specification. *)
Definition status_example : gmap str json :=
  list_to_map
    [ (py "thermos",
       JArr [ JObj {[ py "t" := JFloat (fdiv (flit 526) (flit 10)) ]};
              JObj {[ py "t" := JFloat (flit 38) ]} ]);
      (py "wen0", JInt 41); (py "wen1", JInt 41);
      (py "podcm", JInt (-1)); (py "podcmp", JInt (-1));
      (py "podcz", JInt 4165); (py "podczzas", JInt 0);
      (py "podczdo", JInt 41538); (py "podgmin", JInt 260);
      (py "pod", JInt 0); (py "co", JInt 1); (py "cwu1", JInt 0);
      (py "cwu2", JInt 0); (py "cyrk", JInt 0); (py "ter", JInt 0);
      (py "al", JInt 0); (py "time", JInt 83198);
      (py "ver", JStr (py "0.1.0.130.35")) ].

Definition config_example : str :=
  py "# comment" ++ LF ++ py "PIEC_TRYB = AUTO" ++ LF
  ++ py "PIEC_ZADANA = 55" ++ LF ++ py "CO_TRYB=ZIMA # note" ++ LF.

Definition device : Device :=
  {| online := true;
     thermos_status := 200;
     thermos_json := status_example;
     config_status := 200;
     config_txt := config_example |}.

Definition start (d : Device) : @State http :=
  @Build_State http d [].
End FakeDevice.

(** ** Vocabulary of the statements *)

(** A string without line boundaries. *)
Definition nobreak (s : str) : Prop := Forall (λ c, is_linebreak c = false) s.

(** Every line followed by ["\n"]. *)
Definition unlines (ls : list str) : str := concat ((λ l, l ++ LF) <$> ls).

(** Two texts that differ inside one line only: the same bytes before
    and after a stretch that holds no line boundary. *)
Definition differs_within_one_line (text out : str) : Prop :=
  ∃ pre old new post,
    text = pre ++ old ++ post ∧ out = pre ++ new ++ post ∧
    nobreak old ∧ nobreak new.

(** A config file with CR LF line ends. *)
Definition crlf_config : str :=
  py "A=1" ++ [13; 10]%N ++ py "B=2" ++ [13; 10]%N.

(** The example of section 8 for the parser. *)
Definition parse_example : str :=
  py "# comment" ++ LF ++ py "PIEC_ZADANA = 55" ++ LF
  ++ py "CO_TRYB=ZIMA # note" ++ LF.

Section ClientVocabulary.
Context `{Http}.

(** [op] turns the outcome of [request] into a boolean: [True] when
    the request returns, [False] when it raises a [LucjanApiError]
    (of any subclass); any other exception passes through. *)
Definition reports_as_bool (request : Coro ClientResponse)
    (op : Coro bool) : Prop :=
  ∀ st,
    match request st with
    | (Return _, st') => op st = (Return true, st')
    | (Raise err, st') =>
        if is_LucjanApiError err
        then op st = (Return false, st')
        else op st = (Raise err, st')
    end.

(** No [LucjanApiError], [LucjanConnectionError] or [LucjanAuthError]
    leaves [op]. *)
Definition never_raises_LucjanApiError {A} (op : Coro A) : Prop :=
  ∀ st err st', op st = (Raise err, st') → is_LucjanApiError err = false.

(** The prefix of the [UpdateFailed] message for [err]. *)
Definition update_failed_prefix (err : exn) : str :=
  if is_LucjanConnectionError err then py "Connection error: "
  else if is_LucjanApiError err then py "API error: "
  else py "Unexpected error: ".

End ClientVocabulary.

Section SnapshotVocabulary.
Context `{PyBuiltins}.


End SnapshotVocabulary.

(** [k] is the integer nearest to the fraction [n / d] (for [0 < d]),
    the even one of the two when the fraction is half way between
    them. *)
Definition nearest_integer_ties_even (n d k : Z) : Prop :=
  Z.abs (2 * (k * d - n)) ≤ d ∧
  (Z.abs (2 * (k * d - n)) = d → Z.even k = true).

(** The float nearest to the decimal [k / 10 ^ ndigits] with the sign
    [s]: the correctly rounded quotient, and the zero of that sign for
    [k = 0]. *)
Definition decimal_float (s : bool) (k ndigits : Z) : float :=
  match k with
  | Zpos k' =>
      SFdiv 53 1024 (S754_finite s k' 0)
        (S754_finite false (Z.to_pos (10 ^ ndigits)) 0)
  | _ => S754_zero s
  end.

(** [r] is [x] rounded to [ndigits] decimals: for a finite [x], whose
    magnitude is [m * 2 ^ e], the float nearest to the decimal
    [k / 10 ^ ndigits] where [k] is the integer nearest to
    [m * 2 ^ e * 10 ^ ndigits], ties to even; zeros, infinities and NaN
    are kept. *)
Definition decimal_rounding (ndigits : Z) (x r : float) : Prop :=
  match x with
  | S754_finite s m e =>
      ∃ k : Z,
        nearest_integer_ties_even
          (Zpos m * 10 ^ ndigits * 2 ^ Z.max e 0) (2 ^ Z.max (- e) 0) k ∧
        r = decimal_float s k ndigits
  | _ => r = x
  end.

(** ** Inputs of the examples *)

Module Examples.
Import FakeDevice.

Definition with_config_status (code : Z) (d : Device) : Device :=
  {| online := online d;
     thermos_status := thermos_status d;
     thermos_json := thermos_json d;
     config_status := code;
     config_txt := config_txt d |}.

Definition with_config_txt (body : str) (d : Device) : Device :=
  {| online := online d;
     thermos_status := thermos_status d;
     thermos_json := thermos_json d;
     config_status := config_status d;
     config_txt := body |}.

(** The device answers [/config.txt] with HTTP 500. *)
Definition failing_config : Device := with_config_status 500 device.

(** The device has no [/config.txt]. *)
Definition no_config : Device := with_config_status 404 device.

(** The config file of the device has no [CO_TRYB] line. *)
Definition no_co_tryb : Device :=
  with_config_txt (py "PIEC_TRYB = AUTO" ++ LF) device.

(** The device does not answer. *)
Definition offline : Device :=
  {| online := false;
     thermos_status := 200;
     thermos_json := status_example;
     config_status := 200;
     config_txt := config_example |}.

Definition thermos_url : str := py "http://boiler/thermos.json".
Definition config_url : str := py "http://boiler/config.txt".
Definition upload_url : str := py "http://boiler/upload/config.txt".
Definition reload_url : str := py "http://boiler/configreload".

Definition after (d : Device) (events : list Event) : @State http :=
  @Build_State http d events.

(** A snapshot with the given hopper and feeder fields and nothing
    else. *)
Definition snapshot (percent remaining total runtime rate : option float)
    : LucjanData :=
  {| raw_thermos := ∅;
     raw_config := ∅;
     temperatures := ∅;
     pump_co := false;
     pump_cwu1 := false;
     pump_cwu2 := false;
     circulation := false;
     feeder := false;
     thermostat := false;
     alarm := false;
     fan_power := None;
     fan_modulation := None;
     feeder_time_s := runtime;
     feeder_time_remaining_s := remaining;
     feeder_time_total_s := total;
     feeder_g_per_min := rate;
     hopper_cm := None;
     hopper_percent_raw := percent;
     firmware_version := py "unknown";
     uptime_seconds := None;
     target_temp_co := None;
     target_temp_cwu := None;
     boiler_mode := py "unknown";
     co_mode := py "unknown";
     cwu_mode := py "unknown";
     algorithm := py "unknown";
     piec_t_max := None;
     piec_t_min := None;
     co_algorytm := py "unknown";
     cwu_algorytm := py "unknown";
     cwu_priorytet := py "unknown";
     cwu_histereza := None;
     cwu_t_max := None;
     piec_histereza_raw := None;
     zawor4d_tryb := py "unknown";
     zawor4d_zadana := None;
     zawor4d_czujnik := py "unknown";
     zawor4d_histereza_raw := None;
     zawor4d_preset := None;
     cyrkulacja_algorytm := py "unknown";
     cyrkulacja_tmin := None;
     autolato_temp := None;
     autolato_twew := None;
     autolato_histereza_raw := None |}.
End Examples.

(** The value [_parse_config] reads from the text [v] that follows the
    first ["="] of a line: stripped, cut at its first ["#"], stripped
    again. *)
Definition config_value (v : str) : str :=
  if contains (py "#") (strip v)
  then match find (py "#") (strip v) with
       | Some i => strip (take i (strip v))
       | None => strip v
       end
  else strip v.

Section RequestVocabulary.
Context `{Http}.

(** What [_get] and [_put] keep: a response they return has status
    200; no [TimeoutError] and no [ClientError] of the HTTP library
    leaves them; without a session they raise a
    [LucjanConnectionError] and leave the state alone, with a session
    they send the one request [ev]. *)
Definition request_discipline (self : LucjanApi)
    (request : Coro ClientResponse) (ev : Event) : Prop :=
  ∀ st r st',
    request st = (r, st') →
    (∀ response, r = Return response → status response = 200) ∧
    r ≠ Raise TimeoutError ∧
    (∀ msg, r ≠ Raise (ClientError msg)) ∧
    match _session self with
    | None =>
        st' = st ∧
        r = Raise (LucjanConnectionError (py "No HTTP session available"))
    | Some _ => trace st' = trace st ++ [ev]
    end.

(** What [_get] and [_put] make of the outcome [r] of the request to
    [url]. *)
Definition request_outcome (self : LucjanApi) (url : str)
    (r : result ClientResponse) : result ClientResponse :=
  match r with
  | Return response =>
      if status response =? 401 then
        Raise (LucjanAuthError (py "Invalid credentials"))
      else if status response =? 200 then Return response
      else Raise (LucjanApiError
                    (py "HTTP " ++ str_of_Z (status response) ++ py " from "
                     ++ url))
  | Raise TimeoutError =>
      Raise (LucjanConnectionError (py "Timeout connecting to " ++ _host self))
  | Raise (ClientError msg) =>
      Raise (LucjanConnectionError
               (py "Error connecting to " ++ _host self ++ py ": " ++ msg))
  | Raise err => Raise err
  end.
End RequestVocabulary.

Section FlagVocabulary.
Context `{PyBuiltins}.

(** The rule of a boolean flag of the snapshot, for the raw [value] of
    its key in the status: [False] when the key is missing or [null]
    and when [int()] fails on the value with a [ValueError] or a
    [TypeError]; otherwise whether [int()] of the value is not zero. *)
Definition flag_rule (value : option json) (field : bool) : Prop :=
  (value = None → field = false) ∧
  (value = Some JNull → field = false) ∧
  (∀ v z, value = Some v → v ≠ JNull → py_int v = Return z →
          field = negb (z =? 0)) ∧
  (∀ v err, value = Some v → py_int v = Raise err → field = false).
End FlagVocabulary.

(** ** The entities: entity.py, switch.py, select.py, climate.py

    An entity object holds its coordinator and, for a switch and a
    select, the value it shows while a command is under way.  What an
    entity method does to Home Assistant is kept as a list of calls:
    [async_write_ha_state()], with the state the entity reports at
    that moment, and [coordinator.async_request_refresh()].  A method
    takes the entity, the calls made so far and the state of the
    client, and gives them back with its result. *)

Inductive HaCall (S : Type) :=
| WriteState (state : S)
| RequestRefresh.
Arguments WriteState {S} state.
Arguments RequestRefresh {S}.

(** [round(x)] of a float, as an [int]: the nearest integer, ties to
    even. *)
Definition py_round_int (x : float) : result Z :=
  match x with
  | S754_zero _ => Return 0
  | S754_infinity _ => Raise OverflowError
  | S754_nan => Raise ValueError
  | S754_finite s m e =>
      let a := if 0 <=? e then Zpos m * 2 ^ e
               else round_half_even (Zpos m) (2 ^ (- e)) in
      Return (if s then - a else a)
  end.

Module switch.
Section Switch.
Context `{Http} `{PyBuiltins}.

(** Seconds. *)
Definition COMMAND_DELAY : N := 3.

(** [LucjanSwitchDescription], without the name and the icon. *)
Record LucjanSwitchDescription := {
  key : str;
  is_on_fn : LucjanData → bool;
  turn_on_fn : LucjanApi → Coro bool;
  turn_off_fn : LucjanApi → Coro bool;
  manual_only : bool;
}.

Definition SWITCH_DESCRIPTIONS : list LucjanSwitchDescription :=
  [ {| key := py "switch_auto_mode";
       is_on_fn := λ data, bool_decide (boiler_mode data = py "AUTO");
       turn_on_fn := λ api, async_set_boiler_mode api true;
       turn_off_fn := λ api, async_set_boiler_mode api false;
       manual_only := false |};
    {| key := py "switch_pump_co";
       is_on_fn := λ data, pump_co data;
       turn_on_fn := λ api, async_set_pump_co api true;
       turn_off_fn := λ api, async_set_pump_co api false;
       manual_only := true |};
    {| key := py "switch_pump_cwu";
       is_on_fn := λ data, pump_cwu1 data;
       turn_on_fn := λ api, async_set_pump_cwu api true;
       turn_off_fn := λ api, async_set_pump_cwu api false;
       manual_only := true |};
    {| key := py "switch_pump_cwu2";
       is_on_fn := λ data, pump_cwu2 data;
       turn_on_fn := λ api, async_set_pump_cwu2 api true;
       turn_off_fn := λ api, async_set_pump_cwu2 api false;
       manual_only := true |};
    {| key := py "switch_circulation";
       is_on_fn := λ data, circulation data;
       turn_on_fn := λ api, async_set_pump_circulation api true;
       turn_off_fn := λ api, async_set_pump_circulation api false;
       manual_only := true |};
    {| key := py "switch_feeder";
       is_on_fn := λ data, feeder data;
       turn_on_fn := λ api, async_set_feeder api true;
       turn_off_fn := λ api, async_set_feeder api false;
       manual_only := true |};
    {| key := py "switch_cwu_priorytet";
       is_on_fn := λ data, bool_decide (cwu_priorytet data = py "WLACZ");
       turn_on_fn := λ api,
         async_set_config_param api (py "CWU_PRIORYTET") (py "WLACZ");
       turn_off_fn := λ api,
         async_set_config_param api (py "CWU_PRIORYTET") (py "WYLACZ");
       manual_only := false |};
    {| key := py "switch_co_zawor4d";
       is_on_fn := λ data, bool_decide (co_mode data = py "ZIMA");
       turn_on_fn := λ api, async_set_co_circuit api true;
       turn_off_fn := λ api, async_set_co_circuit api false;
       manual_only := false |} ].

Record LucjanSwitch := {
  coordinator : LucjanCoordinator;
  entity_description : LucjanSwitchDescription;
  _optimistic_state : option bool;
}.

(** [LucjanSwitch.__init__]. *)
Definition LucjanSwitch_init (coordinator : LucjanCoordinator)
    (description : LucjanSwitchDescription) : LucjanSwitch :=
  {| coordinator := coordinator;
     entity_description := description;
     _optimistic_state := None |}.

(** The assignment [self._optimistic_state = value]. *)
Definition set_optimistic_state (self : LucjanSwitch) (value : option bool)
    : LucjanSwitch :=
  {| coordinator := coordinator self;
     entity_description := entity_description self;
     _optimistic_state := value |}.

(** [LucjanEntity.lucjan_data]. *)
Definition lucjan_data (self : LucjanSwitch) : option LucjanData :=
  data (coordinator self).

(** [available]; the base class [CoordinatorEntity] answers with the
    coordinator's [last_update_success]. *)
Definition available (self : LucjanSwitch) : bool :=
  if negb (last_update_success (coordinator self)) then false
  else if manual_only (entity_description self)
          && match lucjan_data self with
             | Some data => bool_decide (boiler_mode data = py "AUTO")
             | None => false
             end
  then false
  else true.

Definition is_on (self : LucjanSwitch) : option bool :=
  match _optimistic_state self with
  | Some state => Some state
  | None =>
      match lucjan_data self with
      | None => None
      | Some data => Some (is_on_fn (entity_description self) data)
      end
  end.

Definition async_turn_on (self : LucjanSwitch)
    (calls : list (HaCall (option bool))) (st : State)
    : result unit * LucjanSwitch * list (HaCall (option bool)) * State :=
  let self := set_optimistic_state self (Some true) in
  let calls := calls ++ [WriteState (is_on self)] in
  match turn_on_fn (entity_description self) (api (coordinator self)) st with
  | (Raise err, st) => (Raise err, self, calls, st)
  | (Return success, st) =>
      if negb success then
        let self := set_optimistic_state self None in
        let calls := calls ++ [WriteState (is_on self)] in
        (Return tt, self, calls, st)
      else
        let '(_, st) := sleep (COMMAND_DELAY * 1000) st in
        let self := set_optimistic_state self None in
        (Return tt, self, calls ++ [RequestRefresh], st)
  end.

Definition async_turn_off (self : LucjanSwitch)
    (calls : list (HaCall (option bool))) (st : State)
    : result unit * LucjanSwitch * list (HaCall (option bool)) * State :=
  let self := set_optimistic_state self (Some false) in
  let calls := calls ++ [WriteState (is_on self)] in
  match turn_off_fn (entity_description self) (api (coordinator self)) st with
  | (Raise err, st) => (Raise err, self, calls, st)
  | (Return success, st) =>
      if negb success then
        let self := set_optimistic_state self None in
        let calls := calls ++ [WriteState (is_on self)] in
        (Return tt, self, calls, st)
      else
        let '(_, st) := sleep (COMMAND_DELAY * 1000) st in
        let self := set_optimistic_state self None in
        (Return tt, self, calls ++ [RequestRefresh], st)
  end.
End Switch.
End switch.

Module select.
Section Select.
Context `{Http}.

(** Seconds. *)
Definition COMMAND_DELAY : N := 3.

(** [LucjanSelectDescription], without the name and the icon. *)
Record LucjanSelectDescription := {
  key : str;
  options_list : list str;
  current_fn : LucjanData → str;
  config_param : str;
}.

Definition SELECT_DESCRIPTIONS : list LucjanSelectDescription :=
  [ {| key := py "select_co_tryb";
       options_list := py <$> ["ZIMA"; "LATO"; "ECOAL"; "BRULI"]%string;
       current_fn := λ data, co_mode data;
       config_param := py "CO_TRYB" |};
    {| key := py "select_cwu_tryb";
       options_list :=
         py <$> ["WLACZ"; "WYLACZ"; "BRULI"; "ECOAL"; "MIESZANIE"]%string;
       current_fn := λ data, cwu_mode data;
       config_param := py "CWU_TRYB" |};
    {| key := py "select_piec_algorytm";
       options_list :=
         py <$> ["RRM"; "RRM2"; "RR"; "ECOAL"; "ZASYPOWY";
                 "WYLACZONY"]%string;
       current_fn := λ data, algorithm data;
       config_param := py "PIEC_ALGORYTM" |};
    {| key := py "select_zawor4d_tryb";
       options_list := py <$> ["ZADANA"; "KRZYWA"; "WYLACZONY"]%string;
       current_fn := λ data, zawor4d_tryb data;
       config_param := py "ZAWOR4D-TRYB" |};
    {| key := py "select_cyrkulacja";
       options_list := py <$> ["CIAGLY"; "CYKLICZNY"; "WYLACZONY"]%string;
       current_fn := λ data, cyrkulacja_algorytm data;
       config_param := py "CYRKULACJA_ALGORYTM" |};
    {| key := py "select_co_algorytm";
       options_list := py <$> ["CIAGLY"; "CYKLICZNY"]%string;
       current_fn := λ data, co_algorytm data;
       config_param := py "CO_ALGORYTM" |};
    {| key := py "select_cwu_algorytm";
       options_list := py <$> ["CIAGLY"; "CYKLICZNY"]%string;
       current_fn := λ data, cwu_algorytm data;
       config_param := py "CWU_ALGORYTM" |} ].

Record LucjanSelect := {
  coordinator : LucjanCoordinator;
  entity_description : LucjanSelectDescription;
  _attr_options : list str;
  _optimistic_value : option str;
}.

(** [LucjanSelect.__init__]. *)
Definition LucjanSelect_init (coordinator : LucjanCoordinator)
    (description : LucjanSelectDescription) : LucjanSelect :=
  {| coordinator := coordinator;
     entity_description := description;
     _attr_options := options_list description;
     _optimistic_value := None |}.

(** The assignment [self._optimistic_value = value]. *)
Definition set_optimistic_value (self : LucjanSelect) (value : option str)
    : LucjanSelect :=
  {| coordinator := coordinator self;
     entity_description := entity_description self;
     _attr_options := _attr_options self;
     _optimistic_value := value |}.

(** [LucjanEntity.lucjan_data]. *)
Definition lucjan_data (self : LucjanSelect) : option LucjanData :=
  data (coordinator self).

Definition current_option (self : LucjanSelect) : option str :=
  match _optimistic_value self with
  | Some value => Some value
  | None =>
      match lucjan_data self with
      | None => None
      | Some data =>
          let value := current_fn (entity_description self) data in
          if bool_decide (value ∈ _attr_options self) then Some value
          else if negb (bool_decide (value = py "unknown")) then Some value
          else None
      end
  end.

Definition async_select_option (self : LucjanSelect) (option' : str)
    (calls : list (HaCall (option str))) (st : State)
    : result unit * LucjanSelect * list (HaCall (option str)) * State :=
  let self := set_optimistic_value self (Some option') in
  let calls := calls ++ [WriteState (current_option self)] in
  match async_set_config_param (api (coordinator self))
          (config_param (entity_description self)) option' st with
  | (Raise err, st) => (Raise err, self, calls, st)
  | (Return success, st) =>
      if negb success then
        let self := set_optimistic_value self None in
        let calls := calls ++ [WriteState (current_option self)] in
        (Return tt, self, calls, st)
      else
        let '(_, st) := sleep (COMMAND_DELAY * 1000) st in
        let self := set_optimistic_value self None in
        (Return tt, self, calls ++ [RequestRefresh], st)
  end.
End Select.
End select.

Module climate.
Section Climate.
Context `{Http} `{PyBuiltins}.

(** Seconds. *)
Definition COMMAND_DELAY : N := 3.

(** [LucjanBoilerClimate.async_set_temperature]; the entity holds its
    coordinator only, [temperature] is [kwargs.get("temperature")], a
    float when present. *)
Definition LucjanBoilerClimate_async_set_temperature
    (coordinator : LucjanCoordinator) (temperature : option float)
    (calls : list (HaCall unit)) (st : State)
    : result unit * list (HaCall unit) * State :=
  match temperature with
  | None => (Return tt, calls, st)
  | Some temp =>
      match py_round_int temp with
      | Raise err => (Raise err, calls, st)
      | Return temp_int =>
          match async_set_piec_zadana (api coordinator) temp_int st with
          | (Raise err, st) => (Raise err, calls, st)
          | (Return _, st) =>
              match async_set_config_param (api coordinator)
                      (py "PIEC_ZADANA") (str_of_Z temp_int) st with
              | (Raise err, st) => (Raise err, calls, st)
              | (Return _, st) =>
                  let '(_, st) := sleep (COMMAND_DELAY * 1000) st in
                  (Return tt, calls ++ [RequestRefresh], st)
              end
          end
      end
  end.

(** [LucjanCWUClimate.async_set_temperature]. *)
Definition LucjanCWUClimate_async_set_temperature
    (coordinator : LucjanCoordinator) (temperature : option float)
    (calls : list (HaCall unit)) (st : State)
    : result unit * list (HaCall unit) * State :=
  match temperature with
  | None => (Return tt, calls, st)
  | Some temp =>
      match py_round_int temp with
      | Raise err => (Raise err, calls, st)
      | Return temp_int =>
          match async_set_cwu_zadana (api coordinator) temp_int st with
          | (Raise err, st) => (Raise err, calls, st)
          | (Return _, st) =>
              match async_set_config_param (api coordinator)
                      (py "CWU_ZADANA") (str_of_Z temp_int) st with
              | (Raise err, st) => (Raise err, calls, st)
              | (Return _, st) =>
                  let '(_, st) := sleep (COMMAND_DELAY * 1000) st in
                  (Return tt, calls ++ [RequestRefresh], st)
              end
          end
      end
  end.
End Climate.
End climate.

Section ClimateVocabulary.
Context `{Http}.

(** What [async_set_temperature] does with its two writes, the runtime
    one [runtime] and then the one to the config file [persist]: a
    missing temperature does nothing; a temperature that is not a
    number raises before anything is sent; otherwise no
    [LucjanApiError] leaves the method, and when both writes return,
    whatever they return, the method sleeps three seconds, requests a
    refresh and returns. *)
Definition set_temperature_rule
    (method : option float → list (HaCall unit) → State →
              result unit * list (HaCall unit) * State)
    (runtime persist : Z → Coro bool) : Prop :=
  ∀ calls st,
    method None calls st = (Return tt, calls, st) ∧
    method (Some S754_nan) calls st = (Raise ValueError, calls, st) ∧
    (∀ sign, method (Some (S754_infinity sign)) calls st
             = (Raise OverflowError, calls, st)) ∧
    ∀ temp temp_int,
      py_round_int temp = Return temp_int →
      (∀ err calls' st',
         method (Some temp) calls st = (Raise err, calls', st') →
         is_LucjanApiError err = false ∧ calls' = calls) ∧
      (∀ sent st1 stored st2,
         runtime temp_int st = (Return sent, st1) →
         persist temp_int st1 = (Return stored, st2) →
         method (Some temp) calls st
         = (Return tt, calls ++ [RequestRefresh],
            {| world := world st2;
               trace := trace st2 ++ [EvSleep 3000] |})).
End ClimateVocabulary.

(** ** More inputs of the examples *)

Module MoreExamples.
Import FakeDevice Examples.

(** A client that was given no session. *)
Definition no_session : @LucjanApi http :=
  @LucjanApi_init http (py "boiler") (py "admin") (py "admin") None
    DEFAULT_PORT.

(** The response of the device stub to [/config.txt]. *)
Definition config_response : ClientResponse :=
  {| status := 200; text := Return config_example;
     json_body := Raise ValueError |}.

(** The response of the device stub to [/thermos.json]. *)
Definition thermos_response : ClientResponse :=
  {| status := 200; text := Return [];
     json_body := Return status_example |}.

(** The config file of the stub with the boiler setpoint at 60. *)
Definition config_60 : str :=
  py "# comment" ++ LF ++ py "PIEC_TRYB = AUTO" ++ LF
  ++ py "PIEC_ZADANA = 60" ++ LF ++ py "CO_TRYB=ZIMA # note" ++ LF.

(** A status whose list of readings is a number. *)
Definition broken_status : gmap str json := {[ py "thermos" := JInt 5 ]}.

(** A coordinator of the stub's client that has not polled yet. *)
Definition fresh_coordinator : @LucjanCoordinator http :=
  {| api := client; data := None; last_update_success := true |}.

(** The switch of the CO circuit and the select of the CO mode. *)
Definition co_switch : @switch.LucjanSwitch http :=
  @switch.LucjanSwitch_init http fresh_coordinator
    {| switch.key := py "switch_co_zawor4d";
       switch.is_on_fn := λ data, bool_decide (co_mode data = py "ZIMA");
       switch.turn_on_fn := λ api, @async_set_co_circuit http api true;
       switch.turn_off_fn := λ api, @async_set_co_circuit http api false;
       switch.manual_only := false |}.

Definition co_select : @select.LucjanSelect http :=
  @select.LucjanSelect_init http fresh_coordinator
    {| select.key := py "select_co_tryb";
       select.options_list := py <$> ["ZIMA"; "LATO"; "ECOAL"; "BRULI"]%string;
       select.current_fn := λ data, co_mode data;
       select.config_param := py "CO_TRYB" |}.
End MoreExamples.

(** A device whose status is served and whose [/config.txt] is
    answered with status 200 and a body that cannot be read: awaiting
    [text()] times out. *)
Module StalledBody.
Definition get (session : unit) (url : str) (auth : option (str * str))
    (w : unit) : result ClientResponse * unit :=
  if bool_decide (url = py "http://boiler/thermos.json") then
    (Return {| status := 200;
               text := Return [];
               json_body := Return FakeDevice.status_example |}, w)
  else
    (Return {| status := 200;
               text := Raise TimeoutError;
               json_body := Raise ValueError |}, w).

Definition put (session : unit) (url : str) (auth : option (str * str))
    (body : str) (w : unit) : result ClientResponse * unit :=
  (Return (FakeDevice.empty_response 200), w).

Definition http : Http :=
  {| World := unit; ClientSession := unit;
     session_get := get; session_put := put |}.

Definition client : @LucjanApi http :=
  @LucjanApi_init http (py "boiler") (py "admin") (py "admin")
    (Some tt) DEFAULT_PORT.

Definition after (events : list Event) : @State http :=
  @Build_State http tt events.
End StalledBody.
(** ** Facts about the string operations *)

Lemma py_hash : py "#" = [35%N].
Proof. reflexivity. Qed.

Lemma py_equals : py "=" = [61%N].
Proof. reflexivity. Qed.

Lemma startswith_single c s :
  startswith [c] s = true ↔ ∃ s', s = c :: s'.
Proof.
  destruct s as [|c' s']; simpl.
  - split; [discriminate | intros [? ?]; discriminate].
  - rewrite andb_true_r, N.eqb_eq. split.
    + intros ->. eauto.
    + intros [? [= -> _]]. reflexivity.
Qed.

Lemma find_single_None c s : find [c] s = None ↔ c ∉ s.
Proof.
  induction s as [|c' s' IH]; simpl.
  - split; [intros _; apply not_elem_of_nil | reflexivity].
  - rewrite andb_true_r. destruct (N.eqb_spec c c') as [->|Hne].
    + split; [discriminate | intros Hn; destruct Hn; left].
    + destruct (find [c] s') as [i|] eqn:Hf; simpl.
      * split; [discriminate|].
        intros Hn. exfalso. apply not_elem_of_cons in Hn as [_ Hn].
        apply IH in Hn. discriminate.
      * split; [|reflexivity]. intros _.
        apply not_elem_of_cons. split; [assumption | by apply IH].
Qed.

Lemma contains_single c s : contains [c] s = true ↔ c ∈ s.
Proof.
  unfold contains. destruct (find [c] s) eqn:Hf.
  - split; [|reflexivity]. intros _.
    destruct (decide (c ∈ s)) as [|Hn]; [assumption|].
    apply find_single_None in Hn. congruence.
  - split; [discriminate|]. intros Hin.
    apply find_single_None in Hf. contradiction.
Qed.

Lemma contains_single_false c s : contains [c] s = false ↔ c ∉ s.
Proof.
  rewrite <- contains_single.
  destruct (contains [c] s); split; try done; intros Hn; by destruct Hn.
Qed.

Lemma find_single_app c k v :
  c ∉ k → find [c] (k ++ c :: v) = Some (length k).
Proof.
  intros Hk. induction k as [|c' k IH]; simpl.
  - by rewrite N.eqb_refl.
  - apply not_elem_of_cons in Hk as [Hne Hk]. rewrite andb_true_r.
    destruct (N.eqb_spec c c') as [->|_]; [done|].
    by rewrite IH.
Qed.

Lemma partition_single c k v :
  c ∉ k → partition [c] (k ++ c :: v) = (k, [c], v).
Proof.
  intros Hk. unfold partition. rewrite find_single_app by done.
  rewrite take_app_length.
  replace (length k + length [c])%nat with (length (k ++ [c]))
    by (rewrite length_app; reflexivity).
  replace (k ++ c :: v) with ((k ++ [c]) ++ v) by (by rewrite <- app_assoc).
  by rewrite drop_app_length.
Qed.

(** A string that contains [c] splits at its first [c]. *)
Lemma elem_of_split_first (c : N) (s : str) :
  c ∈ s → ∃ k v, s = k ++ c :: v ∧ c ∉ k.
Proof.
  induction s as [|c' s IH]; intros Hin.
  - by apply elem_of_nil in Hin.
  - destruct (decide (c = c')) as [->|Hne].
    + exists [], s. split; [done | apply not_elem_of_nil].
    + apply elem_of_cons in Hin as [?|Hin]; [done|].
      destruct (IH Hin) as (k & v & -> & Hk).
      exists (c' :: k), v. split; [done|].
      apply not_elem_of_cons. done.
Qed.

Lemma lstrip_head s c t : lstrip s = c :: t → isspace c = false.
Proof.
  induction s as [|c' s IH]; simpl; [discriminate|].
  destruct (isspace c') eqn:Hc; [done|]. by intros [= <- _].
Qed.

Lemma lstrip_app_nonspace r c t :
  isspace c = false → lstrip (r ++ c :: t) = lstrip r ++ c :: t.
Proof.
  intros Hc. induction r as [|c' r IH]; simpl.
  - by rewrite Hc.
  - by destruct (isspace c').
Qed.

Lemma rstrip_cons_nonspace c t :
  isspace c = false → rstrip (c :: t) = c :: rstrip t.
Proof.
  intros Hc. unfold rstrip. rewrite reverse_cons.
  replace (reverse t ++ [c]) with (reverse t ++ c :: []) by done.
  rewrite lstrip_app_nonspace by done.
  by rewrite reverse_app.
Qed.

Lemma strip_cons s c t : lstrip s = c :: t → strip s = c :: rstrip t.
Proof.
  intros Hl. unfold strip. rewrite Hl. apply rstrip_cons_nonspace.
  by eapply lstrip_head.
Qed.

Lemma strip_nil s : lstrip s = [] → strip s = [].
Proof. intros Hl. unfold strip. by rewrite Hl. Qed.

Lemma strip_head s c t : strip s = c :: t → isspace c = false.
Proof.
  destruct (lstrip s) as [|c' t'] eqn:Hl.
  - by rewrite (strip_nil _ Hl).
  - rewrite (strip_cons _ _ _ Hl). intros [= <- _]. by eapply lstrip_head.
Qed.

(** The stripped text before the first ["="] of a stripped line: empty
    only when the line starts with ["="], and otherwise it starts like
    the line. *)
Lemma strip_prefix_of_strip line c k v :
  strip line = (c :: k) ++ v → ∃ k', strip (c :: k) = c :: k'.
Proof.
  intros Hs. assert (isspace c = false) as Hc by (by eapply strip_head).
  exists (rstrip k). apply strip_cons. simpl. by rewrite Hc.
Qed.

(** ** Facts about [splitlines] and [join] *)

Lemma join_unlines ls : ls ≠ [] → join LF ls ++ LF = unlines ls.
Proof.
  induction ls as [|x [|y ls] IH]; intros Hne; [done| |].
  - unfold unlines. simpl. by rewrite app_nil_r.
  - change (join LF (x :: y :: ls)) with (x ++ LF ++ join LF (y :: ls)).
    rewrite <- !app_assoc. rewrite IH by done. unfold unlines. simpl.
    by rewrite <- !app_assoc.
Qed.

Lemma unlines_app l1 l2 : unlines (l1 ++ l2) = unlines l1 ++ unlines l2.
Proof. unfold unlines. by rewrite fmap_app, concat_app. Qed.

Lemma unlines_cons l ls : unlines (l :: ls) = l ++ LF ++ unlines ls.
Proof. unfold unlines. simpl. by rewrite <- app_assoc. Qed.

Lemma nobreak_reverse s : nobreak s → nobreak (reverse s).
Proof. unfold nobreak. by rewrite Forall_reverse. Qed.

Lemma splitlines_from_line cur x y :
  nobreak x →
  splitlines_from cur (x ++ LF ++ y) = (reverse cur ++ x) :: splitlines y.
Proof.
  intros Hx. revert cur. induction Hx as [|c x Hc Hx IH]; intros cur.
  - simpl. rewrite app_nil_r. by destruct y.
  - simpl. rewrite Hc. rewrite IH. rewrite reverse_cons.
    by rewrite <- app_assoc.
Qed.

Lemma splitlines_line x y :
  nobreak x → splitlines (x ++ LF ++ y) = x :: splitlines y.
Proof. intros Hx. unfold splitlines at 1. by rewrite splitlines_from_line. Qed.

Lemma splitlines_unlines ls rest :
  Forall nobreak ls → splitlines (unlines ls ++ rest) = ls ++ splitlines rest.
Proof.
  induction 1 as [|l ls Hl Hls IH]; [done|].
  rewrite unlines_cons. rewrite <- !app_assoc.
  rewrite splitlines_line by done. simpl. f_equal. apply IH.
Qed.

(** What follows a ["\n"] is split on its own, whatever precedes it. *)
Lemma splitlines_from_LF cur x y :
  splitlines_from cur (x ++ LF ++ y)
  = splitlines_from cur (x ++ LF) ++ splitlines y.
Proof.
  remember (length x) as n eqn:Hn. revert cur x Hn.
  induction n as [n IH] using lt_wf_ind. intros cur x Hn.
  destruct x as [|c x].
  - simpl. by destruct y.
  - simpl. destruct (is_linebreak c) eqn:Hc.
    + destruct x as [|c' x].
      * simpl. destruct (c =? 13)%N; simpl; [done|]. by destruct y.
      * simpl. destruct ((c =? 13)%N && (c' =? 10)%N);
          rewrite <- app_comm_cons; f_equal.
        -- apply (IH (length x)); [simpl in Hn; lia | done].
        -- apply (IH (length (c' :: x)) ltac:(simpl in *; lia) [] (c' :: x)
                    eq_refl).
    + apply (IH (length x)); [simpl in Hn; lia | done].
Qed.

Lemma splitlines_from_nobreak cur s :
  nobreak cur → Forall nobreak (splitlines_from cur s).
Proof.
  remember (length s) as n eqn:Hn. revert cur s Hn.
  induction n as [n IH] using lt_wf_ind. intros cur s Hn Hcur.
  assert (Forall nobreak (splitlines_from [] [])) as Hnil by constructor.
  destruct s as [|c s].
  - simpl. destruct cur; [constructor|].
    repeat constructor. by apply nobreak_reverse.
  - simpl. destruct (is_linebreak c) eqn:Hc.
    + destruct s as [|c' s].
      * repeat constructor. by apply nobreak_reverse.
      * destruct ((c =? 13)%N && (c' =? 10)%N);
          (constructor; [by apply nobreak_reverse|]).
        -- apply (IH (length s)); [simpl in Hn; lia | done | constructor].
        -- apply (IH (length (c' :: s))); [simpl in *; lia | done | constructor].
    + apply (IH (length s)); [simpl in Hn; lia | done |].
      by constructor.
Qed.

Lemma splitlines_nobreak s : Forall nobreak (splitlines s).
Proof. apply splitlines_from_nobreak. constructor. Qed.

Lemma nobreak_lstrip s : nobreak s → nobreak (lstrip s).
Proof.
  induction 1 as [|c s Hc Hs IH]; simpl; [constructor|].
  destruct (isspace c); [done | by constructor].
Qed.

Lemma nobreak_strip s : nobreak s → nobreak (strip s).
Proof.
  intros Hs. unfold strip, rstrip.
  by apply nobreak_reverse, nobreak_lstrip, nobreak_reverse, nobreak_lstrip.
Qed.

Lemma nobreak_take i s : nobreak s → nobreak (take i s).
Proof. apply Forall_take. Qed.

Lemma nobreak_app s t : nobreak s → nobreak t → nobreak (s ++ t).
Proof. intros. by apply Forall_app. Qed.

(** ** Facts about the two config-file loops *)

Lemma _replace_config_param_loop_step param new_value lines i line todo :
  _replace_config_param_loop param new_value lines i (line :: todo)
  = if is_param_line param line
    then (<[i := rewritten_line param new_value line]> lines, true)
    else _replace_config_param_loop param new_value lines (S i) todo.
Proof.
  unfold is_param_line, rewritten_line. cbn [_replace_config_param_loop].
  destruct (startswith (py "#") (strip line)); cbn [negb andb]; [done|].
  destruct (contains (py "=") (strip line)); cbn [andb]; [|done].
  destruct (partition (py "=") (strip line)) as [[key sep] rest]. cbn [fst].
  destruct (bool_decide (strip key = param)); [|done].
  by destruct (contains (py " = ") line).
Qed.

Lemma _replace_config_param_loop_absent param new_value lines i todo :
  Forall (λ l, is_param_line param l = false) todo →
  _replace_config_param_loop param new_value lines i todo = (lines, false).
Proof.
  intros Hall. revert i.
  induction Hall as [|line todo Hline _ IH]; intros i; [done|].
  rewrite _replace_config_param_loop_step, Hline. apply IH.
Qed.

Lemma _replace_config_param_loop_first param new_value lines i
    before line after :
  Forall (λ l, is_param_line param l = false) before →
  is_param_line param line = true →
  _replace_config_param_loop param new_value lines i (before ++ line :: after)
  = (<[(i + length before)%nat := rewritten_line param new_value line]> lines,
     true).
Proof.
  intros Hbefore Hline. revert i.
  induction Hbefore as [|l before Hl _ IH]; intros i.
  - simpl app. rewrite _replace_config_param_loop_step, Hline.
    by rewrite Nat.add_0_r.
  - simpl app. rewrite _replace_config_param_loop_step, Hl, IH.
    simpl. by rewrite Nat.add_succ_r.
Qed.

(** The first line that passes a test. *)
Lemma first_match {A} (P : A → bool) (l : list A) :
  Exists (λ x, P x = true) l →
  ∃ before x after,
    l = before ++ x :: after ∧
    Forall (λ y, P y = false) before ∧ P x = true.
Proof.
  induction l as [|y l IH]; intros Hex.
  - by apply Exists_nil in Hex.
  - destruct (P y) eqn:Hy.
    + exists [], y, l. by repeat split.
    + apply Exists_cons in Hex as [Hex|Hex]; [congruence|].
      destruct (IH Hex) as (before & x & after & -> & Hb & Hx).
      exists (y :: before), x, after. repeat split; [|done].
      by constructor.
Qed.

Lemma _replace_config_param_absent text param new_value :
  Forall (λ l, is_param_line param l = false) (splitlines text) →
  _replace_config_param text param new_value = None.
Proof.
  intros Hall. unfold _replace_config_param.
  by rewrite _replace_config_param_loop_absent.
Qed.

Lemma _replace_config_param_first text param new_value before line after :
  splitlines text = before ++ line :: after →
  Forall (λ l, is_param_line param l = false) before →
  is_param_line param line = true →
  _replace_config_param text param new_value
  = Some (unlines (before ++ rewritten_line param new_value line :: after)).
Proof.
  intros Hsplit Hbefore Hline. unfold _replace_config_param.
  rewrite Hsplit at 2.
  rewrite _replace_config_param_loop_first by done. simpl negb. cbv iota.
  rewrite Hsplit. cbn [Nat.add].
  replace (length before) with (length before + 0)%nat by lia.
  rewrite insert_app_r. cbn [insert list_insert].
  rewrite join_unlines; [done|]. by destruct before.
Qed.

Lemma _replace_config_param_None text param new_value :
  _replace_config_param text param new_value = None ↔
  Forall (λ l, is_param_line param l = false) (splitlines text).
Proof.
  split; [|apply _replace_config_param_absent].
  intros Hnone. apply Forall_forall. intros l Hl.
  destruct (is_param_line param l) eqn:Hp; [|done]. exfalso.
  assert (Exists (λ x, is_param_line param x = true) (splitlines text)) as Hex
    by (apply Exists_exists; eauto).
  apply first_match in Hex as (before & x & after & Hs & Hb & Hx).
  rewrite (_replace_config_param_first _ _ _ _ _ _ Hs Hb Hx) in Hnone.
  discriminate.
Qed.

(** The mapping after the loop of [_parse_config]: the assignments of the
    lines, the last one first. *)
Lemma foldl_parse_config_step config lines :
  foldl _parse_config_step config lines
  = foldr (λ kv m, <[kv.1 := kv.2]> m) config
      (reverse (omap _parse_config_line lines)).
Proof.
  revert config. induction lines as [|line lines IH]; intros config; [done|].
  simpl. rewrite IH. unfold _parse_config_step.
  destruct (_parse_config_line line) as [[key value]|]; simpl.
  - rewrite reverse_cons, foldr_app. done.
  - done.
Qed.

(** A line that assigns [key] decides its value, whatever was there. *)
Lemma _parse_config_step_assigns config line key value :
  _parse_config_line line = Some (key, value) →
  _parse_config_step config line !! key = Some value.
Proof.
  intros Hline. unfold _parse_config_step. rewrite Hline.
  apply lookup_insert_eq.
Qed.

(** A line that does not assign [key] leaves its value alone. *)
Lemma _parse_config_step_other config line key :
  (∀ value, _parse_config_line line ≠ Some (key, value)) →
  _parse_config_step config line !! key = config !! key.
Proof.
  intros Hline. unfold _parse_config_step.
  destruct (_parse_config_line line) as [[key' value']|]; [|done].
  apply lookup_insert_ne. intros ->. by eapply Hline.
Qed.

Lemma foldl_parse_config_other config lines key :
  Forall (λ l, ∀ value, _parse_config_line l ≠ Some (key, value)) lines →
  foldl _parse_config_step config lines !! key = config !! key.
Proof.
  intros Hall. revert config.
  induction Hall as [|line lines Hline _ IH]; intros config; [done|].
  simpl. rewrite IH. by apply _parse_config_step_other.
Qed.

(** Last occurrence wins. *)
Lemma foldl_parse_config_last config before line after key value :
  _parse_config_line line = Some (key, value) →
  Forall (λ l, ∀ value', _parse_config_line l ≠ Some (key, value')) after →
  foldl _parse_config_step config (before ++ line :: after) !! key
  = Some value.
Proof.
  intros Hline Hafter. rewrite foldl_app. simpl.
  rewrite foldl_parse_config_other by done.
  by apply _parse_config_step_assigns.
Qed.

(** The connection between the two loops: a line assigns [key] in
    [_parse_config] exactly when [key] is not empty and
    [_replace_config_param] takes the line for [key]. *)
Lemma _parse_config_line_is_param_line line key value :
  _parse_config_line line = Some (key, value) →
  is_param_line key line = true ∧ key ≠ [].
Proof.
  unfold _parse_config_line, is_param_line.
  destruct (bool_decide (strip line = [])); cbn [orb]; [done|].
  destruct (startswith (py "#") (strip line)); cbn [negb andb]; [done|].
  destruct (contains (py "=") (strip line)); cbn [andb]; [|done].
  destruct (partition (py "=") (strip line)) as [[k sep] v]. cbn [fst].
  destruct (bool_decide (strip k = [])) eqn:Hk; cbn [negb andb]; [done|].
  destruct (startswith (py "#") (strip k)); cbn [negb]; [done|].
  intros [= <- _]. split.
  - by apply bool_decide_eq_true.
  - by apply bool_decide_eq_false in Hk.
Qed.

Lemma is_param_line_parse_config_line line param :
  is_param_line param line = true → param ≠ [] →
  ∃ value, _parse_config_line line = Some (param, value).
Proof.
  unfold _parse_config_line, is_param_line. intros Hp Hne.
  apply andb_prop in Hp as [Hp Hkey]. apply andb_prop in Hp as [Hhash Heq].
  apply negb_true_iff in Hhash. rewrite Hhash, Heq.
  rewrite py_equals, py_hash in *. apply contains_single in Heq.
  destruct (elem_of_split_first _ _ Heq) as (k & v & Hs & Hk).
  rewrite Hs in Hkey |- *. rewrite partition_single in Hkey |- * by done.
  cbn [fst] in Hkey. apply bool_decide_eq_true in Hkey.
  assert (bool_decide (k ++ 61%N :: v = []) = false) as ->.
  { apply bool_decide_eq_false. by destruct k. }
  cbn [orb]. rewrite Hkey.
  assert (bool_decide (param = []) = false) as ->
    by (by apply bool_decide_eq_false).
  assert (startswith [35%N] param = false) as ->; [|cbn [negb andb]; eauto].
  destruct k as [|c k].
  { exfalso. apply Hne. by rewrite <- Hkey. }
  destruct (strip_prefix_of_strip _ _ _ _ Hs) as [k' Hk'].
  rewrite Hk' in Hkey. rewrite <- Hkey.
  rewrite Hs in Hhash. exact Hhash.
Qed.

Lemma filter_linebreak_nobreak s :
  nobreak s → List.filter is_linebreak s = [].
Proof.
  induction 1 as [|c s Hc _ IH]; [done|]. simpl. by rewrite Hc.
Qed.

Lemma differs_within_one_line_breaks text out :
  differs_within_one_line text out →
  length (List.filter is_linebreak text) = length (List.filter is_linebreak out).
Proof.
  intros (pre & old & new & post & -> & -> & Hold & Hnew).
  rewrite !List.filter_app.
  rewrite (filter_linebreak_nobreak old), (filter_linebreak_nobreak new)
    by done.
  done.
Qed.

Lemma is_param_line_nobreak param line :
  nobreak line → is_param_line param line = true → nobreak param.
Proof.
  intros Hline Hp. unfold is_param_line in Hp.
  apply andb_prop in Hp as [_ Hkey]. apply bool_decide_eq_true in Hkey.
  rewrite <- Hkey. apply nobreak_strip. unfold partition.
  destruct (find (py "=") (strip line)); cbn [fst].
  - by apply nobreak_take, nobreak_strip.
  - by apply nobreak_strip.
Qed.

Lemma rewritten_line_nobreak param new_value line :
  nobreak param → nobreak new_value →
  nobreak (rewritten_line param new_value line).
Proof.
  intros Hp Hv. unfold rewritten_line.
  assert (nobreak (py " = ")) by (vm_compute; by repeat constructor).
  assert (nobreak (py "=")) by (vm_compute; by repeat constructor).
  destruct (contains (py " = ") line);
    (apply nobreak_app; [done|]); by apply nobreak_app.
Qed.

(** ** The claims about the config-file helpers *)

(** C2, as stated, fails: on a config file with CR LF line ends,
    replacing the value of [A] also rewrites the end of every line, so
    the line of [B] is not preserved byte for byte (and the uploaded
    text is not the original with one line changed). *)
Lemma replace_config_param_crlf_not_preserved :
  Exists (λ l, is_param_line (py "A") l = true) (splitlines crlf_config) ∧
  _replace_config_param crlf_config (py "A") (py "2")
  = Some (py "A=2" ++ LF ++ py "B=2" ++ LF) ∧
  ¬ differs_within_one_line crlf_config (py "A=2" ++ LF ++ py "B=2" ++ LF).
Proof.
  split; [|split].
  - apply Exists_cons_hd. reflexivity.
  - reflexivity.
  - intros Hd. apply differs_within_one_line_breaks in Hd.
    vm_compute in Hd. discriminate.
Qed.

(** C2, amended: when some line of the text is a non-comment
    [key=value] line for [param], [_replace_config_param] returns the
    lines of the text (as [splitlines] cuts them), joined by ["\n"] and
    ended by ["\n"], with the first such line replaced by
    [param ++ " = " ++ new_value] if it contained [" = "] and by
    [param ++ "=" ++ new_value] otherwise; the content of every other
    line is unchanged, and, when [new_value] holds no line boundary, the
    lines of the result are again these lines. *)
Theorem replace_config_param_first_line (text param new_value : str) :
  Exists (λ l, is_param_line param l = true) (splitlines text) →
  ∃ before line after,
    splitlines text = before ++ line :: after ∧
    Forall (λ l, is_param_line param l = false) before ∧
    is_param_line param line = true ∧
    let new_line :=
      if contains (py " = ") line
      then param ++ py " = " ++ new_value
      else param ++ py "=" ++ new_value in
    _replace_config_param text param new_value
    = Some (join LF (before ++ new_line :: after) ++ LF) ∧
    (nobreak new_value →
     splitlines (join LF (before ++ new_line :: after) ++ LF)
     = before ++ new_line :: after).
Proof.
  intros Hex.
  apply first_match in Hex as (before & line & after & Hs & Hb & Hl).
  exists before, line, after. repeat split; try done.
  - rewrite (_replace_config_param_first _ _ _ _ _ _ Hs Hb Hl).
    rewrite join_unlines by (by destruct before). done.
  - intros Hv. fold (rewritten_line param new_value line).
    rewrite join_unlines by (by destruct before).
    rewrite <- (app_nil_r (unlines _)). rewrite splitlines_unlines.
    + by rewrite app_nil_r.
    + pose proof (splitlines_nobreak text) as Hnb. rewrite Hs in Hnb.
      apply Forall_app in Hnb as [Hnb1 Hnb2].
      apply Forall_cons in Hnb2 as [Hnl Hnb2].
      apply Forall_app. split; [done|]. constructor; [|done].
      apply rewritten_line_nobreak; [|done].
      by eapply is_param_line_nobreak.
Qed.

Lemma replace_config_param_first_line_witness :
  ∃ before line after,
    splitlines FakeDevice.config_example = before ++ line :: after ∧
    Forall (λ l, is_param_line (py "PIEC_ZADANA") l = false) before ∧
    is_param_line (py "PIEC_ZADANA") line = true ∧
    let new_line :=
      if contains (py " = ") line
      then py "PIEC_ZADANA" ++ py " = " ++ py "60"
      else py "PIEC_ZADANA" ++ py "=" ++ py "60" in
    _replace_config_param FakeDevice.config_example (py "PIEC_ZADANA") (py "60")
    = Some (join LF (before ++ new_line :: after) ++ LF) ∧
    (nobreak (py "60") →
     splitlines (join LF (before ++ new_line :: after) ++ LF)
     = before ++ new_line :: after).
Proof.
  apply (replace_config_param_first_line FakeDevice.config_example
           (py "PIEC_ZADANA") (py "60")).
  compute_done.
Defined.

(** The example of section 8: the line [PIEC_ZADANA = 55] becomes
    [PIEC_ZADANA = 60] and the other lines stay. *)
Example replace_config_param_example :
  _replace_config_param FakeDevice.config_example (py "PIEC_ZADANA") (py "60")
  = Some (py "# comment" ++ LF ++ py "PIEC_TRYB = AUTO" ++ LF
          ++ py "PIEC_ZADANA = 60" ++ LF ++ py "CO_TRYB=ZIMA # note" ++ LF).
Proof. reflexivity. Qed.

(** The rewritten line is built from [param] and [new_value] alone: the
    indentation and the inline comment of the original line are not
    kept. *)
Example replace_config_param_drops_comment :
  _replace_config_param (py "  CO_TRYB=ZIMA # note" ++ LF) (py "CO_TRYB")
    (py "ZIM")
  = Some (py "CO_TRYB=ZIM" ++ LF).
Proof. reflexivity. Qed.

(** A text without a final newline gets one. *)
Example replace_config_param_adds_newline :
  _replace_config_param (py "A=1") (py "A") (py "2") = Some (py "A=2" ++ LF).
Proof. reflexivity. Qed.

Lemma _parse_config_line_split line k v :
  strip line = k ++ 61%N :: v → 61%N ∉ k →
  _parse_config_line line
  = if startswith [35%N] (strip line) then None
    else
      let value := strip v in
      let value := if contains [35%N] value
                   then match find [35%N] value with
                        | Some i => strip (take i value)
                        | None => value
                        end
                   else value in
      if negb (bool_decide (strip k = [])) && negb (startswith [35%N] (strip k))
      then Some (strip k, value) else None.
Proof.
  intros Hs Hk. unfold _parse_config_line.
  rewrite py_hash, py_equals.
  assert (bool_decide (strip line = []) = false) as ->.
  { apply bool_decide_eq_false. rewrite Hs. by destruct k. }
  cbn [orb]. destruct (startswith [35%N] (strip line)); [done|].
  assert (contains [61%N] (strip line) = true) as ->.
  { apply contains_single. rewrite Hs. apply elem_of_app. right. left. }
  rewrite Hs, partition_single by done. done.
Qed.

(** C4: [_parse_config] ignores the lines that start with ["#"] once
    stripped, the lines without ["="] and the lines with an empty key;
    it splits every other line at its first ["="], strips the key and
    the value, cuts the value at its first ["#"] and strips it again;
    it never fails, and the mapping holds for every key the value of
    the last line that assigns it; the example of section 8 parses to
    the two expected entries. *)
Theorem parse_config_spec :
  (∀ line, startswith (py "#") (strip line) = true →
           _parse_config_line line = None) ∧
  (∀ line, 61%N ∉ line → _parse_config_line line = None) ∧
  (∀ line k v, strip line = k ++ 61%N :: v → 61%N ∉ k → strip k = [] →
               _parse_config_line line = None) ∧
  (∀ line k v,
     startswith (py "#") (strip line) = false →
     strip line = k ++ 61%N :: v → 61%N ∉ k → strip k ≠ [] →
     (35%N ∉ strip v → _parse_config_line line = Some (strip k, strip v)) ∧
     (∀ w c, strip v = w ++ 35%N :: c → 35%N ∉ w →
             _parse_config_line line = Some (strip k, strip w))) ∧
  (∀ text,
     _parse_config text
     = foldr (λ kv m, <[kv.1 := kv.2]> m) ∅
         (reverse (omap _parse_config_line (splitlines text)))) ∧
  (∀ text before line after key value,
     splitlines text = before ++ line :: after →
     _parse_config_line line = Some (key, value) →
     Forall (λ l, ∀ value', _parse_config_line l ≠ Some (key, value')) after →
     _parse_config text !! key = Some value) ∧
  (∀ text key,
     Forall (λ l, ∀ value, _parse_config_line l ≠ Some (key, value))
       (splitlines text) →
     _parse_config text !! key = None) ∧
  _parse_config parse_example
  = {[ py "PIEC_ZADANA" := py "55"; py "CO_TRYB" := py "ZIMA" ]}.
Proof.
  repeat apply conj.
  - intros line Hc. unfold _parse_config_line. rewrite Hc.
    by rewrite orb_true_r.
  - intros line Hne. unfold _parse_config_line.
    destruct (_ || _); [done|].
    assert (contains (py "=") (strip line) = false) as ->; [|done].
    rewrite py_equals. apply contains_single_false. intros Hin.
    apply Hne. unfold strip, rstrip in Hin.
    rewrite elem_of_reverse in Hin.
    assert (∀ s : str, 61%N ∈ lstrip s → 61%N ∈ s) as Hl.
    { intros s. induction s as [|c s IH]; simpl; [done|].
      destruct (isspace c); [|done]. intros ?. right. auto. }
    apply Hl in Hin. rewrite elem_of_reverse in Hin. by apply Hl.
  - intros line k v Hs Hk Hempty.
    rewrite (_parse_config_line_split _ _ _ Hs Hk), Hempty.
    by destruct (startswith _ _).
  - intros line k v Hc Hs Hk Hkey.
    assert (startswith [35%N] (strip k) = false) as Hkc.
    { destruct k as [|c0 k].
      - unfold strip in Hkey. done.
      - destruct (strip_prefix_of_strip _ _ _ _ Hs) as [k' Hk'].
        rewrite Hk'. rewrite Hs in Hc. exact Hc. }
    rewrite (_parse_config_line_split _ _ _ Hs Hk).
    rewrite py_hash in Hc. rewrite Hc, Hkc.
    assert (bool_decide (strip k = []) = false) as ->
      by (by apply bool_decide_eq_false).
    cbn [negb andb]. split.
    + intros Hv. apply contains_single_false in Hv. by rewrite Hv.
    + intros w c Hw Hwc. cbn zeta. rewrite Hw.
      assert (contains [35%N] (w ++ 35%N :: c) = true) as ->.
      { apply contains_single, elem_of_app. right. left. }
      rewrite find_single_app by done. by rewrite take_app_length.
  - intros text. apply foldl_parse_config_step.
  - intros text before line after key value Hs Hline Hafter.
    unfold _parse_config. rewrite Hs.
    by apply foldl_parse_config_last.
  - intros text key Hall. unfold _parse_config.
    rewrite foldl_parse_config_other by done. apply lookup_empty.
  - vm_compute. reflexivity.
Qed.

(** C10: when [param] is assigned by more than one line,
    [_replace_config_param] rewrites the first of these lines and
    leaves the others as they are; [_parse_config] then still gives
    [param] the value of the last of them, as it did before. *)
Theorem replace_config_param_duplicate_keeps_last
    (text param new_value : str) (before first middle last after : _)
    (first_value last_value : str) :
  splitlines text = before ++ first :: middle ++ last :: after →
  Forall (λ l, ∀ v, _parse_config_line l ≠ Some (param, v)) before →
  _parse_config_line first = Some (param, first_value) →
  _parse_config_line last = Some (param, last_value) →
  Forall (λ l, ∀ v, _parse_config_line l ≠ Some (param, v)) after →
  ∃ out,
    _replace_config_param text param new_value = Some out ∧
    out = join LF (before ++ rewritten_line param new_value first
                     :: middle ++ last :: after) ++ LF ∧
    _parse_config text !! param = Some last_value ∧
    _parse_config out !! param = Some last_value.
Proof.
  intros Hs Hbefore Hfirst Hlast Hafter.
  destruct (_parse_config_line_is_param_line _ _ _ Hfirst) as [Hp Hne].
  assert (Forall (λ l, is_param_line param l = false) before) as Hb.
  { eapply Forall_impl; [exact Hbefore|]. intros l Hl.
    destruct (is_param_line param l) eqn:Hpl; [|done].
    destruct (is_param_line_parse_config_line _ _ Hpl Hne) as [v Hv].
    by destruct (Hl v). }
  eexists. split; [by eapply _replace_config_param_first|].
  split; [by rewrite join_unlines by (by destruct before)|].
  split.
  - unfold _parse_config. rewrite Hs.
    rewrite (app_comm_cons middle), app_assoc.
    by apply foldl_parse_config_last.
  - pose proof (splitlines_nobreak text) as Hnb. rewrite Hs in Hnb.
    apply Forall_app in Hnb as [Hnb1 Hnb2].
    apply Forall_cons in Hnb2 as [_ Hnb2].
    unfold _parse_config. rewrite unlines_app, unlines_cons.
    rewrite splitlines_unlines by done.
    unfold splitlines at 1. rewrite splitlines_from_LF.
    rewrite <- (app_nil_r (unlines (middle ++ _))).
    rewrite splitlines_unlines by done. rewrite app_nil_r.
    rewrite !app_assoc.
    by apply foldl_parse_config_last.
Qed.

Lemma replace_config_param_duplicate_keeps_last_witness :
  ∃ out,
    _replace_config_param (py "A=1" ++ LF ++ py "A=2" ++ LF) (py "A") (py "9")
    = Some out ∧
    out = join LF ([] ++ rewritten_line (py "A") (py "9") (py "A=1")
                     :: [] ++ py "A=2" :: []) ++ LF ∧
    _parse_config (py "A=1" ++ LF ++ py "A=2" ++ LF) !! py "A"
    = Some (py "2") ∧
    _parse_config out !! py "A" = Some (py "2").
Proof.
  apply (replace_config_param_duplicate_keeps_last
           (py "A=1" ++ LF ++ py "A=2" ++ LF) (py "A") (py "9")
           [] (py "A=1") [] (py "A=2") [] (py "1") (py "2")).
  - reflexivity.
  - constructor.
  - reflexivity.
  - reflexivity.
  - constructor.
Defined.

(** The same on the text: after the replacement the file reads
    [A=9], [A=2], and [A] still parses to ["2"]. *)
Example replace_config_param_duplicate_example :
  _replace_config_param (py "A=1" ++ LF ++ py "A=2" ++ LF) (py "A") (py "9")
  = Some (py "A=9" ++ LF ++ py "A=2" ++ LF) ∧
  _parse_config (py "A=9" ++ LF ++ py "A=2" ++ LF) !! py "A" = Some (py "2").
Proof. split; vm_compute; reflexivity. Qed.

(** ** Facts about the client's coroutines *)

Section ApiFacts.
Context `{Http} `{PyBuiltins}.
Local Open Scope coro_scope.

Lemma try_return_False {A} (m : Coro A) st :
  try_except (let* _ := m in ret true) except_LucjanApiError_return_False st
  = match m st with
    | (Return _, st') => (Return true, st')
    | (Raise err, st') =>
        if is_LucjanApiError err then (Return false, st')
        else (Raise err, st')
    end.
Proof.
  unfold try_except, bind, ret, except_LucjanApiError_return_False.
  destruct (m st) as [[a|err] st']; [done|].
  by destruct (is_LucjanApiError err).
Qed.

Lemma try_return_False_reports (request : Coro ClientResponse) :
  reports_as_bool request
    (try_except (let* _ := request in ret true)
       except_LucjanApiError_return_False).
Proof.
  intros st. rewrite try_return_False.
  destruct (request st) as [[a|err] st']; [done|].
  by destruct (is_LucjanApiError err).
Qed.

Lemma try_return_False_never_raises (m : Coro bool) :
  never_raises_LucjanApiError
    (try_except m except_LucjanApiError_return_False).
Proof.
  intros st err st'.
  unfold try_except, except_LucjanApiError_return_False.
  destruct (m st) as [[a|err0] st0]; [done|].
  destruct (is_LucjanApiError err0) eqn:Herr; [done|].
  by intros [= <- _].
Qed.

Lemma async_set_config_param_never_raises self param value :
  never_raises_LucjanApiError (async_set_config_param self param value).
Proof. apply try_return_False_never_raises. Qed.

(** Whatever its three steps return, [async_set_co_circuit] does not
    return [False]: [async_set_config_param] reports a failure by its
    result, which the sequence drops, and raises no [LucjanApiError]
    for the [except] clause to catch. *)
Lemma async_set_co_circuit_never_False self enabled st st' :
  async_set_co_circuit self enabled st ≠ (Return false, st').
Proof.
  unfold async_set_co_circuit, try_except, bind.
  destruct (async_set_config_param _ _ (py "RECZNY") st)
    as [[b1|e1] s1] eqn:H1.
  - unfold sleep at 1. cbn beta iota.
    destruct (async_set_config_param _ (py "CO_TRYB") _ _)
      as [[b2|e2] s2] eqn:H2.
    + unfold sleep at 1. cbn beta iota.
      destruct (async_set_config_param _ _ (py "AUTO") _)
        as [[b3|e3] s3] eqn:H3.
      * unfold ret. congruence.
      * apply async_set_config_param_never_raises in H3. rewrite H3.
        congruence.
    + apply async_set_config_param_never_raises in H2. rewrite H2.
      congruence.
  - apply async_set_config_param_never_raises in H1. rewrite H1.
    congruence.
Qed.

Lemma _get_ok self endpoint st session response w :
  _session self = Some session →
  session_get session (_base_url self ++ endpoint) (_auth self) (world st)
  = (Return response, w) →
  status response = 200 →
  _get self endpoint st
  = (Return response,
     {| world := w;
        trace := trace st ++ [EvGet (_base_url self ++ endpoint)] |}).
Proof.
  intros Hsession Hget Hstatus. unfold _get. rewrite Hsession.
  unfold try_except, bind, await_get. rewrite Hget.
  unfold check_status. by rewrite Hstatus.
Qed.

(** ** The claims about the client *)

(** C9: the runtime-variable setter and the four system commands
    return [True] when their request succeeds and [False] when it
    raises a [LucjanApiError], [LucjanConnectionError] or
    [LucjanAuthError]; none of these errors reaches the caller. *)
Theorem write_commands_report_boolean (self : LucjanApi) (name : str)
    (value : json) :
  (reports_as_bool
     (_get self (py "/set" ++ name ++ py "=" ++ py_str value))
     (async_set_variable self name value)
   ∧ never_raises_LucjanApiError (async_set_variable self name value)) ∧
  (reports_as_bool (_get self (py "/alarmreset")) (async_alarm_reset self)
   ∧ never_raises_LucjanApiError (async_alarm_reset self)) ∧
  (reports_as_bool (_get self (py "/configreload"))
     (async_config_reload self)
   ∧ never_raises_LucjanApiError (async_config_reload self)) ∧
  (reports_as_bool (_get self (py "/zasobnikfull")) (async_hopper_full self)
   ∧ never_raises_LucjanApiError (async_hopper_full self)) ∧
  (reports_as_bool (_get self (py "/reset")) (async_reset_controller self)
   ∧ never_raises_LucjanApiError (async_reset_controller self)).
Proof.
  repeat split;
    first [ apply try_return_False_reports
          | apply try_return_False_never_raises ].
Qed.

(** C3: when the config file the device serves has no non-comment
    [key=value] line for [param], [async_set_config_param] returns
    [False] after the one GET of [/config.txt]: it sends no PUT and no
    [/configreload], and the world is as that GET left it. *)
Theorem set_config_param_absent_no_upload (self : LucjanApi)
    (param value : str) (st : State) (session : ClientSession)
    (response : ClientResponse) (config_text : str) (w : World) :
  _session self = Some session →
  session_get session (_base_url self ++ ENDPOINT_CONFIG) (_auth self)
    (world st) = (Return response, w) →
  status response = 200 →
  text response = Return config_text →
  Forall (λ l, is_param_line param l = false) (splitlines config_text) →
  async_set_config_param self param value st
  = (Return false,
     {| world := w;
        trace := trace st ++ [EvGet (_base_url self ++ ENDPOINT_CONFIG)] |}).
Proof.
  intros Hsession Hget Hstatus Htext Habsent.
  unfold async_set_config_param, try_except, bind at 1.
  unfold async_get_config_raw, bind.
  rewrite (_get_ok _ _ _ _ _ _ Hsession Hget Hstatus).
  unfold lift. rewrite Htext.
  by rewrite _replace_config_param_absent.
Qed.

(** ** The claim about the poll cycle *)

End ApiFacts.

(** ** Facts about the conversion of integers to floats *)












(** ** The claims about the snapshot *)

Section SnapshotFacts.
Context `{PyBuiltins}.





End SnapshotFacts.

(** ** Facts about rounding to decimals *)

Lemma round_half_even_nearest n d :
  0 < d → nearest_integer_ties_even n d (round_half_even n d).
Proof.
  intros Hd. unfold nearest_integer_ties_even, round_half_even.
  cbv zeta.
  pose proof (Z.div_mod n d ltac:(lia)) as Hdiv.
  pose proof (Z.mod_pos_bound n d Hd) as Hmod.
  destruct (2 * (n mod d) ?= d) eqn:Hcmp; cbv beta iota.
  - apply Z.compare_eq in Hcmp.
    destruct (Z.even (n / d)) eqn:Heven.
    + split; [lia|done].
    + split; [lia|]. intros _.
      rewrite Z.add_1_r, Z.even_succ, <- Z.negb_even. by rewrite Heven.
  - rewrite Z.compare_lt_iff in Hcmp. split; [lia|].
    intros Htie. exfalso. lia.
  - rewrite Z.compare_gt_iff in Hcmp. split; [lia|].
    intros Htie. exfalso. lia.
Qed.

Lemma nearest_integer_ties_even_unique n d k k' :
  0 < d →
  nearest_integer_ties_even n d k → nearest_integer_ties_even n d k' →
  k = k'.
Proof.
  intros Hd [Hk Htie] [Hk' Htie'].
  assert (k = k' ∨ k = k' + 1 ∨ k' = k + 1) as [->|[->| ->]] by nia; [done| |].
  - assert (Z.abs (2 * ((k' + 1) * d - n)) = d) as H1 by lia.
    assert (Z.abs (2 * (k' * d - n)) = d) as H2 by lia.
    specialize (Htie H1). specialize (Htie' H2).
    rewrite Z.add_1_r, Z.even_succ, <- Z.negb_even in Htie.
    by rewrite Htie' in Htie.
  - assert (Z.abs (2 * ((k + 1) * d - n)) = d) as H1 by lia.
    assert (Z.abs (2 * (k * d - n)) = d) as H2 by lia.
    specialize (Htie H2). specialize (Htie' H1).
    rewrite Z.add_1_r, Z.even_succ, <- Z.negb_even in Htie'.
    by rewrite Htie in Htie'.
Qed.

(** [py_round] gives the float nearest to the nearest decimal. *)
Lemma py_round_decimal_rounding x ndigits :
  decimal_rounding ndigits x (py_round x ndigits).
Proof.
  destruct x as [s|s| |s m e]; try done.
  unfold decimal_rounding, py_round. cbv zeta.
  destruct (0 <=? e) eqn:He.
  - apply Z.leb_le in He.
    exists (Zpos m * 2 ^ e * 10 ^ ndigits). split; [|done].
    rewrite (Z.max_l e 0), (Z.max_r (- e) 0) by lia.
    unfold nearest_integer_ties_even.
    replace (2 * (Z.pos m * 2 ^ e * 10 ^ ndigits * 2 ^ 0
                  - Z.pos m * 10 ^ ndigits * 2 ^ e)) with 0
      by (rewrite Z.pow_0_r; ring).
    rewrite Z.pow_0_r. cbn [Z.abs]. split; [lia|]. intros [=].
  - apply Z.leb_gt in He.
    exists (round_half_even (Zpos m * 10 ^ ndigits) (2 ^ (- e))).
    split; [|done].
    rewrite (Z.max_r e 0), (Z.max_l (- e) 0) by lia.
    rewrite Z.pow_0_r, Z.mul_1_r.
    apply round_half_even_nearest. apply Z.pow_pos_nonneg; lia.
Qed.

(** ** The claims about the derived values *)

(** C7: the hopper fill percentage is the direct percentage when the
    snapshot has one; otherwise, when the remaining and the total
    feeder time are present and the total is above zero, it is
    [remaining / total * 100] rounded to one decimal, that is the
    float nearest to the decimal with one digit after the point that
    is nearest to that product (ties to the even digit); otherwise it
    is [None].  With no direct percentage, 600 of 1200 gives 50.0, 1
    of 3 gives 33.3, 1 of 16 (6.25) gives 6.2, and a total of 0 gives
    [None]. *)
Theorem hopper_level_percent_spec (snapshot : LucjanData) :
  (∀ p, hopper_percent_raw snapshot = Some p →
        hopper_level_percent snapshot = Some p) ∧
  (∀ remaining total,
     hopper_percent_raw snapshot = None →
     feeder_time_remaining_s snapshot = Some remaining →
     feeder_time_total_s snapshot = Some total →
     flt (flit 0) total = true →
     hopper_level_percent snapshot
     = Some (py_round (fmul (fdiv remaining total) (flit 100)) 1)) ∧
  (hopper_percent_raw snapshot = None →
   feeder_time_remaining_s snapshot = None
   ∨ feeder_time_total_s snapshot = None
   ∨ (∃ total, feeder_time_total_s snapshot = Some total
               ∧ flt (flit 0) total = false) →
   hopper_level_percent snapshot = None) ∧
  (hopper_percent_raw snapshot = None →
   feeder_time_remaining_s snapshot = Some (flit 600) →
   feeder_time_total_s snapshot = Some (flit 1200) →
   hopper_level_percent snapshot = Some (flit 50)) ∧
  (hopper_percent_raw snapshot = None →
   feeder_time_total_s snapshot = Some (flit 0) →
   hopper_level_percent snapshot = None) ∧
  (∀ remaining total,
     hopper_percent_raw snapshot = None →
     feeder_time_remaining_s snapshot = Some remaining →
     feeder_time_total_s snapshot = Some total →
     flt (flit 0) total = true →
     ∃ r, hopper_level_percent snapshot = Some r ∧
          decimal_rounding 1 (fmul (fdiv remaining total) (flit 100)) r) ∧
  (hopper_percent_raw snapshot = None →
   feeder_time_remaining_s snapshot = Some (flit 1) →
   feeder_time_total_s snapshot = Some (flit 3) →
   hopper_level_percent snapshot = Some (fdiv (flit 333) (flit 10))) ∧
  (hopper_percent_raw snapshot = None →
   feeder_time_remaining_s snapshot = Some (flit 1) →
   feeder_time_total_s snapshot = Some (flit 16) →
   hopper_level_percent snapshot = Some (fdiv (flit 62) (flit 10))).
Proof.
  unfold hopper_level_percent.
  split; [|split; [|split; [|split; [|split; [|split; [|split]]]]]].
  - by intros p ->.
  - by intros remaining total -> -> -> ->.
  - intros -> [->| [->| (total & -> & ->)]]; [done| |].
    + by destruct (feeder_time_remaining_s snapshot).
    + by destruct (feeder_time_remaining_s snapshot).
  - intros -> -> ->. vm_compute. reflexivity.
  - intros -> ->. by destruct (feeder_time_remaining_s snapshot).
  - intros remaining total -> -> -> ->. eexists. split; [done|].
    apply py_round_decimal_rounding.
  - intros -> -> ->. vm_compute. reflexivity.
  - intros -> -> ->. vm_compute. reflexivity.
Qed.

(** C8: the fuel consumption in kg is
    [runtime / 60 * rate / 1000] rounded to two decimals, that is the
    float nearest to the decimal with two digits after the point that
    is nearest to that value (ties to the even digit), when the feeder
    runtime and the rate are present and the rate is above zero, and
    [None] otherwise.  A runtime of 120 at 300 gives 0.6, a runtime of
    100 at 260 (0.4333...) gives 0.43, a runtime of 60 at 125 (0.125)
    gives 0.12, and a rate of 0 gives [None]. *)
Theorem fuel_consumption_kg_spec (snapshot : LucjanData) :
  (∀ runtime rate,
     feeder_time_s snapshot = Some runtime →
     feeder_g_per_min snapshot = Some rate →
     flt (flit 0) rate = true →
     fuel_consumption_kg snapshot
     = Some (py_round
               (fdiv (fmul (fdiv runtime (flit 60)) rate) (flit 1000)) 2)) ∧
  (feeder_time_s snapshot = None
   ∨ feeder_g_per_min snapshot = None
   ∨ (∃ rate, feeder_g_per_min snapshot = Some rate
              ∧ flt (flit 0) rate = false) →
   fuel_consumption_kg snapshot = None) ∧
  (feeder_time_s snapshot = Some (flit 120) →
   feeder_g_per_min snapshot = Some (flit 300) →
   fuel_consumption_kg snapshot = Some (fdiv (flit 6) (flit 10))) ∧
  (feeder_g_per_min snapshot = Some (flit 0) →
   fuel_consumption_kg snapshot = None) ∧
  (∀ runtime rate,
     feeder_time_s snapshot = Some runtime →
     feeder_g_per_min snapshot = Some rate →
     flt (flit 0) rate = true →
     ∃ r, fuel_consumption_kg snapshot = Some r ∧
          decimal_rounding 2
            (fdiv (fmul (fdiv runtime (flit 60)) rate) (flit 1000)) r) ∧
  (feeder_time_s snapshot = Some (flit 100) →
   feeder_g_per_min snapshot = Some (flit 260) →
   fuel_consumption_kg snapshot = Some (fdiv (flit 43) (flit 100))) ∧
  (feeder_time_s snapshot = Some (flit 60) →
   feeder_g_per_min snapshot = Some (flit 125) →
   fuel_consumption_kg snapshot = Some (fdiv (flit 12) (flit 100))).
Proof.
  unfold fuel_consumption_kg.
  split; [|split; [|split; [|split; [|split; [|split]]]]].
  - by intros runtime rate -> -> ->.
  - intros [->| [->| (rate & -> & ->)]]; [done| |].
    + by destruct (feeder_time_s snapshot).
    + by destruct (feeder_time_s snapshot).
  - intros -> ->. vm_compute. reflexivity.
  - intros ->. by destruct (feeder_time_s snapshot).
  - intros runtime rate -> -> ->. eexists. split; [done|].
    apply py_round_decimal_rounding.
  - intros -> ->. vm_compute. reflexivity.
  - intros -> ->. vm_compute. reflexivity.
Qed.

(** ** The claims on the device stub *)

Section OnTheStub.
Import FakeDevice Examples.

(** C1, as stated, fails on the code: [async_set_co_circuit] returns
    [True] although its steps fail.  When the device answers
    [/config.txt] with HTTP 500, each of the three steps returns
    [False], nothing is uploaded, no recovery is attempted, and the
    sequence returns [True]; when the config file has no [CO_TRYB]
    line, the second step returns [False] and the sequence returns
    [True] all the same. *)
Theorem set_co_circuit_returns_True_on_failure :
  (@async_set_config_param http client (py "PIEC_TRYB") (py "RECZNY")
     (start failing_config)
   = (Return false, after failing_config [EvGet config_url]) ∧
   @async_set_co_circuit http client true (start failing_config)
   = (Return true,
      after failing_config
        [EvGet config_url; EvSleep 1000; EvGet config_url; EvSleep 1000;
         EvGet config_url])) ∧
  (@async_set_config_param http client (py "CO_TRYB") (py "ZIMA")
     (start no_co_tryb)
   = (Return false, after no_co_tryb [EvGet config_url]) ∧
   @async_set_co_circuit http client true (start no_co_tryb)
   = (Return true,
      after no_co_tryb
        [EvGet config_url;
         EvPut upload_url (py "PIEC_TRYB = RECZNY" ++ LF);
         EvSleep 500; EvGet reload_url; EvSleep 1000;
         EvGet config_url; EvSleep 1000;
         EvGet config_url;
         EvPut upload_url (py "PIEC_TRYB = AUTO" ++ LF);
         EvSleep 500; EvGet reload_url])).
Proof.
  split; split; vm_compute; reflexivity.
Qed.

Lemma set_config_param_absent_no_upload_witness :
  @async_set_config_param http client (py "NOPE") (py "60") (start device)
  = (Return false,
     after device
       (trace (start device)
        ++ [EvGet (_base_url client ++ ENDPOINT_CONFIG)])).
Proof.
  refine (@set_config_param_absent_no_upload http client (py "NOPE")
            (py "60") (start device) tt
            {| status := 200; text := Return config_example;
               json_body := Raise ValueError |}
            config_example device _ _ _ _ _).
  - vm_compute. reflexivity.
  - vm_compute. reflexivity.
  - reflexivity.
  - reflexivity.
  - compute_done.
Defined.

Lemma write_commands_report_boolean_witness :
  @async_alarm_reset http client (start device)
  = (Return true, after device [EvGet (py "http://boiler/alarmreset")]) ∧
  @async_set_variable http builtins client (py "OUT_POMPACO") (JInt 1)
    (start offline)
  = (Return false,
     after offline [EvGet (py "http://boiler/setOUT_POMPACO=1")]).
Proof.
  pose proof (@write_commands_report_boolean http builtins client
                (py "OUT_POMPACO") (JInt 1)) as [[Hset _] [[Halarm _] _]].
  split.
  - exact (Halarm (start device)).
  - exact (Hset (start offline)).
Defined.



(** The poll of the device without [/config.txt] returns a snapshot,
    whose config-derived fields are unknown. *)
Example update_without_config :
  ∃ snapshot st,
    @_async_update_data http builtins client (start no_config)
    = (Return snapshot, st) ∧
    boiler_mode snapshot = py "unknown" ∧
    target_temp_co snapshot = None ∧
    hopper_percent_raw snapshot = None ∧
    feeder_time_remaining_s snapshot = Some (flit 0).
Proof.
  eexists. eexists. split; [vm_compute; reflexivity|].
  repeat split; reflexivity.
Qed.


Lemma hopper_level_percent_spec_witness :
  hopper_level_percent
    (snapshot None (Some (flit 1)) (Some (flit 3)) None None)
  = Some (fdiv (flit 333) (flit 10)).
Proof.
  destruct (hopper_level_percent_spec
              (snapshot None (Some (flit 1)) (Some (flit 3)) None None))
    as (_ & _ & _ & _ & _ & _ & Hthird & _).
  apply Hthird; reflexivity.
Defined.

Lemma fuel_consumption_kg_spec_witness :
  fuel_consumption_kg
    (snapshot None None None (Some (flit 100)) (Some (flit 260)))
  = Some (fdiv (flit 43) (flit 100)).
Proof.
  destruct (fuel_consumption_kg_spec
              (snapshot None None None (Some (flit 100)) (Some (flit 260))))
    as (_ & _ & _ & _ & _ & Hexample & _).
  apply Hexample; reflexivity.
Defined.

Lemma parse_config_spec_witness :
  _parse_config_line (py "CO_TRYB=ZIMA # note")
  = Some (strip (py "CO_TRYB"), strip (py "ZIMA ")).
Proof.
  destruct parse_config_spec as (_ & _ & _ & Hline & _).
  apply (proj2 (Hline (py "CO_TRYB=ZIMA # note") (py "CO_TRYB")
                  (py "ZIMA # note") eq_refl eq_refl
                  ltac:(compute_done)
                  ltac:(discriminate))
           (py "ZIMA ") (py " note") eq_refl
           ltac:(compute_done)).
Defined.
End OnTheStub.

(** ** More facts about [strip] *)

Lemma lstrip_spaces sp s :
  Forall (λ c, isspace c = true) sp → lstrip (sp ++ s) = lstrip s.
Proof. induction 1 as [|c sp Hc _ IH]; [done|]. simpl. by rewrite Hc. Qed.

Lemma lstrip_decompose s :
  ∃ sp, s = sp ++ lstrip s ∧ Forall (λ c, isspace c = true) sp.
Proof.
  induction s as [|c s (sp & Hs & Hsp)]; [by exists []|].
  simpl. destruct (isspace c) eqn:Hc.
  - exists (c :: sp). split; [simpl; by f_equal | by constructor].
  - by exists [].
Qed.

Lemma lstrip_idem s : lstrip (lstrip s) = lstrip s.
Proof.
  destruct (lstrip s) as [|c t] eqn:Hl; [done|].
  simpl. by rewrite (lstrip_head _ _ _ Hl).
Qed.

Lemma rstrip_idem s : rstrip (rstrip s) = rstrip s.
Proof. unfold rstrip. by rewrite reverse_involutive, lstrip_idem. Qed.

Lemma rstrip_app_nonspace a x b :
  isspace x = false → rstrip (a ++ x :: b) = a ++ x :: rstrip b.
Proof.
  intros Hx. unfold rstrip. rewrite reverse_app, reverse_cons.
  rewrite <- app_assoc. cbn [app].
  rewrite lstrip_app_nonspace by done.
  by rewrite reverse_app, reverse_cons, reverse_involutive, <- app_assoc.
Qed.

Lemma rstrip_spaces sp : Forall (λ c, isspace c = true) sp → rstrip sp = [].
Proof.
  intros Hsp. unfold rstrip.
  rewrite <- (app_nil_r (reverse sp)), lstrip_spaces; [done|].
  by apply Forall_reverse.
Qed.

Lemma rstrip_app_spaces s sp :
  Forall (λ c, isspace c = true) sp → rstrip (s ++ sp) = rstrip s.
Proof.
  intros Hsp. unfold rstrip. rewrite reverse_app, lstrip_spaces; [done|].
  by apply Forall_reverse.
Qed.

Lemma lstrip_rstrip s : lstrip (rstrip s) = rstrip (lstrip s).
Proof.
  destruct (lstrip_decompose s) as (sp & Hs & Hsp).
  destruct (lstrip s) as [|c t] eqn:Hl.
  - rewrite app_nil_r in Hs. subst s. by rewrite rstrip_spaces.
  - pose proof (lstrip_head _ _ _ Hl) as Hc. rewrite Hs.
    rewrite rstrip_app_nonspace, lstrip_spaces by done.
    rewrite rstrip_cons_nonspace by done. simpl. by rewrite Hc.
Qed.

Lemma strip_idem s : strip (strip s) = strip s.
Proof.
  unfold strip. by rewrite lstrip_rstrip, lstrip_idem, rstrip_idem.
Qed.

Lemma strip_rstrip s : strip (rstrip s) = strip s.
Proof. unfold strip. by rewrite lstrip_rstrip, rstrip_idem. Qed.

Lemma strip_lstrip s : strip (lstrip s) = strip s.
Proof. unfold strip. by rewrite lstrip_idem. Qed.

Lemma elem_of_lstrip (x : N) s : x ∈ lstrip s → x ∈ s.
Proof.
  induction s as [|c s IH]; simpl; [done|].
  destruct (isspace c); [|done]. intros ?. right. auto.
Qed.

Lemma elem_of_strip (x : N) s : x ∈ strip s → x ∈ s.
Proof.
  unfold strip, rstrip. rewrite elem_of_reverse. intros Hin.
  apply elem_of_lstrip in Hin. rewrite elem_of_reverse in Hin.
  by apply elem_of_lstrip.
Qed.

(** [find] stops at the first occurrence. *)
Lemma find_single_Some c s i :
  find [c] s = Some i → (c ∉ take i s) ∧ s !! i = Some c.
Proof.
  revert i. induction s as [|c' s IH]; intros i; simpl; [done|].
  rewrite andb_true_r. destruct (N.eqb_spec c c') as [->|Hne].
  - intros [= <-]. split; [apply not_elem_of_nil | done].
  - destruct (find [c] s) as [j|] eqn:Hf; [|done].
    intros [= <-]. destruct (IH j eq_refl) as [Hnot Hat].
    split; [|done]. simpl. apply not_elem_of_cons. done.
Qed.

(** A stripped, non-empty string starts and ends with a character that
    is not whitespace. *)
Lemma stripped_cons s :
  strip s = s → s ≠ [] → ∃ c t, s = c :: t ∧ isspace c = false.
Proof.
  intros Hs Hne. destruct s as [|c t]; [done|].
  exists c, t. split; [done|]. eapply strip_head. rewrite Hs. done.
Qed.

Lemma rstrip_stripped s : strip s = s → rstrip s = s.
Proof.
  intros Hs. rewrite <- Hs at 1. unfold strip. rewrite rstrip_idem.
  exact Hs.
Qed.

(** What a line parses to, in terms of its stripped text cut at the
    first ["="]. *)
Lemma _parse_config_line_Some line key value :
  _parse_config_line line = Some (key, value) →
  ∃ k v,
    strip line = k ++ 61%N :: v ∧ (61%N ∉ k) ∧ key = strip k ∧ key ≠ [] ∧
    startswith [35%N] (strip line) = false ∧
    startswith [35%N] key = false ∧
    value = (if contains [35%N] (strip v)
             then match find [35%N] (strip v) with
                  | Some i => strip (take i (strip v))
                  | None => strip v
                  end
             else strip v).
Proof.
  intros Hline.
  assert (61%N ∈ strip line) as Hin.
  { destruct (decide (61%N ∈ strip line)) as [|Hn]; [done|]. exfalso.
    unfold _parse_config_line in Hline.
    destruct (_ || _); [done|].
    rewrite py_equals in Hline.
    apply contains_single_false in Hn. by rewrite Hn in Hline. }
  destruct (elem_of_split_first _ _ Hin) as (k & v & Hs & Hk).
  exists k, v. rewrite (_parse_config_line_split _ _ _ Hs Hk) in Hline.
  destruct (startswith [35%N] (strip line)) eqn:Hc; [done|].
  cbn zeta in Hline.
  destruct (bool_decide (strip k = [])) eqn:Hempty; [done|].
  destruct (startswith [35%N] (strip k)) eqn:Hkc; [done|].
  cbn [negb andb] in Hline. injection Hline as <- <-.
  apply bool_decide_eq_false in Hempty. done.
Qed.


(** ** Writing a parameter and reading it back *)

Lemma _parse_config_line_value line key value :
  _parse_config_line line = Some (key, value) →
  ∃ k v, strip line = k ++ 61%N :: v ∧ (61%N ∉ k) ∧ key = strip k
         ∧ value = config_value v.
Proof.
  intros Hline.
  destruct (_parse_config_line_Some _ _ _ Hline)
    as (k & v & Hs & Hk & Hkey & _ & _ & _ & Hv).
  by exists k, v.
Qed.

(** The line [_replace_config_param] writes parses back to [param] and
    the value of [new_value], when [param] is a key that [_parse_config]
    can read. *)
Lemma _parse_config_line_rewritten param new_value line :
  strip param = param → param ≠ [] → 61%N ∉ param →
  startswith [35%N] param = false →
  _parse_config_line (rewritten_line param new_value line)
  = Some (param, config_value new_value).
Proof.
  intros Hstrip Hne Heq Hhash.
  destruct (stripped_cons _ Hstrip Hne) as (c & t & -> & Hc).
  assert (∀ sep rest K R,
            (c :: t) ++ sep ++ new_value = K ++ 61%N :: rest →
            61%N ∉ K → strip K = c :: t →
            strip ((c :: t) ++ sep ++ new_value) = K ++ 61%N :: R →
            strip R = strip new_value →
            _parse_config_line ((c :: t) ++ sep ++ new_value)
            = Some (c :: t, config_value new_value)) as Hgen.
  { intros sep rest K R _ HK HsK Hs HR.
    rewrite (_parse_config_line_split _ _ _ Hs HK).
    assert (startswith [35%N] (K ++ 61%N :: R) = false) as Hh.
    { rewrite <- Hs. rewrite (strip_cons _ c (t ++ sep ++ new_value)).
      - exact Hhash.
      - simpl. by rewrite Hc. }
    rewrite Hs, Hh, HsK, Hhash.
    cbn [negb andb bool_decide decide_rel]. rewrite bool_decide_eq_false_2
      by done. cbn [negb andb]. unfold config_value.
    rewrite py_hash, HR. done. }
  unfold rewritten_line. destruct (contains (py " = ") line).
  - change (py " = ") with ([32%N] ++ 61%N :: [32%N]).
    apply (Hgen _ ([32%N] ++ new_value) ((c :: t) ++ [32%N])
             (rstrip (32%N :: new_value))).
    + by rewrite <- !app_assoc.
    + rewrite elem_of_app. intros [?|Hin]; [done|].
      apply list_elem_of_singleton in Hin. done.
    + unfold strip. cbn [lstrip app]. rewrite Hc.
      change (c :: t ++ [32%N]) with ((c :: t) ++ [32%N]).
      rewrite rstrip_app_spaces by (by repeat constructor).
      by apply rstrip_stripped.
    + unfold strip at 1. cbn [lstrip app]. rewrite Hc.
      replace (c :: t ++ 32%N :: 61%N :: 32%N :: new_value)
        with (((c :: t) ++ [32%N]) ++ 61%N :: (32%N :: new_value))
        by (by rewrite <- app_assoc).
      by rewrite rstrip_app_nonspace.
    + rewrite strip_rstrip. unfold strip. done.
  - change (py "=") with [61%N].
    apply (Hgen _ new_value (c :: t) (rstrip new_value)).
    + done.
    + done.
    + done.
    + unfold strip at 1. cbn [lstrip app]. rewrite Hc.
      change (c :: t ++ 61%N :: new_value)
        with ((c :: t) ++ 61%N :: new_value).
      by rewrite rstrip_app_nonspace.
    + by rewrite strip_rstrip.
Qed.

Lemma _parse_config_step_agree m1 m2 line (key : str) :
  m1 !! key = m2 !! key →
  _parse_config_step m1 line !! key = _parse_config_step m2 line !! key.
Proof.
  intros Hagree. unfold _parse_config_step.
  destruct (_parse_config_line line) as [[k v]|]; [|done].
  destruct (decide (k = key)) as [->|Hne].
  - by rewrite !lookup_insert_eq.
  - by rewrite !lookup_insert_ne.
Qed.

Lemma foldl_parse_config_agree m1 m2 lines (key : str) :
  m1 !! key = m2 !! key →
  foldl _parse_config_step m1 lines !! key
  = foldl _parse_config_step m2 lines !! key.
Proof.
  revert m1 m2. induction lines as [|line lines IH]; intros m1 m2 Hagree;
    [done|].
  simpl. apply IH. by apply _parse_config_step_agree.
Qed.

(** Every entry of the parsed mapping was assigned by a line. *)
Lemma foldl_parse_config_origin lines (key value : str) :
  foldl _parse_config_step ∅ lines !! key = Some value →
  ∃ line, line ∈ lines ∧ _parse_config_line line = Some (key, value).
Proof.
  induction lines as [|line lines IH] using rev_ind; [done|].
  rewrite foldl_app. simpl. unfold _parse_config_step at 1.
  destruct (_parse_config_line line) as [[k v]|] eqn:Hline.
  - destruct (decide (k = key)) as [->|Hne].
    + rewrite lookup_insert_eq. intros [= <-].
      exists line. split; [|done]. apply elem_of_app. right. left.
    + rewrite lookup_insert_ne by done. intros Hl.
      destruct (IH Hl) as (l & Hin & Hl'). exists l. split; [|done].
      apply elem_of_app. by left.
  - intros Hl. destruct (IH Hl) as (l & Hin & Hl'). exists l.
    split; [|done]. apply elem_of_app. by left.
Qed.

Lemma nobreak_config_value v : nobreak v → nobreak (config_value v).
Proof.
  intros Hv. unfold config_value.
  destruct (contains _ _); [|by apply nobreak_strip].
  destruct (find _ _); [|by apply nobreak_strip].
  by apply nobreak_strip, nobreak_take, nobreak_strip.
Qed.

Lemma config_value_wellformed v :
  strip (config_value v) = config_value v ∧ (35%N ∉ config_value v).
Proof.
  unfold config_value. rewrite py_hash.
  destruct (contains [35%N] (strip v)) eqn:Hc.
  - destruct (find [35%N] (strip v)) as [i|] eqn:Hf.
    + split; [apply strip_idem|].
      destruct (find_single_Some _ _ _ Hf) as [Hnot _].
      intros Hin. by apply Hnot, elem_of_strip.
    + unfold contains in Hc. by rewrite Hf in Hc.
  - split; [apply strip_idem|]. by apply contains_single_false.
Qed.

(** A value without ["#"] and without surrounding whitespace is read
    back as it is. *)
Lemma config_value_plain v :
  strip v = v → 35%N ∉ v → config_value v = v.
Proof.
  intros Hs Hh. unfold config_value. rewrite py_hash, Hs.
  apply contains_single_false in Hh. by rewrite Hh.
Qed.

(** What a key of the parsed mapping looks like. *)
Lemma _parse_config_line_key line key value :
  _parse_config_line line = Some (key, value) →
  key ≠ [] ∧ strip key = key ∧ (61%N ∉ key) ∧
  startswith [35%N] key = false.
Proof.
  intros Hline.
  destruct (_parse_config_line_Some _ _ _ Hline)
    as (k & v & Hs & Hk & -> & Hne & _ & Hhash & _).
  repeat split; try done.
  - apply strip_idem.
  - intros Hin. by apply Hk, elem_of_strip.
Qed.

(** ** The extra properties of the config-file helpers *)

(** X1: after [_replace_config_param] has replaced the value of a
    parameter with a value that holds no line boundary,
    [_parse_config] reads every other key as before, and reads the
    parameter (when no later line assigns it) as the new value,
    stripped and cut at its first ["#"]: a plain value is read back as
    it is. *)
Theorem replace_then_parse (text param new_value : str)
    (before : list str) (first : str) (after : list str) (old : str) :
  splitlines text = before ++ first :: after →
  Forall (λ l, ∀ v, _parse_config_line l ≠ Some (param, v)) before →
  _parse_config_line first = Some (param, old) →
  nobreak new_value →
  ∃ out,
    _replace_config_param text param new_value = Some out ∧
    (∀ key, key ≠ param →
            _parse_config out !! key = _parse_config text !! key) ∧
    (Forall (λ l, ∀ v, _parse_config_line l ≠ Some (param, v)) after →
     _parse_config out !! param = Some (config_value new_value)) ∧
    (strip new_value = new_value → 35%N ∉ new_value →
     config_value new_value = new_value).
Proof.
  intros Hs Hbefore Hfirst Hv.
  destruct (_parse_config_line_is_param_line _ _ _ Hfirst) as [Hp Hne].
  destruct (_parse_config_line_key _ _ _ Hfirst) as (_ & Hstrip & Heq & Hhash).
  assert (Forall (λ l, is_param_line param l = false) before) as Hb.
  { eapply Forall_impl; [exact Hbefore|]. intros l Hl.
    destruct (is_param_line param l) eqn:Hpl; [|done].
    destruct (is_param_line_parse_config_line _ _ Hpl Hne) as [v' Hv'].
    by destruct (Hl v'). }
  pose proof (_parse_config_line_rewritten param new_value first
                Hstrip Hne Heq Hhash) as Hnew.
  pose proof (splitlines_nobreak text) as Hnb. rewrite Hs in Hnb.
  apply Forall_app in Hnb as [Hnb1 Hnb2].
  apply Forall_cons in Hnb2 as [Hnbf Hnb2].
  assert (splitlines (unlines (before ++ rewritten_line param new_value first
                                 :: after))
          = before ++ rewritten_line param new_value first :: after) as Hout.
  { rewrite <- (app_nil_r (unlines _)). rewrite splitlines_unlines.
    - by rewrite app_nil_r.
    - apply Forall_app. split; [done|]. constructor; [|done].
      apply rewritten_line_nobreak; [|done].
      by eapply is_param_line_nobreak. }
  eexists. split; [by eapply _replace_config_param_first|].
  unfold _parse_config. rewrite Hout, Hs. repeat split.
  - intros key Hkey. rewrite !foldl_app. simpl.
    apply foldl_parse_config_agree.
    rewrite !_parse_config_step_other; [done| |].
    + intros v'. rewrite Hfirst. congruence.
    + intros v'. rewrite Hnew. congruence.
  - intros Hafter. by apply foldl_parse_config_last.
  - apply config_value_plain.
Qed.

Lemma replace_then_parse_witness :
  ∃ out,
    _replace_config_param FakeDevice.config_example (py "PIEC_ZADANA")
      (py "60") = Some out ∧
    (∀ key, key ≠ py "PIEC_ZADANA" →
            _parse_config out !! key
            = _parse_config FakeDevice.config_example !! key) ∧
    (Forall (λ l, ∀ v, _parse_config_line l ≠ Some (py "PIEC_ZADANA", v))
       [py "CO_TRYB=ZIMA # note"] →
     _parse_config out !! py "PIEC_ZADANA" = Some (config_value (py "60"))) ∧
    (strip (py "60") = py "60" → 35%N ∉ py "60" →
     config_value (py "60") = py "60").
Proof.
  apply (replace_then_parse FakeDevice.config_example (py "PIEC_ZADANA")
           (py "60") [py "# comment"; py "PIEC_TRYB = AUTO"]
           (py "PIEC_ZADANA = 55") [py "CO_TRYB=ZIMA # note"] (py "55")).
  - vm_compute. reflexivity.
  - repeat constructor; intros v; vm_compute; discriminate.
  - vm_compute. reflexivity.
  - compute_done.
Defined.

(** X2: every entry of the mapping [_parse_config] returns was
    assigned by a line of the text; its key is not empty, has no
    surrounding whitespace, holds no ["="] and does not start with
    ["#"]; its value has no surrounding whitespace and holds no ["#"];
    neither holds a line boundary. *)
Theorem parse_config_entries (text key value : str) :
  _parse_config text !! key = Some value →
  (∃ line, line ∈ splitlines text
           ∧ _parse_config_line line = Some (key, value)) ∧
  key ≠ [] ∧ strip key = key ∧ (61%N ∉ key) ∧
  startswith (py "#") key = false ∧ nobreak key ∧
  strip value = value ∧ (35%N ∉ value) ∧ nobreak value.
Proof.
  intros Hlookup.
  destruct (foldl_parse_config_origin _ _ _ Hlookup) as (line & Hin & Hline).
  split; [by exists line|].
  destruct (_parse_config_line_key _ _ _ Hline) as (Hne & Hstrip & Heq & Hh).
  destruct (_parse_config_line_value _ _ _ Hline)
    as (k & v & Hs & _ & -> & ->).
  destruct (config_value_wellformed v) as [Hvs Hvh].
  assert (nobreak (k ++ 61%N :: v)) as Hnb.
  { rewrite <- Hs. apply nobreak_strip.
    pose proof (splitlines_nobreak text) as Hall.
    rewrite Forall_forall in Hall. by apply Hall. }
  apply Forall_app in Hnb as [Hnbk Hnbv].
  apply Forall_cons in Hnbv as [_ Hnbv].
  repeat split; try done.
  - by apply nobreak_strip.
  - by apply nobreak_config_value.
Qed.

Lemma parse_config_entries_witness :
  (∃ line, line ∈ splitlines parse_example
           ∧ _parse_config_line line = Some (py "CO_TRYB", py "ZIMA")) ∧
  py "CO_TRYB" ≠ [] ∧ strip (py "CO_TRYB") = py "CO_TRYB" ∧
  (61%N ∉ py "CO_TRYB") ∧
  startswith (py "#") (py "CO_TRYB") = false ∧ nobreak (py "CO_TRYB") ∧
  strip (py "ZIMA") = py "ZIMA" ∧ (35%N ∉ py "ZIMA") ∧ nobreak (py "ZIMA").
Proof.
  apply (parse_config_entries parse_example (py "CO_TRYB") (py "ZIMA")).
  vm_compute. reflexivity.
Defined.

(** X3: [_replace_config_param] returns [None] exactly when no line of
    the text is a non-comment [key=value] line for the parameter (so
    always on an empty text); when it returns a text and the new value
    holds no line boundary, that text has as many lines as the input
    and ends with ["\n"]. *)
Theorem replace_config_param_result (text param new_value : str) :
  (_replace_config_param text param new_value = None ↔
   Forall (λ l, is_param_line param l = false) (splitlines text)) ∧
  (∀ out,
     _replace_config_param text param new_value = Some out →
     nobreak new_value →
     length (splitlines out) = length (splitlines text) ∧
     ∃ body, out = body ++ LF).
Proof.
  split; [apply _replace_config_param_None|].
  intros out Hout Hv.
  destruct (decide (Exists (λ l, is_param_line param l = true)
                      (splitlines text))) as [Hex|Hnone].
  - apply first_match in Hex as (before & line & after & Hs & Hb & Hl).
    rewrite (_replace_config_param_first _ _ _ _ _ _ Hs Hb Hl) in Hout.
    injection Hout as <-. split.
    + rewrite <- (app_nil_r (unlines _)). rewrite splitlines_unlines.
      * rewrite app_nil_r, Hs, !length_app. done.
      * pose proof (splitlines_nobreak text) as Hnb. rewrite Hs in Hnb.
        apply Forall_app in Hnb as [Hnb1 Hnb2].
        apply Forall_cons in Hnb2 as [Hnbl Hnb2].
        apply Forall_app. split; [done|]. constructor; [|done].
        apply rewritten_line_nobreak; [|done].
        by eapply is_param_line_nobreak.
    + rewrite <- join_unlines by (by destruct before). eauto.
  - exfalso. rewrite _replace_config_param_absent in Hout; [done|].
    apply Forall_forall. intros l Hin.
    destruct (is_param_line param l) eqn:Hp; [|done].
    destruct Hnone. apply Exists_exists. eauto.
Qed.

Lemma replace_config_param_result_witness :
  length (splitlines (py "A=2" ++ LF ++ py "B=2" ++ LF))
  = length (splitlines crlf_config) ∧
  ∃ body, py "A=2" ++ LF ++ py "B=2" ++ LF = body ++ LF.
Proof.
  apply (proj2 (replace_config_param_result crlf_config (py "A") (py "2"))).
  - reflexivity.
  - compute_done.
Defined.

Section ApiExtras.
Context `{Http} `{PyBuiltins}.
Local Open Scope coro_scope.

Lemma _get_no_session self endpoint st :
  _session self = None →
  _get self endpoint st
  = (Raise (LucjanConnectionError (py "No HTTP session available")), st).
Proof. intros Hs. unfold _get. by rewrite Hs. Qed.

Lemma _put_no_session self endpoint body st :
  _session self = None →
  _put self endpoint body st
  = (Raise (LucjanConnectionError (py "No HTTP session available")), st).
Proof. intros Hs. unfold _put. by rewrite Hs. Qed.

Lemma try_check_status self url (r : result ClientResponse) st :
  try_except (let* response := lift r in check_status url response)
    (connection_errors self) st
  = (request_outcome self url r, st).
Proof.
  unfold try_except, bind, lift, check_status, request_outcome.
  destruct r as [response|err].
  - destruct (status response =? 401) eqn:H401; [done|].
    destruct (status response =? 200) eqn:H200; done.
  - destruct err; done.
Qed.

Lemma _get_session self endpoint st session r w :
  _session self = Some session →
  session_get session (_base_url self ++ endpoint) (_auth self) (world st)
  = (r, w) →
  _get self endpoint st
  = (request_outcome self (_base_url self ++ endpoint) r,
     {| world := w;
        trace := trace st ++ [EvGet (_base_url self ++ endpoint)] |}).
Proof.
  intros Hs Hget. unfold _get. rewrite Hs.
  pose proof (try_check_status self (_base_url self ++ endpoint) r
                {| world := w;
                   trace := trace st ++ [EvGet (_base_url self ++ endpoint)] |})
    as Htry.
  unfold try_except, bind, lift in Htry.
  unfold try_except, bind, await_get. rewrite Hget. exact Htry.
Qed.

Lemma _put_session self endpoint body st session r w :
  _session self = Some session →
  session_put session (_base_url self ++ endpoint) (_auth self) body
    (world st) = (r, w) →
  _put self endpoint body st
  = (request_outcome self (_base_url self ++ endpoint) r,
     {| world := w;
        trace := trace st ++ [EvPut (_base_url self ++ endpoint) body] |}).
Proof.
  intros Hs Hput. unfold _put. rewrite Hs.
  pose proof (try_check_status self (_base_url self ++ endpoint) r
                {| world := w;
                   trace := trace st
                            ++ [EvPut (_base_url self ++ endpoint) body] |})
    as Htry.
  unfold try_except, bind, lift in Htry.
  unfold try_except, bind, await_put. rewrite Hput. exact Htry.
Qed.

Lemma request_outcome_discipline self url r :
  (∀ response, request_outcome self url r = Return response →
               status response = 200) ∧
  request_outcome self url r ≠ Raise TimeoutError ∧
  (∀ msg, request_outcome self url r ≠ Raise (ClientError msg)).
Proof.
  unfold request_outcome. destruct r as [response|err].
  - destruct (status response =? 401) eqn:H401;
      [repeat split; intros; discriminate|].
    destruct (status response =? 200) eqn:H200;
      [|repeat split; intros; discriminate].
    repeat split; try (intros; discriminate).
    intros ? [= <-]. lia.
  - destruct err; repeat split; intros; discriminate.
Qed.

(** X4: a response that [_get] or [_put] returns has status 200; no
    [TimeoutError] and no [ClientError] leaves them; without a session
    they raise [LucjanConnectionError] and send nothing, with one they
    send exactly the one request. *)
Theorem get_put_discipline (self : LucjanApi) (endpoint data : str) :
  request_discipline self (_get self endpoint)
    (EvGet (_base_url self ++ endpoint)) ∧
  request_discipline self (_put self endpoint data)
    (EvPut (_base_url self ++ endpoint) data).
Proof.
  split; intros st r st' Hrun.
  - destruct (_session self) as [session|] eqn:Hs.
    + destruct (session_get session (_base_url self ++ endpoint) (_auth self)
                  (world st)) as [r0 w] eqn:Hget.
      rewrite (_get_session _ _ _ _ _ _ Hs Hget) in Hrun.
      injection Hrun as <- <-.
      destruct (request_outcome_discipline self (_base_url self ++ endpoint)
                  r0) as (H200 & Htimeout & Hclient).
      done.
    + rewrite (_get_no_session _ _ _ Hs) in Hrun. injection Hrun as <- <-.
      repeat split; intros; discriminate.
  - destruct (_session self) as [session|] eqn:Hs.
    + destruct (session_put session (_base_url self ++ endpoint) (_auth self)
                  data (world st)) as [r0 w] eqn:Hput.
      rewrite (_put_session _ _ _ _ _ _ _ Hs Hput) in Hrun.
      injection Hrun as <- <-.
      destruct (request_outcome_discipline self (_base_url self ++ endpoint)
                  r0) as (H200 & Htimeout & Hclient).
      done.
    + rewrite (_put_no_session _ _ _ _ Hs) in Hrun. injection Hrun as <- <-.
      repeat split; intros; discriminate.
Qed.

(** X5: with a session, [_get] and [_put] send their request and turn
    its outcome into their own: status 401 raises [LucjanAuthError],
    any other status than 200 raises [LucjanApiError] with the status
    and the URL in its message, a timeout or a client error of the
    HTTP library raises [LucjanConnectionError], any other exception
    passes through, and a response with status 200 is returned. *)
Theorem get_put_outcome (self : LucjanApi) (endpoint data : str)
    (st : State) (session : ClientSession) :
  _session self = Some session →
  let url := _base_url self ++ endpoint in
  (∀ r w,
     session_get session url (_auth self) (world st) = (r, w) →
     _get self endpoint st
     = (request_outcome self url r,
        {| world := w; trace := trace st ++ [EvGet url] |})) ∧
  (∀ r w,
     session_put session url (_auth self) data (world st) = (r, w) →
     _put self endpoint data st
     = (request_outcome self url r,
        {| world := w; trace := trace st ++ [EvPut url data] |})).
Proof.
  intros Hs url. split; intros r w Hreq.
  - exact (_get_session _ _ _ _ _ _ Hs Hreq).
  - exact (_put_session _ _ _ _ _ _ _ Hs Hreq).
Qed.

(** X6: a client without a session sends nothing: the three reads
    raise [LucjanConnectionError], the setters and the system commands
    return [False], the poll raises [UpdateFailed] with the connection
    prefix, all in the state they started from; [async_set_co_circuit]
    sleeps twice and returns [True]. *)
Theorem no_session_no_request (self : LucjanApi) (st : State)
    (name param value : str) (v : json) (enabled : bool) :
  _session self = None →
  let err := LucjanConnectionError (py "No HTTP session available") in
  async_get_thermos self st = (Raise err, st) ∧
  async_get_config self st = (Raise err, st) ∧
  async_get_config_raw self st = (Raise err, st) ∧
  async_set_variable self name v st = (Return false, st) ∧
  async_set_config_param self param value st = (Return false, st) ∧
  async_alarm_reset self st = (Return false, st) ∧
  async_config_reload self st = (Return false, st) ∧
  async_hopper_full self st = (Return false, st) ∧
  async_reset_controller self st = (Return false, st) ∧
  _async_update_data self st
  = (Raise (UpdateFailed (py "Connection error: ") err), st) ∧
  async_set_co_circuit self enabled st
  = (Return true,
     {| world := world st;
        trace := (trace st ++ [EvSleep 1000]) ++ [EvSleep 1000] |}).
Proof.
  intros Hs err.
  assert (∀ st0, async_get_config_raw self st0 = (Raise err, st0)) as Hraw.
  { intros st0. unfold async_get_config_raw, bind.
    by rewrite _get_no_session. }
  assert (∀ p v0 st0, async_set_config_param self p v0 st0
                      = (Return false, st0)) as Hset.
  { intros p v0 st0. unfold async_set_config_param, try_except, bind at 1.
    by rewrite Hraw. }
  assert (async_get_thermos self st = (Raise err, st)) as Hthermos.
  { unfold async_get_thermos, bind at 1. by rewrite _get_no_session. }
  repeat split; try done.
  - unfold async_get_config, bind at 1. by rewrite _get_no_session.
  - unfold async_set_variable. rewrite try_return_False.
    by rewrite _get_no_session.
  - unfold async_alarm_reset. rewrite try_return_False.
    by rewrite _get_no_session.
  - unfold async_config_reload. rewrite try_return_False.
    by rewrite _get_no_session.
  - unfold async_hopper_full. rewrite try_return_False.
    by rewrite _get_no_session.
  - unfold async_reset_controller. rewrite try_return_False.
    by rewrite _get_no_session.
  - unfold _async_update_data, try_except, bind at 1. by rewrite Hthermos.
  - unfold async_set_co_circuit, try_except, bind.
    rewrite Hset. unfold sleep at 1. cbn beta iota.
    rewrite Hset. unfold sleep at 1. cbn beta iota.
    by rewrite Hset.
Qed.
End ApiExtras.

Section ConfigWriteExtras.
Context `{Http} `{PyBuiltins}.
Local Open Scope coro_scope.

Lemma request_outcome_200 self url response :
  status response = 200 →
  request_outcome self url (Return response) = Return response.
Proof. intros Hs. unfold request_outcome. by rewrite Hs. Qed.

Lemma _get_trace_session self endpoint st r st' session :
  _session self = Some session →
  _get self endpoint st = (r, st') →
  trace st' = trace st ++ [EvGet (_base_url self ++ endpoint)].
Proof.
  intros Hs Hrun.
  destruct (session_get session (_base_url self ++ endpoint) (_auth self)
              (world st)) as [r0 w] eqn:Hget.
  rewrite (_get_session _ _ _ _ _ _ Hs Hget) in Hrun.
  by injection Hrun as <- <-.
Qed.

Lemma _put_trace_session self endpoint body st r st' session :
  _session self = Some session →
  _put self endpoint body st = (r, st') →
  trace st' = trace st ++ [EvPut (_base_url self ++ endpoint) body].
Proof.
  intros Hs Hrun.
  destruct (session_put session (_base_url self ++ endpoint) (_auth self)
              body (world st)) as [r0 w] eqn:Hput.
  rewrite (_put_session _ _ _ _ _ _ _ Hs Hput) in Hrun.
  by injection Hrun as <- <-.
Qed.

(** A handler that returns [False] or lets the exception pass never
    makes the result [True]. *)
Lemma except_return_False_not_True err st (r : result bool) st' :
  match except_LucjanApiError_return_False err with
  | Some h => h st
  | None => (Raise err, st)
  end = (r, st') →
  r ≠ Return true ∧ st' = st.
Proof.
  unfold except_LucjanApiError_return_False, ret.
  destruct (is_LucjanApiError err); intros [= <- <-]; done.
Qed.

Lemma encode_utf8_Raise text :
  Exists (λ c, is_surrogate c = true) text →
  encode_utf8 text = Raise UnicodeEncodeError.
Proof.
  intros Hex. unfold encode_utf8.
  assert (existsb is_surrogate text = true) as ->; [|done].
  induction Hex as [c text Hc|c text Hex IH]; cbn [existsb].
  - by rewrite Hc.
  - rewrite IH. by destruct (is_surrogate c).
Qed.

Lemma encode_utf8_Return text :
  Forall (λ c, is_surrogate c = false) text →
  encode_utf8 text = Return text.
Proof.
  intros Hall. unfold encode_utf8.
  assert (existsb is_surrogate text = false) as ->; [|done].
  induction Hall as [|c text Hc Hall IH]; cbn [existsb]; [done|].
  by rewrite Hc, IH.
Qed.

(** What [encode_utf8] gives is the text itself. *)
Lemma encode_utf8_inv text data :
  encode_utf8 text = Return data → data = text.
Proof.
  unfold encode_utf8. destruct (existsb is_surrogate text); [done|].
  by intros [= <-].
Qed.

Lemma encode_utf8_error text err :
  encode_utf8 text = Raise err → err = UnicodeEncodeError.
Proof.
  unfold encode_utf8. destruct (existsb is_surrogate text); [|done].
  by intros [= <-].
Qed.

(** X7: when the device serves the config file and the file has a
    line for the parameter, [async_set_config_param] encodes the
    rewritten text before it uploads it.  When that text holds a
    surrogate code point, the method raises [UnicodeEncodeError] after
    the GET of [/config.txt] alone: nothing is uploaded.  Otherwise,
    when the upload and the reload are answered with status 200, it
    returns [True] after exactly four steps: the GET of [/config.txt],
    the PUT of the rewritten text to [/upload/config.txt], a sleep of
    half a second and the GET of [/configreload]. *)
Theorem set_config_param_success (self : LucjanApi) (param value : str)
    (st : State) (session : ClientSession)
    (fetched : ClientResponse) (raw new_config : str) (w1 : World) :
  _session self = Some session →
  session_get session (_base_url self ++ ENDPOINT_CONFIG) (_auth self)
    (world st) = (Return fetched, w1) →
  status fetched = 200 →
  text fetched = Return raw →
  _replace_config_param raw param value = Some new_config →
  (Exists (λ c, is_surrogate c = true) new_config →
   async_set_config_param self param value st
   = (Raise UnicodeEncodeError,
      {| world := w1;
         trace := trace st ++ [EvGet (_base_url self ++ ENDPOINT_CONFIG)] |})) ∧
  (∀ (uploaded reloaded : ClientResponse) (w2 w3 : World),
     Forall (λ c, is_surrogate c = false) new_config →
     session_put session (_base_url self ++ py "/upload/config.txt")
       (_auth self) new_config w1 = (Return uploaded, w2) →
     status uploaded = 200 →
     session_get session (_base_url self ++ py "/configreload") (_auth self)
       w2 = (Return reloaded, w3) →
     status reloaded = 200 →
     async_set_config_param self param value st
     = (Return true,
        {| world := w3;
           trace := trace st
                    ++ [EvGet (_base_url self ++ ENDPOINT_CONFIG);
                        EvPut (_base_url self ++ py "/upload/config.txt")
                          new_config;
                        EvSleep 500;
                        EvGet (_base_url self ++ py "/configreload")] |})).
Proof.
  intros Hs Hget Hst1 Htext Hnew. split.
  - intros Hsurrogate.
    unfold async_set_config_param, try_except, bind at 1.
    unfold async_get_config_raw, bind at 1.
    rewrite (_get_session _ _ _ _ _ _ Hs Hget), request_outcome_200 by done.
    unfold lift. rewrite Htext, Hnew. unfold bind at 1.
    by rewrite (encode_utf8_Raise _ Hsurrogate).
  - intros uploaded reloaded w2 w3 Hplain Hput Hst2 Hreload Hst3.
    unfold async_set_config_param, try_except, bind at 1.
    unfold async_get_config_raw, bind at 1.
    rewrite (_get_session _ _ _ _ _ _ Hs Hget), request_outcome_200 by done.
    unfold lift. rewrite Htext, Hnew. unfold bind at 1.
    rewrite (encode_utf8_Return _ Hplain). unfold bind at 1.
    rewrite (_put_session self _ _ {| world := w1; trace := _ |} _ _ _ Hs
               Hput), request_outcome_200 by done.
    unfold bind at 1, sleep. cbn [world trace]. unfold bind.
    rewrite (_get_session self _ {| world := w2; trace := _ |} _ _ _ Hs
               Hreload), request_outcome_200 by done.
    cbn [world trace]. unfold ret. do 2 f_equal.
    by rewrite <- !app_assoc.
Qed.

(** X8: whatever the device does, [async_set_config_param] sends its
    requests in one order: nothing, or the GET of [/config.txt], then
    the PUT of the text [_replace_config_param] made from the fetched
    file, then a sleep of half a second and the GET of
    [/configreload]; it returns [True] only after all four, uploads
    nothing it did not derive from the fetched file, and never reloads
    without an upload. *)
Theorem set_config_param_events (self : LucjanApi) (param value : str)
    (st : State) (r : result bool) (st' : State) :
  async_set_config_param self param value st = (r, st') →
  let fetch := EvGet (_base_url self ++ ENDPOINT_CONFIG) in
  let upload := EvPut (_base_url self ++ py "/upload/config.txt") in
  let reload := EvGet (_base_url self ++ py "/configreload") in
  (r ≠ Return true ∧
   (trace st' = trace st ∨ trace st' = trace st ++ [fetch])) ∨
  ∃ raw st1 new_config,
    async_get_config_raw self st = (Return raw, st1) ∧
    _replace_config_param raw param value = Some new_config ∧
    ((r ≠ Return true ∧ trace st' = trace st ++ [fetch; upload new_config]) ∨
     trace st' = trace st ++ [fetch; upload new_config; EvSleep 500; reload]).
Proof.
  intros Hrun fetch upload reload.
  destruct (_session self) as [session|] eqn:Hs.
  2:{ left. unfold async_set_config_param, try_except, bind at 1 in Hrun.
      unfold async_get_config_raw, bind in Hrun.
      rewrite (_get_no_session _ _ _ Hs) in Hrun.
      apply except_return_False_not_True in Hrun as [Hr ->].
      split; [done|by left]. }
  unfold async_set_config_param, try_except, bind at 1 in Hrun.
  destruct (async_get_config_raw self st) as [[raw|err] st1] eqn:Hraw.
  - assert (trace st1 = trace st ++ [fetch]) as Ht1.
    { unfold async_get_config_raw, bind in Hraw.
      destruct (_get self ENDPOINT_CONFIG st) as [[resp|e] s] eqn:Hget;
        [|done].
      unfold lift in Hraw. injection Hraw as _ <-.
      exact (_get_trace_session _ _ _ _ _ _ Hs Hget). }
    destruct (_replace_config_param raw param value) as [new_config|] eqn:Hnew.
    + unfold bind at 1, lift in Hrun.
      destruct (encode_utf8 new_config) as [data|err] eqn:Hencode.
      2:{ left. apply except_return_False_not_True in Hrun as [Hr ->].
          split; [done|]. by right. }
      apply encode_utf8_inv in Hencode as ->.
      right. exists raw, st1, new_config. split; [done|]. split; [done|].
      unfold bind at 1 in Hrun.
      destruct (_put self (py "/upload/config.txt") new_config st1)
        as [[resp|err] st2] eqn:Hput.
      * assert (trace st2 = trace st ++ [fetch; upload new_config]) as Ht2.
        { rewrite (_put_trace_session _ _ _ _ _ _ _ Hs Hput), Ht1.
          by rewrite <- app_assoc. }
        unfold bind at 1, sleep in Hrun. unfold bind at 1 in Hrun.
        match type of Hrun with context [_get ?s ?e ?x] =>
          destruct (_get s e x) as [[resp3|err3] st3] eqn:Hreload end.
        -- right. unfold ret in Hrun. injection Hrun as _ <-.
           rewrite (_get_trace_session _ _ _ _ _ _ Hs Hreload).
           cbn [trace]. rewrite Ht2. by rewrite <- !app_assoc.
        -- apply except_return_False_not_True in Hrun as [Hr ->].
           right. rewrite (_get_trace_session _ _ _ _ _ _ Hs Hreload).
           cbn [trace]. rewrite Ht2. by rewrite <- !app_assoc.
      * apply except_return_False_not_True in Hrun as [Hr ->].
        left. split; [done|].
        rewrite (_put_trace_session _ _ _ _ _ _ _ Hs Hput), Ht1.
        by rewrite <- app_assoc.
    + left. unfold ret in Hrun. injection Hrun as <- <-.
      split; [done|]. by right.
  - left. apply except_return_False_not_True in Hrun as [Hr ->].
    split; [done|]. right.
    unfold async_get_config_raw, bind in Hraw.
    destruct (_get self ENDPOINT_CONFIG st) as [[resp|e] s] eqn:Hget.
    + unfold lift in Hraw. injection Hraw as _ <-.
      exact (_get_trace_session _ _ _ _ _ _ Hs Hget).
    + injection Hraw as _ <-.
      exact (_get_trace_session _ _ _ _ _ _ Hs Hget).
Qed.
End ConfigWriteExtras.

Section SequenceExtras.
Context `{Http} `{PyBuiltins}.
Local Open Scope coro_scope.

Lemma never_raises_bind {A B} (m : Coro A) (k : A → Coro B) :
  never_raises_LucjanApiError m →
  (∀ a, never_raises_LucjanApiError (k a)) →
  never_raises_LucjanApiError (let* a := m in k a).
Proof.
  intros Hm Hk st err st'. unfold bind.
  destruct (m st) as [[a|e] s] eqn:Hrun.
  - apply Hk.
  - intros [= <- <-]. by eapply Hm.
Qed.

Lemma never_raises_sleep ms : never_raises_LucjanApiError (sleep ms).
Proof. by intros st err st'. Qed.

Lemma never_raises_ret {A} (a : A) : never_raises_LucjanApiError (ret a).
Proof. by intros st err st'. Qed.

(** An [except LucjanApiError] clause around a body that raises no
    such error is never entered. *)
Lemma try_except_unreachable {A} (body : Coro A)
    (handler : exn → option (Coro A)) st :
  never_raises_LucjanApiError body →
  (∀ err, is_LucjanApiError err = false → handler err = None) →
  try_except body handler st = body st.
Proof.
  intros Hbody Hhandler. unfold try_except.
  destruct (body st) as [[a|err] st'] eqn:Hrun; [done|].
  by rewrite (Hhandler err (Hbody _ _ _ Hrun)).
Qed.

(** X9: the [except LucjanApiError] clause of [async_set_co_circuit],
    with its attempt to restore the AUTO mode, is never entered: the
    method does what its three steps and two sleeps do, whatever the
    steps return, and so returns [True] or raises an exception that is
    no [LucjanApiError]. *)
Theorem set_co_circuit_except_unreachable (self : LucjanApi)
    (enabled : bool) (st : State) :
  async_set_co_circuit self enabled st
  = (let* _ := async_set_config_param self (py "PIEC_TRYB") (py "RECZNY") in
     let* _ := sleep 1000 in
     let* _ := async_set_config_param self (py "CO_TRYB")
                 (if enabled then py "ZIMA" else py "ZIM") in
     let* _ := sleep 1000 in
     let* _ := async_set_config_param self (py "PIEC_TRYB") (py "AUTO") in
     ret true) st ∧
  ∀ r st',
    async_set_co_circuit self enabled st = (r, st') →
    r = Return true ∨ ∃ err, r = Raise err ∧ is_LucjanApiError err = false.
Proof.
  assert (never_raises_LucjanApiError
            (let* _ := async_set_config_param self (py "PIEC_TRYB")
                         (py "RECZNY") in
             let* _ := sleep 1000 in
             let* _ := async_set_config_param self (py "CO_TRYB")
                         (if enabled then py "ZIMA" else py "ZIM") in
             let* _ := sleep 1000 in
             let* _ := async_set_config_param self (py "PIEC_TRYB")
                         (py "AUTO") in
             ret true)) as Hbody.
  { repeat (apply never_raises_bind; [|intros ?]);
      first [ apply async_set_config_param_never_raises
            | apply never_raises_sleep
            | apply never_raises_ret ]. }
  assert (async_set_co_circuit self enabled st
          = (let* _ := async_set_config_param self (py "PIEC_TRYB")
                         (py "RECZNY") in
             let* _ := sleep 1000 in
             let* _ := async_set_config_param self (py "CO_TRYB")
                         (if enabled then py "ZIMA" else py "ZIM") in
             let* _ := sleep 1000 in
             let* _ := async_set_config_param self (py "PIEC_TRYB")
                         (py "AUTO") in
             ret true) st) as Heq.
  { unfold async_set_co_circuit. apply try_except_unreachable; [done|].
    by intros err ->. }
  split; [done|]. intros r st' Hrun.
  destruct r as [[|]|err].
  - by left.
  - by destruct (async_set_co_circuit_never_False _ _ _ _ Hrun).
  - right. exists err. split; [done|].
    rewrite Heq in Hrun. by eapply Hbody.
Qed.

(** X11: when both fetches return, the poll builds the snapshot from
    the status and the parsed config file, and a refresh stores it and
    sets [last_update_success]; when the fetch of the config file
    raises an exception that is no [LucjanApiError], the poll fails
    with the prefix of an unexpected error. *)
Theorem update_with_config (api0 : LucjanApi) (st st1 : State)
    (thermos : gmap str json) :
  async_get_thermos api0 st = (Return thermos, st1) →
  (∀ raw st2,
     async_get_config_raw api0 st1 = (Return raw, st2) →
     _async_update_data api0 st
     = (match LucjanData_init thermos (_parse_config raw) with
        | Return snapshot => Return snapshot
        | Raise err => Raise (UpdateFailed (update_failed_prefix err) err)
        end, st2) ∧
     ∀ snapshot previous ok,
       LucjanData_init thermos (_parse_config raw) = Return snapshot →
       async_refresh
         {| api := api0; data := previous; last_update_success := ok |} st
       = ({| api := api0; data := Some snapshot;
             last_update_success := true |}, st2)) ∧
  (∀ err st2,
     async_get_config api0 st1 = (Raise err, st2) →
     is_LucjanApiError err = false →
     _async_update_data api0 st
     = (Raise (UpdateFailed (py "Unexpected error: ") err), st2)).
Proof.
  intros Hthermos. split.
  - intros raw st2 Hraw.
    assert (async_get_config api0 st1 = (Return (_parse_config raw), st2))
      as Hconfig.
    { unfold async_get_config_raw, bind in Hraw.
      unfold async_get_config, bind.
      destruct (_get api0 ENDPOINT_CONFIG st1) as [[resp|e] s]; [|done].
      unfold lift in *. destruct (text resp); [|done].
      by injection Hraw as -> ->. }
    assert (_async_update_data api0 st
            = (match LucjanData_init thermos (_parse_config raw) with
               | Return snapshot => Return snapshot
               | Raise err =>
                   Raise (UpdateFailed (update_failed_prefix err) err)
               end, st2)) as Hupdate.
    { unfold _async_update_data, try_except at 1, bind at 1.
      rewrite Hthermos. unfold bind at 1, try_except at 1.
      rewrite Hconfig. unfold lift.
      destruct (LucjanData_init thermos (_parse_config raw))
        as [snapshot|err']; [done|].
      unfold update_failed_prefix, raise.
      destruct (is_LucjanConnectionError err'); [done|].
      by destruct (is_LucjanApiError err'). }
    split; [done|]. intros snapshot previous ok Hinit.
    unfold async_refresh. cbn [api data]. by rewrite Hupdate, Hinit.
  - intros err st2 Hconfig Herr.
    unfold _async_update_data, try_except at 1, bind at 1.
    rewrite Hthermos. unfold bind at 1, try_except at 1.
    rewrite Hconfig, Herr.
    assert (is_LucjanConnectionError err = false) as ->
      by (by destruct err).
    by rewrite Herr.
Qed.
End SequenceExtras.

Section SnapshotExtras.
Context `{PyBuiltins}.

Lemma _safe_float_Raise value err :
  _safe_float value = Raise err →
  err = OverflowError ∧ ∃ z, value = JInt z ∧ float_of_Z z = None.
Proof.
  unfold _safe_float.
  destruct value as [|b|z|x|s|l|m]; cbn [py_float]; try done.
  - destruct (float_of_Z z) eqn:Hz; [done|].
    cbn. intros [= <-]. eauto.
  - destruct (float_of_str s); [done|]. by cbn.
Qed.

Lemma _safe_positive_Raise value err :
  _safe_positive value = Raise err →
  err = OverflowError ∧ ∃ z, value = JInt z ∧ float_of_Z z = None.
Proof.
  unfold _safe_positive, rbind.
  destruct (_safe_float value) as [[f|]|e] eqn:Hsafe.
  - by destruct (flt f (flit 0)).
  - done.
  - intros [= <-]. by apply _safe_float_Raise.
Qed.

Lemma py_int_Raise value err :
  py_int value = Raise err →
  is_ValueError_or_TypeError err = false →
  err = OverflowError ∧ ∃ s, value = JFloat (S754_infinity s).
Proof.
  destruct value as [|b|z|x|s|l|m]; cbn [py_int]; try done;
    try (by intros [= <-]).
  - destruct x as [s|s| |s m e]; cbn [int_of_float]; try done.
    + intros [= <-] _. eauto.
    + by intros [= <-].
  - destruct (int_of_str s); [done|]. by intros [= <-].
Qed.

Lemma _safe_int_Raise value err :
  _safe_int value = Raise err →
  err = OverflowError ∧ ∃ s, value = JFloat (S754_infinity s).
Proof.
  unfold _safe_int. destruct (py_int value) as [z|e] eqn:Hint.
  - by destruct value.
  - destruct (is_ValueError_or_TypeError e) eqn:He.
    + by destruct value.
    + destruct value; try done; intros [= <-]; by eapply py_int_Raise.
Qed.

Lemma _int_to_bool_Raise value err :
  _int_to_bool value = Raise err →
  err = OverflowError ∧ ∃ s, value = JFloat (S754_infinity s).
Proof.
  unfold _int_to_bool. destruct (py_int value) as [z|e] eqn:Hint.
  - by destruct value.
  - destruct (is_ValueError_or_TypeError e) eqn:He.
    + by destruct value.
    + destruct value; try done; intros [= <-]; by eapply py_int_Raise.
Qed.

(** X12: the "safe" conversions of the coordinator catch
    [ValueError] and [TypeError] only: [_safe_float] and
    [_safe_positive] raise, and then [OverflowError], exactly on an
    integer beyond the range of a float, [_safe_int] and
    [_int_to_bool] exactly on an infinite float; a missing value
    ([None]) gives [None], and for a flag [False]. *)
Theorem safe_conversions_raise_only_OverflowError (value : json) :
  (∀ err, _safe_float value = Raise err ↔
          err = OverflowError ∧ ∃ z, value = JInt z ∧ float_of_Z z = None) ∧
  (∀ err, _safe_positive value = Raise err ↔
          err = OverflowError ∧ ∃ z, value = JInt z ∧ float_of_Z z = None) ∧
  (∀ err, _safe_int value = Raise err ↔
          err = OverflowError ∧ ∃ s, value = JFloat (S754_infinity s)) ∧
  (∀ err, _int_to_bool value = Raise err ↔
          err = OverflowError ∧ ∃ s, value = JFloat (S754_infinity s)) ∧
  _safe_float JNull = Return None ∧ _safe_positive JNull = Return None ∧
  _safe_int JNull = Return None ∧ _int_to_bool JNull = Return false.
Proof.
  split; [|split; [|split; [|split]]]; [| | | |done].
  - intros err. split; [apply _safe_float_Raise|].
    intros (-> & z & -> & Hz). unfold _safe_float. cbn [py_float].
    by rewrite Hz.
  - intros err. split; [apply _safe_positive_Raise|].
    intros (-> & z & -> & Hz). unfold _safe_positive, _safe_float.
    cbn [py_float]. by rewrite Hz.
  - intros err. split; [apply _safe_int_Raise|].
    by intros (-> & s & ->).
  - intros err. split; [apply _int_to_bool_Raise|].
    by intros (-> & s & ->).
Qed.

(** *** The temperatures *)

Lemma temperatures_loop_spec thermos_list keys :
  ∀ i acc out,
    NoDup keys →
    temperatures_loop thermos_list i keys acc = Return out →
    (∀ k, k ∉ keys → out !! k = acc !! k) ∧
    (∀ j key, keys !! j = Some key →
       ∃ n, py_len thermos_list = Return n ∧
            if (i + j <? n)%nat
            then ∃ item val t,
                py_getitem thermos_list (i + j) = Return item ∧
                py_get item (py "t") = Return val ∧
                _safe_float val = Return t ∧
                out !! key = Some t
            else out !! key = Some None).
Proof.
  induction keys as [|sensor_key keys IH]; intros i acc out Hnodup Hloop.
  - injection Hloop as <-. split; [done|]. by intros j key.
  - apply NoDup_cons in Hnodup as [Hnotin Hnodup].
    cbn [temperatures_loop] in Hloop. unfold rbind at 1 in Hloop.
    destruct (py_len thermos_list) as [n|] eqn:Hlen; [|done].
    destruct (i <? n)%nat eqn:Hi.
    + unfold rbind at 1 in Hloop.
      destruct (py_getitem thermos_list i) as [item|] eqn:Hitem; [|done].
      unfold rbind at 1 in Hloop.
      destruct (py_get item (py "t")) as [val|] eqn:Hval; [|done].
      unfold rbind at 1 in Hloop.
      destruct (_safe_float val) as [t|] eqn:Ht; [|done].
      destruct (IH _ _ _ Hnodup Hloop) as [Hother Hslot]. split.
      * intros k Hk. apply not_elem_of_cons in Hk as [Hne Hk].
        rewrite (Hother k Hk). by rewrite lookup_insert_ne.
      * intros [|j] key Hkey.
        -- injection Hkey as <-. exists n. split; [done|].
           rewrite Nat.add_0_r, Hi. exists item, val, t.
           repeat split; try done.
           rewrite (Hother _ Hnotin). by rewrite lookup_insert_eq.
        -- destruct (Hslot j key Hkey) as (n' & Hn' & Hrule).
           exists n'. split; [done|].
           by replace (i + S j)%nat with (S i + j)%nat by lia.
    + destruct (IH _ _ _ Hnodup Hloop) as [Hother Hslot]. split.
      * intros k Hk. apply not_elem_of_cons in Hk as [Hne Hk].
        rewrite (Hother k Hk). by rewrite lookup_insert_ne.
      * intros [|j] key Hkey.
        -- injection Hkey as <-. exists n. split; [done|].
           rewrite Nat.add_0_r, Hi.
           rewrite (Hother _ Hnotin). by rewrite lookup_insert_eq.
        -- destruct (Hslot j key Hkey) as (n' & Hn' & Hrule).
           exists n'. split; [done|].
           by replace (i + S j)%nat with (S i + j)%nat by lia.
Qed.

Lemma LucjanData_init_temperatures thermos config snapshot :
  LucjanData_init thermos config = Return snapshot →
  temperatures_loop (default (JArr []) (thermos !! py "thermos")) 0
    TEMP_SENSORS ∅ = Return (temperatures snapshot).
Proof.
  unfold LucjanData_init. intros Hinit.
  repeat match type of Hinit with
         | context [rbind ?r _] =>
             destruct r eqn:?; cbn [rbind] in Hinit; [|discriminate]
         end.
  injection Hinit as <-. cbn. done.
Qed.

Lemma NoDup_TEMP_SENSORS : NoDup TEMP_SENSORS.
Proof. compute_done. Qed.

(** X13: the temperature mapping of a snapshot has exactly the sixteen
    sensor keys; the sensor at position [i] has the reading of element
    [i] of the status list [thermos], converted by [_safe_float], and
    [None] when the list is shorter or missing. *)
Theorem temperatures_slots (thermos : gmap str json)
    (config : gmap str str) (snapshot : LucjanData) :
  LucjanData_init thermos config = Return snapshot →
  (∀ key, is_Some (temperatures snapshot !! key) ↔ key ∈ TEMP_SENSORS) ∧
  (∀ i key l,
     TEMP_SENSORS !! i = Some key →
     default (JArr []) (thermos !! py "thermos") = JArr l →
     match l !! i with
     | None => temperatures snapshot !! key = Some None
     | Some item =>
         ∃ readings t,
           item = JObj readings ∧
           _safe_float (dict_get readings (py "t")) = Return t ∧
           temperatures snapshot !! key = Some t
     end).
Proof.
  intros Hinit. apply LucjanData_init_temperatures in Hinit.
  destruct (temperatures_loop_spec _ _ _ _ _ NoDup_TEMP_SENSORS Hinit)
    as [Hother Hslot].
  split.
  - intros key. split.
    + intros Hsome. destruct (decide (key ∈ TEMP_SENSORS)) as [|Hnot]; [done|].
      rewrite (Hother key Hnot), lookup_empty in Hsome.
      by destruct Hsome.
    + intros Hin. apply list_elem_of_lookup in Hin as [j Hj].
      destruct (Hslot j key Hj) as (n & _ & Hrule).
      destruct (0 + j <? n)%nat.
      * destruct Hrule as (? & ? & t & _ & _ & _ & ->). eauto.
      * rewrite Hrule. eauto.
  - intros i key l Hkey Hlist.
    destruct (Hslot i key Hkey) as (n & Hn & Hrule).
    rewrite Hlist in Hn, Hrule. injection Hn as <-. cbn [Nat.add] in Hrule.
    destruct (l !! i) as [item|] eqn:Hitem.
    + assert (i < length l)%nat as Hlt by (by eapply lookup_lt_Some).
      apply Nat.ltb_lt in Hlt. rewrite Hlt in Hrule.
      destruct Hrule as (item' & val & t & Hget & Hval & Ht & Hout).
      cbn [py_getitem] in Hget. rewrite Hitem in Hget.
      injection Hget as <-.
      destruct item as [|b|z|x|s|l'|readings]; try done.
      injection Hval as <-. by exists readings, t.
    + apply lookup_ge_None in Hitem.
      assert ((i <? length l)%nat = false) as Hge by (apply Nat.ltb_ge; lia).
      by rewrite Hge in Hrule.
Qed.

(** *** The flags *)

Lemma LucjanData_init_flags thermos config snapshot :
  LucjanData_init thermos config = Return snapshot →
  _int_to_bool (dict_get thermos (py "co")) = Return (pump_co snapshot) ∧
  _int_to_bool (dict_get thermos (py "cwu1")) = Return (pump_cwu1 snapshot) ∧
  _int_to_bool (dict_get thermos (py "cwu2")) = Return (pump_cwu2 snapshot) ∧
  _int_to_bool (dict_get thermos (py "cyrk")) = Return (circulation snapshot) ∧
  _int_to_bool (dict_get thermos (py "pod")) = Return (feeder snapshot) ∧
  _int_to_bool (dict_get thermos (py "ter")) = Return (thermostat snapshot) ∧
  _int_to_bool (dict_get thermos (py "al")) = Return (alarm snapshot).
Proof.
  unfold LucjanData_init. intros Hinit.
  repeat match type of Hinit with
         | context [rbind ?r _] =>
             destruct r eqn:?; cbn [rbind] in Hinit; [|discriminate]
         end.
  injection Hinit as <-. cbn. done.
Qed.

Lemma _int_to_bool_rule thermos key field :
  _int_to_bool (dict_get thermos key) = Return field →
  flag_rule (thermos !! key) field.
Proof.
  unfold dict_get, flag_rule.
  destruct (thermos !! key) as [v|]; cbn [default from_option];
    intros Hflag.
  - unfold id in Hflag.
    split; [done|]. split; [by intros [= ->]; injection Hflag as <-|].
    split.
    + intros v' z [= <-] Hnull Hint.
      destruct v; try done; unfold _int_to_bool in Hflag;
        rewrite Hint in Hflag; by injection Hflag as <-.
    + intros v' err [= <-] Hint.
      destruct v; try (by injection Hflag as <-);
        unfold _int_to_bool in Hflag; rewrite Hint in Hflag;
        (destruct (is_ValueError_or_TypeError err) eqn:He;
         [by injection Hflag as <-|done]).
  - injection Hflag as <-. by repeat split.
Qed.

(** X14: in every snapshot that [LucjanData.__init__] builds, each of
    the seven boolean flags is [False] when its key is missing or
    [null] in the status and when [int()] fails on its value, and
    otherwise tells whether [int()] of the value is not zero. *)
Theorem snapshot_flags (thermos : gmap str json) (config : gmap str str)
    (snapshot : LucjanData) :
  LucjanData_init thermos config = Return snapshot →
  flag_rule (thermos !! py "co") (pump_co snapshot) ∧
  flag_rule (thermos !! py "cwu1") (pump_cwu1 snapshot) ∧
  flag_rule (thermos !! py "cwu2") (pump_cwu2 snapshot) ∧
  flag_rule (thermos !! py "cyrk") (circulation snapshot) ∧
  flag_rule (thermos !! py "pod") (feeder snapshot) ∧
  flag_rule (thermos !! py "ter") (thermostat snapshot) ∧
  flag_rule (thermos !! py "al") (alarm snapshot).
Proof.
  intros Hinit.
  apply LucjanData_init_flags in Hinit
    as (H1 & H2 & H3 & H4 & H5 & H6 & H7).
  split; [|split; [|split; [|split; [|split; [|split]]]]];
    by apply _int_to_bool_rule.
Qed.
End SnapshotExtras.

(** X15: the uptime text is [None] without an uptime, and otherwise
    ["<h>h <m>m"] where [m] is between 0 and 59 and [h] hours and [m]
    minutes are the uptime up to less than a minute (83198 seconds
    read ["23h 6m"]). *)
Theorem uptime_formatted_spec (snapshot : LucjanData) :
  (uptime_seconds snapshot = None → uptime_formatted snapshot = None) ∧
  (∀ s, uptime_seconds snapshot = Some s →
        ∃ h m,
          uptime_formatted snapshot
          = Some (str_of_Z h ++ py "h " ++ str_of_Z m ++ py "m") ∧
          0 ≤ m < 60 ∧
          3600 * h + 60 * m ≤ s < 3600 * h + 60 * m + 60) ∧
  (uptime_seconds snapshot = Some 83198 →
   uptime_formatted snapshot = Some (py "23h 6m")).
Proof.
  unfold uptime_formatted. split; [by intros ->|]. split.
  - intros s ->. exists (s / 3600), (s mod 3600 / 60). split; [done|].
    pose proof (Z.mod_pos_bound s 3600 ltac:(lia)) as Hmod.
    pose proof (Z.div_mod s 3600 ltac:(lia)) as Hdiv.
    pose proof (Z.div_mod (s mod 3600) 60 ltac:(lia)) as Hdiv'.
    pose proof (Z.mod_pos_bound (s mod 3600) 60 ltac:(lia)) as Hmod'.
    assert (0 ≤ s mod 3600 / 60 < 60) as Hm.
    { split; [apply Z.div_pos; lia|apply Z.div_lt_upper_bound; lia]. }
    split; [done|]. lia.
  - intros ->. vm_compute. reflexivity.
Qed.

Section SnapshotFailures.
Context `{PyBuiltins}.

(** A value read from the parsed config file is a string or missing,
    and [_safe_float] returns on both. *)
Lemma _safe_float_config config key :
  ∃ t, _safe_float (config_get config key) = Return t.
Proof.
  unfold config_get, _safe_float.
  destruct (config !! key) as [s|]; cbn [from_option py_float]; [|eauto].
  destruct (float_of_str s); cbn; eauto.
Qed.

Lemma temperatures_loop_Raise thermos_list keys :
  ∀ i acc err,
    temperatures_loop thermos_list i keys acc = Raise err →
    err = OverflowError ∨ err = TypeError ∨ err = AttributeError
    ∨ err = KeyError.
Proof.
  induction keys as [|sensor_key keys IH]; intros i acc err Hloop; [done|].
  cbn [temperatures_loop] in Hloop. unfold rbind at 1 in Hloop.
  destruct (py_len thermos_list) as [n|e] eqn:Hlen.
  - destruct (i <? n)%nat eqn:Hi; [|by eapply IH].
    apply Nat.ltb_lt in Hi.
    unfold rbind at 1 in Hloop.
    destruct (py_getitem thermos_list i) as [item|e] eqn:Hitem.
    + unfold rbind at 1 in Hloop.
      destruct (py_get item (py "t")) as [val|e] eqn:Hval.
      * unfold rbind at 1 in Hloop.
        destruct (_safe_float val) as [t|e] eqn:Ht; [by eapply IH|].
        injection Hloop as <-. left. by apply _safe_float_Raise in Ht as [-> _].
      * injection Hloop as <-. right. right. left.
        destruct item; cbn [py_get] in Hval; congruence.
    + injection Hloop as <-.
      destruct thermos_list as [|b|z|x|s|l|m]; try done.
      * injection Hlen as <-. cbn [py_getitem] in Hitem.
        destruct (lookup_lt_is_Some_2 s i Hi) as [c Hc].
        by rewrite Hc in Hitem.
      * injection Hlen as <-. cbn [py_getitem] in Hitem.
        destruct (lookup_lt_is_Some_2 l i Hi) as [c Hc].
        by rewrite Hc in Hitem.
      * cbn [py_getitem] in Hitem. injection Hitem as <-. by do 3 right.
  - injection Hloop as <-. right. left.
    destruct thermos_list; cbn [py_len] in Hlen; congruence.
Qed.

(** The construction of a snapshot raises four kinds of exception
    only. *)
Lemma LucjanData_init_Raise thermos config err :
  LucjanData_init thermos config = Raise err →
  err = OverflowError ∨ err = TypeError ∨ err = AttributeError
  ∨ err = KeyError.
Proof.
  unfold LucjanData_init.
  repeat match goal with
    | |- rbind (_safe_float (config_get ?c ?k)) _ = _ → _ =>
        let t := fresh "t" in
        let Ht := fresh "Ht" in
        destruct (_safe_float_config c k) as [t Ht];
        rewrite Ht; clear Ht; cbn [rbind]
    | |- rbind ?r _ = _ → _ =>
        let Hr := fresh "Hr" in
        destruct r eqn:Hr; cbn [rbind];
        [|intros [= <-];
          first [ by eapply temperatures_loop_Raise
                | left;
                  first [ by eapply _int_to_bool_Raise
                        | by eapply _safe_float_Raise
                        | by eapply _safe_positive_Raise
                        | by eapply _safe_int_Raise ] ]]
    end.
  done.
Qed.

(** X16: the construction of a snapshot fails through the status
    only: with another config mapping it raises the same exception;
    and the exception is an [OverflowError], [TypeError],
    [AttributeError] or [KeyError], never an index out of range. *)
Theorem snapshot_fails_through_status_only (thermos : gmap str json)
    (config : gmap str str) (err : exn) :
  LucjanData_init thermos config = Raise err →
  (err = OverflowError ∨ err = TypeError ∨ err = AttributeError
   ∨ err = KeyError) ∧
  ∀ config', LucjanData_init thermos config' = Raise err.
Proof.
  intros Hinit. split.
  - by eapply LucjanData_init_Raise.
  - intros config'. revert Hinit. unfold LucjanData_init.
    repeat match goal with
      | |- rbind (_safe_float (config_get config ?k)) _ = _ → _ =>
          let t := fresh "t" in
          let t' := fresh "t'" in
          let Ht := fresh "Ht" in
          destruct (_safe_float_config config k) as [t Ht];
          rewrite Ht; clear Ht;
          destruct (_safe_float_config config' k) as [t' Ht];
          rewrite Ht; clear Ht;
          cbn [rbind]
      | |- rbind ?r _ = _ → _ =>
          destruct r; cbn [rbind]; [|done]
      end.
    done.
Qed.
End SnapshotFailures.

Section UpdateFailures.
Context `{Http} `{PyBuiltins}.

Lemma update_failed_prefix_unexpected err :
  err = OverflowError ∨ err = TypeError ∨ err = AttributeError
  ∨ err = KeyError →
  update_failed_prefix err = py "Unexpected error: ".
Proof. by intros [->|[->|[->| ->]]]. Qed.

(** X10: when [_async_update_data] raises, it raises [UpdateFailed]
    around the exception of the step that failed, with the prefix for
    the kind of that exception.  The cause is the exception of the
    status fetch; or that of the config fetch, when it is no
    [LucjanApiError]; or that of the construction of the snapshot,
    from the parsed config or, after a [LucjanApiError] of the config
    fetch, from the empty mapping, and then the prefix is that of an
    unexpected error.  A [LucjanApiError] of the config fetch is never
    the cause.  (The exceptions are the members of [exn], instances of
    [Exception]; a cancellation is none and is outside the model.) *)
Theorem update_failure_cause (api0 : LucjanApi) (st : State)
    (err : exn) (st' : State) :
  _async_update_data api0 st = (Raise err, st') →
  ∃ cause,
    err = UpdateFailed (update_failed_prefix cause) cause ∧
    (async_get_thermos api0 st = (Raise cause, st') ∨
     ∃ thermos st1,
       async_get_thermos api0 st = (Return thermos, st1) ∧
       ((async_get_config api0 st1 = (Raise cause, st') ∧
         is_LucjanApiError cause = false) ∨
        (∃ config,
           LucjanData_init thermos config = Raise cause ∧
           update_failed_prefix cause = py "Unexpected error: " ∧
           (async_get_config api0 st1 = (Return config, st') ∨
            (config = ∅ ∧
             ∃ swallowed,
               async_get_config api0 st1 = (Raise swallowed, st') ∧
               is_LucjanApiError swallowed = true))))).
Proof.
  assert (∀ cause,
            (if is_LucjanConnectionError cause
             then Some (raise (UpdateFailed (py "Connection error: ") cause))
             else if is_LucjanApiError cause
                  then Some (raise (UpdateFailed (py "API error: ") cause))
                  else Some (raise (UpdateFailed (py "Unexpected error: ")
                                      cause)))
            = Some (λ s', (Raise (UpdateFailed (update_failed_prefix cause)
                                    cause) : result LucjanData, s')))
    as Hhandler.
  { intros cause. unfold update_failed_prefix, raise.
    destruct (is_LucjanConnectionError cause); [done|].
    by destruct (is_LucjanApiError cause). }
  unfold _async_update_data, try_except at 1, bind at 1.
  destruct (async_get_thermos api0 st) as [[thermos|e] st1] eqn:Hthermos.
  - unfold bind at 1, try_except at 1.
    destruct (async_get_config api0 st1) as [[config|e] st2] eqn:Hconfig.
    + unfold lift.
      destruct (LucjanData_init thermos config) as [snapshot|e] eqn:Hinit;
        [done|].
      rewrite (Hhandler e). intros [= <- <-].
      exists e. split; [done|]. right. exists thermos, st1. split; [done|].
      right. exists config. split; [done|]. split; [|by left].
      by eapply update_failed_prefix_unexpected, LucjanData_init_Raise.
    + destruct (is_LucjanApiError e) eqn:Hapi.
      * unfold ret, lift.
        destruct (LucjanData_init thermos ∅) as [snapshot|e'] eqn:Hinit;
          [done|].
        rewrite (Hhandler e'). intros [= <- <-].
        exists e'. split; [done|]. right. exists thermos, st1.
        split; [done|]. right. exists ∅. split; [done|].
        split; [by eapply update_failed_prefix_unexpected,
                  LucjanData_init_Raise|].
        right. split; [done|]. by exists e.
      * rewrite (Hhandler e). intros [= <- <-].
        exists e. split; [done|]. right. exists thermos, st1.
        split; [done|]. by left.
  - rewrite (Hhandler e). intros [= <- <-].
    exists e. split; [done|]. by left.
Qed.
End UpdateFailures.

Section SwitchExtras.
Context `{Http} `{PyBuiltins}.
Local Open Scope coro_scope.

Lemma async_set_variable_never_raises self name value :
  never_raises_LucjanApiError (async_set_variable self name value).
Proof. apply try_return_False_never_raises. Qed.

Lemma async_set_co_circuit_never_raises self enabled :
  never_raises_LucjanApiError (async_set_co_circuit self enabled).
Proof.
  intros st err st' Hrun.
  unfold async_set_co_circuit in Hrun.
  rewrite try_except_unreachable in Hrun.
  - revert st err st' Hrun.
    repeat (apply never_raises_bind; [|intros ?]);
      first [ apply async_set_config_param_never_raises
            | apply never_raises_sleep
            | apply never_raises_ret ].
  - repeat (apply never_raises_bind; [|intros ?]);
      first [ apply async_set_config_param_never_raises
            | apply never_raises_sleep
            | apply never_raises_ret ].
  - by intros e ->.
Qed.

Lemma SWITCH_DESCRIPTIONS_never_raise description api0 :
  description ∈ switch.SWITCH_DESCRIPTIONS →
  never_raises_LucjanApiError (switch.turn_on_fn description api0) ∧
  never_raises_LucjanApiError (switch.turn_off_fn description api0).
Proof.
  unfold switch.SWITCH_DESCRIPTIONS. intros Hin.
  repeat (apply elem_of_cons in Hin as [->|Hin];
          [cbn [switch.turn_on_fn switch.turn_off_fn]; split;
           first [ apply async_set_config_param_never_raises
                 | apply async_set_variable_never_raises
                 | apply async_set_co_circuit_never_raises ]|]).
  by apply elem_of_nil in Hin.
Qed.

(** X17: [async_turn_on] shows the switch as on before it contacts
    the device.  When the command returns [False] the optimistic state
    is cleared and the state written again, with no delay and no
    refresh; when it returns [True] the method sleeps three seconds,
    clears the optimistic state and requests a refresh; when it raises,
    the exception passes and the optimistic state stays, so that the
    switch goes on reporting on whatever the device says.
    [async_turn_off] does the same with off. *)
Theorem switch_turn_on_off_outcome (self : switch.LucjanSwitch)
    (calls : list (HaCall (option bool))) (st : State) :
  let outcome (target : bool) (command : Coro bool)
      (run : result unit * switch.LucjanSwitch
             * list (HaCall (option bool)) * State) :=
    let '(r, self', calls', st') := run in
    switch.coordinator self' = switch.coordinator self ∧
    switch.entity_description self' = switch.entity_description self ∧
    match command st with
    | (Raise err, st1) =>
        r = Raise err ∧ st' = st1 ∧
        switch._optimistic_state self' = Some target ∧
        switch.is_on self' = Some target ∧
        calls' = calls ++ [WriteState (Some target)]
    | (Return false, st1) =>
        r = Return tt ∧ st' = st1 ∧
        switch._optimistic_state self' = None ∧
        calls' = calls ++ [WriteState (Some target);
                           WriteState (switch.is_on self')]
    | (Return true, st1) =>
        r = Return tt ∧ world st' = world st1 ∧
        trace st' = trace st1 ++ [EvSleep 3000] ∧
        switch._optimistic_state self' = None ∧
        calls' = calls ++ [WriteState (Some target); RequestRefresh]
    end in
  outcome true
    (switch.turn_on_fn (switch.entity_description self)
       (api (switch.coordinator self)))
    (switch.async_turn_on self calls st) ∧
  outcome false
    (switch.turn_off_fn (switch.entity_description self)
       (api (switch.coordinator self)))
    (switch.async_turn_off self calls st).
Proof.
  cbv zeta. split.
  - unfold switch.async_turn_on.
    cbn [switch.set_optimistic_state switch.entity_description
         switch.coordinator].
    destruct (switch.turn_on_fn _ _ st) as [[[|]|err] st1];
      cbn [negb]; repeat split; try done.
    all: by rewrite <- app_assoc.
  - unfold switch.async_turn_off.
    cbn [switch.set_optimistic_state switch.entity_description
         switch.coordinator].
    destruct (switch.turn_off_fn _ _ st) as [[[|]|err] st1];
      cbn [negb]; repeat split; try done.
    all: by rewrite <- app_assoc.
Qed.

(** X18: for each of the eight switches of [SWITCH_DESCRIPTIONS],
    no [LucjanApiError] leaves [async_turn_on] or [async_turn_off];
    and the switch of the CO circuit never takes the failure path:
    whenever its command ends without an exception, it has slept and
    requested a refresh, since [async_set_co_circuit] does not return
    [False]. *)
Theorem switches_raise_no_client_error (self : switch.LucjanSwitch)
    (calls : list (HaCall (option bool))) (st : State) :
  switch.entity_description self ∈ switch.SWITCH_DESCRIPTIONS →
  (∀ err self' calls' st',
     switch.async_turn_on self calls st = (Raise err, self', calls', st')
     ∨ switch.async_turn_off self calls st = (Raise err, self', calls', st') →
     is_LucjanApiError err = false) ∧
  (switch.key (switch.entity_description self) = py "switch_co_zawor4d" →
   ∀ self' calls' st',
     (switch.async_turn_on self calls st = (Return tt, self', calls', st') →
      calls' = calls ++ [WriteState (Some true); RequestRefresh]) ∧
     (switch.async_turn_off self calls st = (Return tt, self', calls', st') →
      calls' = calls ++ [WriteState (Some false); RequestRefresh])).
Proof.
  intros Hin. split.
  - intros err self' calls' st' Hrun.
    destruct (SWITCH_DESCRIPTIONS_never_raise _ (api (switch.coordinator self))
                Hin) as [Hon Hoff].
    destruct Hrun as [Hrun|Hrun].
    + unfold switch.async_turn_on in Hrun.
      cbn [switch.set_optimistic_state switch.entity_description
           switch.coordinator] in Hrun.
      destruct (switch.turn_on_fn _ _ st) as [[[|]|e] st1] eqn:Hcommand;
        cbn [negb] in Hrun; try done.
      injection Hrun as <- _ _ _. by eapply Hon.
    + unfold switch.async_turn_off in Hrun.
      cbn [switch.set_optimistic_state switch.entity_description
           switch.coordinator] in Hrun.
      destruct (switch.turn_off_fn _ _ st) as [[[|]|e] st1] eqn:Hcommand;
        cbn [negb] in Hrun; try done.
      injection Hrun as <- _ _ _. by eapply Hoff.
  - intros Hkey.
    assert (switch.turn_on_fn (switch.entity_description self)
            = (λ api0, async_set_co_circuit api0 true) ∧
            switch.turn_off_fn (switch.entity_description self)
            = (λ api0, async_set_co_circuit api0 false)) as [Hon Hoff].
    { unfold switch.SWITCH_DESCRIPTIONS in Hin.
      repeat (apply elem_of_cons in Hin as [Heq|Hin];
              [rewrite Heq in Hkey |- *; cbn [switch.key] in Hkey;
               first [ by vm_compute in Hkey | done ]|]).
      by apply elem_of_nil in Hin. }
    intros self' calls' st'. split; intros Hrun.
    + unfold switch.async_turn_on in Hrun.
      cbn [switch.set_optimistic_state switch.entity_description
           switch.coordinator] in Hrun.
      rewrite Hon in Hrun.
      destruct (async_set_co_circuit _ true st) as [[[|]|e] st1] eqn:Hcommand;
        cbn [negb] in Hrun; try done.
      * injection Hrun as _ <- _. by rewrite <- app_assoc.
      * by destruct (async_set_co_circuit_never_False _ _ _ _ Hcommand).
    + unfold switch.async_turn_off in Hrun.
      cbn [switch.set_optimistic_state switch.entity_description
           switch.coordinator] in Hrun.
      rewrite Hoff in Hrun.
      destruct (async_set_co_circuit _ false st) as [[[|]|e] st1]
        eqn:Hcommand; cbn [negb] in Hrun; try done.
      * injection Hrun as _ <- _. by rewrite <- app_assoc.
      * by destruct (async_set_co_circuit_never_False _ _ _ _ Hcommand).
Qed.

(** X19: without a command under way a switch reports what its
    description reads from the snapshot, and nothing when there is no
    snapshot; a switch is unavailable when the last update failed and,
    for the manual-only switches, when the snapshot says that the
    boiler is in the AUTO mode; the switch of the AUTO mode itself is
    not manual-only, and so is available whenever the last update
    succeeded. *)
Theorem switch_state (self : switch.LucjanSwitch) :
  switch._optimistic_state self = None →
  (switch.is_on self
   = switch.is_on_fn (switch.entity_description self)
       <$> data (switch.coordinator self)) ∧
  (switch.available self = true ↔
   last_update_success (switch.coordinator self) = true ∧
   ¬ (switch.manual_only (switch.entity_description self) = true ∧
      ∃ snapshot, data (switch.coordinator self) = Some snapshot ∧
                  boiler_mode snapshot = py "AUTO")) ∧
  (switch.entity_description self ∈ switch.SWITCH_DESCRIPTIONS →
   switch.key (switch.entity_description self) = py "switch_auto_mode" →
   switch.available self = last_update_success (switch.coordinator self)).
Proof.
  intros Hopt. split; [|split].
  - unfold switch.is_on, switch.lucjan_data. rewrite Hopt.
    by destruct (data _).
  - unfold switch.available, switch.lucjan_data.
    destruct (last_update_success _); cbn [negb]; [|by split; [|intros []]].
    destruct (switch.manual_only _); cbn [andb].
    + destruct (data _) as [snapshot|].
      * destruct (bool_decide (boiler_mode snapshot = py "AUTO")) eqn:Hmode.
        -- apply bool_decide_eq_true in Hmode.
           split; [done|]. intros [_ Hnot]. destruct Hnot. eauto.
        -- apply bool_decide_eq_false in Hmode.
           split; [|done]. intros _. split; [done|].
           by intros [_ (s & [= <-] & Hs)].
      * split; [|done]. intros _. split; [done|].
        by intros [_ (s & [=] & _)].
    + split; [|done]. intros _. split; [done|]. by intros [[=] _].
  - intros Hin Hkey.
    assert (switch.manual_only (switch.entity_description self) = false)
      as Hmanual.
    { unfold switch.SWITCH_DESCRIPTIONS in Hin.
      repeat (apply elem_of_cons in Hin as [Heq|Hin];
              [rewrite Heq in Hkey |- *; cbn [switch.key] in Hkey;
               first [ by vm_compute in Hkey | done ]|]).
      by apply elem_of_nil in Hin. }
    unfold switch.available. rewrite Hmanual.
    by destruct (last_update_success _).
Qed.
End SwitchExtras.

Section SelectExtras.
Context `{Http}.

Lemma SELECT_DESCRIPTIONS_options description :
  description ∈ select.SELECT_DESCRIPTIONS →
  py "unknown" ∉ select.options_list description.
Proof.
  unfold select.SELECT_DESCRIPTIONS. intros Hin.
  repeat (apply elem_of_cons in Hin as [->|Hin];
          [cbn [select.options_list]; compute_done|]).
  by apply elem_of_nil in Hin.
Qed.

(** X20: [current_option] is the option being set while a command is
    under way; otherwise nothing without a snapshot, and with one the
    value the description reads, whether or not it is among the
    options, except that ["unknown"] is reported as nothing unless it
    is an option.  None of the seven selects of [SELECT_DESCRIPTIONS]
    has that option, so such a select with a snapshot shows nothing
    exactly when its parameter is missing from the config file or is
    the text ["unknown"]. *)
Theorem current_option_spec (self : select.LucjanSelect) :
  (∀ value, select._optimistic_value self = Some value →
            select.current_option self = Some value) ∧
  (select._optimistic_value self = None →
   data (select.coordinator self) = None →
   select.current_option self = None) ∧
  (∀ snapshot,
     select._optimistic_value self = None →
     data (select.coordinator self) = Some snapshot →
     let value := select.current_fn (select.entity_description self)
                    snapshot in
     (value ≠ py "unknown" → select.current_option self = Some value) ∧
     (value = py "unknown" →
      select.current_option self
      = if bool_decide (py "unknown" ∈ select._attr_options self)
        then Some value else None) ∧
     (select.entity_description self ∈ select.SELECT_DESCRIPTIONS →
      select._attr_options self
      = select.options_list (select.entity_description self) →
      (select.current_option self = None ↔ value = py "unknown"))).
Proof.
  unfold select.current_option, select.lucjan_data.
  split; [|split].
  - by intros value ->.
  - by intros -> ->.
  - intros snapshot Hopt Hdata. cbv zeta. rewrite Hopt, Hdata.
    split; [|split].
    + intros Hne. destruct (bool_decide (_ ∈ _)); [done|].
      by rewrite bool_decide_eq_false_2.
    + intros ->. destruct (bool_decide (py "unknown" ∈ _)); [done|].
      by rewrite bool_decide_eq_true_2.
    + intros Hin Hoptions.
      pose proof (SELECT_DESCRIPTIONS_options _ Hin) as Hnot.
      rewrite <- Hoptions in Hnot.
      destruct (decide (select.current_fn (select.entity_description self)
                          snapshot = py "unknown")) as [Heq|Hne].
      * rewrite Heq. rewrite bool_decide_eq_false_2 by done.
        by rewrite bool_decide_eq_true_2.
      * split; [|done].
        destruct (bool_decide (_ ∈ _)); [done|].
        by rewrite bool_decide_eq_false_2.
Qed.

(** X21: [async_select_option] shows the chosen option before it
    contacts the device and writes the config parameter of its
    description.  When the write returns [False] the optimistic value
    is cleared and the state written again; when it returns [True] the
    method sleeps three seconds, clears the optimistic value and
    requests a refresh; when it raises, the optimistic value stays.  No
    [LucjanApiError] leaves the method. *)
Theorem select_option_outcome (self : select.LucjanSelect) (chosen : str)
    (calls : list (HaCall (option str))) (st : State) :
  let '(r, self', calls', st') :=
    select.async_select_option self chosen calls st in
  select.coordinator self' = select.coordinator self ∧
  select.entity_description self' = select.entity_description self ∧
  select._attr_options self' = select._attr_options self ∧
  match async_set_config_param (api (select.coordinator self))
          (select.config_param (select.entity_description self)) chosen st
  with
  | (Raise err, st1) =>
      r = Raise err ∧ st' = st1 ∧ is_LucjanApiError err = false ∧
      select.current_option self' = Some chosen ∧
      calls' = calls ++ [WriteState (Some chosen)]
  | (Return false, st1) =>
      r = Return tt ∧ st' = st1 ∧
      select._optimistic_value self' = None ∧
      calls' = calls ++ [WriteState (Some chosen);
                         WriteState (select.current_option self')]
  | (Return true, st1) =>
      r = Return tt ∧ world st' = world st1 ∧
      trace st' = trace st1 ++ [EvSleep 3000] ∧
      select._optimistic_value self' = None ∧
      calls' = calls ++ [WriteState (Some chosen); RequestRefresh]
  end.
Proof.
  unfold select.async_select_option.
  cbn [select.set_optimistic_value select.entity_description
       select.coordinator].
  destruct (async_set_config_param _ _ chosen st) as [[[|]|err] st1]
    eqn:Hcommand; cbn [negb]; repeat split; try done.
  - by rewrite <- app_assoc.
  - by rewrite <- app_assoc.
  - by eapply async_set_config_param_never_raises.
Qed.
End SelectExtras.

Section ClimateExtras.
Context `{Http} `{PyBuiltins}.

Lemma set_temperature_rule_of method (runtime persist : Z → Coro bool) :
  (∀ temperature calls st,
     method temperature calls st
     = match temperature with
       | None => (Return tt, calls, st)
       | Some temp =>
           match py_round_int temp with
           | Raise err => (Raise err, calls, st)
           | Return temp_int =>
               match runtime temp_int st with
               | (Raise err, st) => (Raise err, calls, st)
               | (Return _, st) =>
                   match persist temp_int st with
                   | (Raise err, st) => (Raise err, calls, st)
                   | (Return _, st) =>
                       let '(_, st) := sleep 3000 st in
                       (Return tt, calls ++ [RequestRefresh], st)
                   end
               end
           end
       end) →
  (∀ n, never_raises_LucjanApiError (runtime n)) →
  (∀ n, never_raises_LucjanApiError (persist n)) →
  set_temperature_rule method runtime persist.
Proof.
  intros Hmethod Hruntime Hpersist calls st.
  split; [by rewrite Hmethod|]. split; [by rewrite Hmethod|].
  split; [intros sign; by rewrite Hmethod|].
  intros temp temp_int Hround. split.
  - intros err calls' st'. rewrite Hmethod, Hround.
    destruct (runtime temp_int st) as [[sent|e] st1] eqn:Hsent.
    + destruct (persist temp_int st1) as [[stored|e] st2] eqn:Hstored.
      * done.
      * intros [= <- <- <-]. split; [|done]. by eapply Hpersist.
    + intros [= <- <- <-]. split; [|done]. by eapply Hruntime.
  - intros sent st1 stored st2 Hsent Hstored.
    by rewrite Hmethod, Hround, Hsent, Hstored.
Qed.

(** X22: [async_set_temperature] of the two climate entities rounds
    the temperature to an integer, sends it as the runtime variable
    and then writes it to the config file.  A missing temperature does
    nothing, a temperature that is not a number raises before anything
    is sent, no [LucjanApiError] leaves the method, and when both
    writes return, the method sleeps three seconds, requests a refresh
    and returns, whether or not the device took the value. *)
Theorem set_temperature_ignores_results (coordinator : LucjanCoordinator) :
  set_temperature_rule
    (climate.LucjanBoilerClimate_async_set_temperature coordinator)
    (λ temp_int, async_set_piec_zadana (api coordinator) temp_int)
    (λ temp_int, async_set_config_param (api coordinator) (py "PIEC_ZADANA")
                   (str_of_Z temp_int)) ∧
  set_temperature_rule
    (climate.LucjanCWUClimate_async_set_temperature coordinator)
    (λ temp_int, async_set_cwu_zadana (api coordinator) temp_int)
    (λ temp_int, async_set_config_param (api coordinator) (py "CWU_ZADANA")
                   (str_of_Z temp_int)).
Proof.
  split; apply set_temperature_rule_of; try done.
  - intros n. apply async_set_variable_never_raises.
  - intros n. apply async_set_config_param_never_raises.
  - intros n. apply async_set_variable_never_raises.
  - intros n. apply async_set_config_param_never_raises.
Qed.
End ClimateExtras.

(** ** The further properties on the device stub *)

Import FakeDevice Examples MoreExamples.

Lemma get_put_discipline_witness :
  (∀ response, Return thermos_response = Return response →
               status response = 200) ∧
  Return thermos_response ≠ Raise TimeoutError ∧
  (∀ msg, Return thermos_response ≠ Raise (ClientError msg)) ∧
  trace (after device [EvGet thermos_url])
  = trace (start device) ++ [EvGet (_base_url client ++ ENDPOINT_THERMOS)].
Proof.
  apply (proj1 (@get_put_discipline http client ENDPOINT_THERMOS [])
           (start device) (Return thermos_response)
           (after device [EvGet thermos_url])).
  vm_compute. reflexivity.
Defined.

Lemma get_put_outcome_witness :
  @_get http client ENDPOINT_THERMOS (start offline)
  = (@request_outcome http client (_base_url client ++ ENDPOINT_THERMOS)
       (Raise TimeoutError),
     after offline
       (trace (start offline)
        ++ [EvGet (_base_url client ++ ENDPOINT_THERMOS)])).
Proof.
  apply (proj1 (@get_put_outcome http client ENDPOINT_THERMOS []
                  (start offline) tt eq_refl)
           (Raise TimeoutError) offline).
  vm_compute. reflexivity.
Defined.

Lemma no_session_no_request_witness :
  @async_set_variable http builtins no_session (py "OUT_POMPACO") (JInt 1)
    (start device) = (Return false, start device) ∧
  @async_set_co_circuit http no_session true (start device)
  = (Return true, after device [EvSleep 1000; EvSleep 1000]).
Proof.
  pose proof (@no_session_no_request http builtins no_session (start device)
                (py "OUT_POMPACO") (py "CO_TRYB") (py "ZIMA") (JInt 1) true
                eq_refl) as (_ & _ & _ & Hset & _ & _ & _ & _ & _ & _ & Hco).
  split; [exact Hset|exact Hco].
Defined.

Lemma set_config_param_success_witness :
  @async_set_config_param http client (py "PIEC_ZADANA") (py "60")
    (start device)
  = (Return true,
     after (with_config_txt config_60 device)
       (trace (start device)
        ++ [EvGet (_base_url client ++ ENDPOINT_CONFIG);
            EvPut (_base_url client ++ py "/upload/config.txt") config_60;
            EvSleep 500;
            EvGet (_base_url client ++ py "/configreload")])).
Proof.
  refine (proj2 (@set_config_param_success http client (py "PIEC_ZADANA")
                   (py "60") (start device) tt config_response
                   config_example config_60 device _ _ _ _ _)
            (empty_response 200) (empty_response 200)
            (with_config_txt config_60 device)
            (with_config_txt config_60 device) _ _ _ _ _).
  - reflexivity.
  - vm_compute. reflexivity.
  - reflexivity.
  - reflexivity.
  - vm_compute. reflexivity.
  - compute_done.
  - vm_compute. reflexivity.
  - reflexivity.
  - vm_compute. reflexivity.
  - reflexivity.
Defined.

Lemma set_config_param_events_witness :
  (Return false ≠ Return true ∧
   (trace (after no_co_tryb [EvGet config_url]) = trace (start no_co_tryb)
    ∨ trace (after no_co_tryb [EvGet config_url])
      = trace (start no_co_tryb)
        ++ [EvGet (_base_url client ++ ENDPOINT_CONFIG)])) ∨
  ∃ raw st1 new_config,
    @async_get_config_raw http client (start no_co_tryb) = (Return raw, st1) ∧
    _replace_config_param raw (py "CO_TRYB") (py "ZIMA") = Some new_config ∧
    ((Return false ≠ Return true ∧
      trace (after no_co_tryb [EvGet config_url])
      = trace (start no_co_tryb)
        ++ [EvGet (_base_url client ++ ENDPOINT_CONFIG);
            EvPut (_base_url client ++ py "/upload/config.txt") new_config]) ∨
     trace (after no_co_tryb [EvGet config_url])
     = trace (start no_co_tryb)
       ++ [EvGet (_base_url client ++ ENDPOINT_CONFIG);
           EvPut (_base_url client ++ py "/upload/config.txt") new_config;
           EvSleep 500;
           EvGet (_base_url client ++ py "/configreload")]).
Proof.
  apply (@set_config_param_events http client (py "CO_TRYB") (py "ZIMA")
           (start no_co_tryb) (Return false)
           (after no_co_tryb [EvGet config_url])).
  vm_compute. reflexivity.
Defined.

Lemma set_co_circuit_except_unreachable_witness :
  Return true = Return true
  ∨ ∃ err, Return true = Raise err ∧ is_LucjanApiError err = false.
Proof.
  apply (proj2 (@set_co_circuit_except_unreachable http client true
                  (start failing_config))
           (Return true)
           (after failing_config
              [EvGet config_url; EvSleep 1000; EvGet config_url;
               EvSleep 1000; EvGet config_url])).
  vm_compute. reflexivity.
Defined.

Lemma update_failure_cause_witness :
  ∃ cause,
    UpdateFailed (py "Connection error: ")
      (LucjanConnectionError (py "Timeout connecting to boiler"))
    = UpdateFailed (@update_failed_prefix cause) cause ∧
    (@async_get_thermos http client (start offline)
     = (Raise cause, after offline [EvGet thermos_url]) ∨
     ∃ thermos st1,
       @async_get_thermos http client (start offline)
       = (Return thermos, st1) ∧
       ((@async_get_config http client st1
         = (Raise cause, after offline [EvGet thermos_url]) ∧
         is_LucjanApiError cause = false) ∨
        (∃ config,
           @LucjanData_init builtins thermos config = Raise cause ∧
           update_failed_prefix cause = py "Unexpected error: " ∧
           (@async_get_config http client st1
            = (Return config, after offline [EvGet thermos_url]) ∨
            (config = ∅ ∧
             ∃ swallowed,
               @async_get_config http client st1
               = (Raise swallowed, after offline [EvGet thermos_url]) ∧
               is_LucjanApiError swallowed = true))))).
Proof.
  apply (@update_failure_cause http builtins client (start offline)
           _ (after offline [EvGet thermos_url])).
  vm_compute. reflexivity.
Defined.

Lemma update_with_config_witness :
  @_async_update_data http builtins client (start device)
  = (match @LucjanData_init builtins status_example
             (_parse_config config_example) with
     | Return snapshot => Return snapshot
     | Raise err => Raise (UpdateFailed (update_failed_prefix err) err)
     end, after device [EvGet thermos_url; EvGet config_url]).
Proof.
  apply (proj1 (@update_with_config http builtins client (start device)
                  (after device [EvGet thermos_url]) status_example
                  ltac:(vm_compute; reflexivity))
           config_example
           (after device [EvGet thermos_url; EvGet config_url])).
  vm_compute. reflexivity.
Defined.

Lemma safe_conversions_raise_only_OverflowError_witness :
  @_safe_int builtins (JFloat (S754_infinity false)) = Raise OverflowError.
Proof.
  apply (proj1 (proj2 (proj2 (@safe_conversions_raise_only_OverflowError
                                builtins (JFloat (S754_infinity false)))))).
  split; [reflexivity|]. exists false. reflexivity.
Defined.

Lemma temperatures_slots_witness :
  ∃ snapshot,
    @LucjanData_init builtins status_example ∅ = Return snapshot ∧
    (∀ key, is_Some (temperatures snapshot !! key) ↔ key ∈ TEMP_SENSORS) ∧
    (∀ i key l,
       TEMP_SENSORS !! i = Some key →
       default (JArr []) (status_example !! py "thermos") = JArr l →
       match l !! i with
       | None => temperatures snapshot !! key = Some None
       | Some item =>
           ∃ readings t,
             item = JObj readings ∧
             @_safe_float builtins (dict_get readings (py "t")) = Return t ∧
             temperatures snapshot !! key = Some t
       end).
Proof.
  eexists. split; [vm_compute; reflexivity|].
  apply (@temperatures_slots builtins status_example ∅).
  vm_compute. reflexivity.
Defined.

Lemma snapshot_flags_witness :
  ∃ snapshot,
    @LucjanData_init builtins status_example ∅ = Return snapshot ∧
    @flag_rule builtins (status_example !! py "co") (pump_co snapshot) ∧
    @flag_rule builtins (status_example !! py "cwu1") (pump_cwu1 snapshot) ∧
    @flag_rule builtins (status_example !! py "cwu2") (pump_cwu2 snapshot) ∧
    @flag_rule builtins (status_example !! py "cyrk") (circulation snapshot) ∧
    @flag_rule builtins (status_example !! py "pod") (feeder snapshot) ∧
    @flag_rule builtins (status_example !! py "ter") (thermostat snapshot) ∧
    @flag_rule builtins (status_example !! py "al") (alarm snapshot).
Proof.
  eexists. split; [vm_compute; reflexivity|].
  apply (@snapshot_flags builtins status_example ∅).
  vm_compute. reflexivity.
Defined.

Lemma uptime_formatted_spec_witness :
  uptime_formatted (snapshot None None None None None) = None.
Proof.
  apply (proj1 (uptime_formatted_spec (snapshot None None None None None))).
  reflexivity.
Defined.

Lemma snapshot_fails_through_status_only_witness :
  (TypeError = OverflowError ∨ TypeError = TypeError
   ∨ TypeError = AttributeError ∨ TypeError = KeyError) ∧
  ∀ config', @LucjanData_init builtins broken_status config' = Raise TypeError.
Proof.
  apply (@snapshot_fails_through_status_only builtins broken_status ∅).
  vm_compute. reflexivity.
Defined.

Lemma switches_raise_no_client_error_witness :
  [WriteState (Some true); RequestRefresh]
  = [] ++ [WriteState (Some true); @RequestRefresh (option bool)].
Proof.
  assert (co_switch.(switch.entity_description)
          ∈ @switch.SWITCH_DESCRIPTIONS http builtins) as Hin.
  { do 7 apply list_elem_of_further. apply list_elem_of_here. }
  assert (@async_set_co_circuit http client true (start failing_config)
          = (Return true,
             after failing_config
               [EvGet config_url; EvSleep 1000; EvGet config_url;
                EvSleep 1000; EvGet config_url])) as Hco.
  { vm_compute. reflexivity. }
  apply (proj1 (proj2 (@switches_raise_no_client_error http builtins
                         co_switch [] (start failing_config) Hin)
                  eq_refl co_switch
                  [WriteState (Some true); RequestRefresh]
                  (after failing_config
                     [EvGet config_url; EvSleep 1000; EvGet config_url;
                      EvSleep 1000; EvGet config_url; EvSleep 3000]))).
  unfold switch.async_turn_on.
  cbn [switch.set_optimistic_state switch.entity_description
       switch.coordinator co_switch switch.LucjanSwitch_init
       switch.turn_on_fn api fresh_coordinator].
  rewrite Hco. reflexivity.
Defined.

Lemma switch_state_witness :
  @switch.is_on http co_switch
  = switch.is_on_fn (switch.entity_description co_switch)
      <$> data (switch.coordinator co_switch).
Proof.
  apply (proj1 (@switch_state http builtins co_switch eq_refl)).
Defined.

Lemma current_option_spec_witness :
  @select.current_option http co_select = None.
Proof.
  apply (proj1 (proj2 (@current_option_spec http co_select)));
    reflexivity.
Defined.

Lemma set_temperature_ignores_results_witness :
  @climate.LucjanBoilerClimate_async_set_temperature http builtins
    fresh_coordinator (Some (fdiv (flit 109) (flit 2))) []
    (start failing_config)
  = (Return tt, [] ++ [RequestRefresh],
     after failing_config
       (trace (after failing_config
                 [EvGet (py "http://boiler/setPIEC_ZADANA=54");
                  EvGet config_url]) ++ [EvSleep 3000])).
Proof.
  destruct (proj1 (@set_temperature_ignores_results http builtins
                     fresh_coordinator) [] (start failing_config))
    as (_ & _ & _ & Hrule).
  apply (proj2 (Hrule (fdiv (flit 109) (flit 2)) 54
                  ltac:(vm_compute; reflexivity))
           true
           (after failing_config
              [EvGet (py "http://boiler/setPIEC_ZADANA=54")])
           false
           (after failing_config
              [EvGet (py "http://boiler/setPIEC_ZADANA=54");
               EvGet config_url])).
  - vm_compute. reflexivity.
  - vm_compute. reflexivity.
Defined.
